(** * Event-driven backtesting framework: a shallow embedding

    The development follows the Python sources under [core/] and
    [examples/mean_reversion_demo.py]:

    - [core/event_engine.py]  -> Section [EventEngine]
    - [core/data_handler.py]  -> Module  [DataHandler]
    - [core/strategy.py]      -> Class   [Strategy], Module [MeanReversionStrategy]
    - [core/portfolio.py]     -> Module  [Portfolio]
    - [core/execution.py]     -> Module  [ExecutionHandler]
    - [examples/mean_reversion_demo.py] -> Section [Backtest]

    Number model.  Python [int] is [Z].  Python and numpy floats are
    idealised as exact rationals [Q]: every finite float is a rational, and
    the arithmetic of the sources is read without rounding.  The two
    non-finite situations the sources can reach are modelled explicitly: a
    NaN mean or deviation is [None], and a division by a zero price or a
    zero deviation is an effect (an exception, respectively a numpy
    warning).  Dictionaries are [gmap string _]. *)

From Stdlib Require Import QArith Qround Qabs Lqa ZArith String.
From stdpp Require Import gmap strings list fin_maps.

Local Open Scope string_scope.
Local Open Scope list_scope.

(** ** Numbers *)

Module Num.

Definition Qlt_bool (x y : Q) : bool := negb (Qle_bool y x).

(** Python's [int(x)] on a finite float: truncation toward zero. *)
Definition py_int (x : Q) : Z := Z.quot (Qnum x) (Z.pos (Qden x)).

(** Python's [min(a, b)]: [b] when [b < a], else [a]. *)
Definition py_min (a b : Q) : Q := if Qlt_bool b a then b else a.

(** Python's [abs]. *)
Definition py_abs (x : Q) : Q := Qabs x.

(** Rounding to the nearest integer, ties to even: what [timedelta] does
    with a fractional number of microseconds. *)
Definition round_half_even (x : Q) : Z :=
  let f := Qfloor x in
  let r := (x - inject_Z f)%Q in
  if Qlt_bool r (1 # 2) then f
  else if Qlt_bool (1 # 2) r then (f + 1)%Z
  else if Z.even f then f else (f + 1)%Z.

(** Python's [sum(xs)]: left to right from the integer 0. *)
Definition py_sum (xs : list Q) : Q := fold_left Qplus xs 0%Q.

End Num.

(** ** Event model *)

(** Modelled from the spec: [core/event.py] is not among the sources.  The
    tags and fields are those of section 3 of the specification, with the
    field names the constructor calls of the sources use ([timestamp],
    [symbol], [open], ..., [signal_type], [strength], [order_type],
    [quantity], [direction], [fill_price], [commission], [slippage]).
    Timestamps are [datetime] values, here microseconds since the epoch.
    [direction] is the string the sources compare with ['BUY']. *)

Module EventType.
Inductive t := MARKET | SIGNAL | ORDER | FILL.
End EventType.

Module SignalType.
Inductive t := LONG | SHORT | EXIT.
End SignalType.

Module OrderType.
Inductive t := MARKET | LIMIT.
End OrderType.

Definition datetime := Z.

Module MarketEvent.
Record t := mk {
  timestamp : datetime;
  symbol : string;
  open : Q;
  high : Q;
  low : Q;
  close : Q;
  volume : Q
}.
End MarketEvent.

Module SignalEvent.
Record t := mk {
  timestamp : datetime;
  symbol : string;
  signal_type : SignalType.t;
  strength : Q
}.
End SignalEvent.

Module OrderEvent.
Record t := mk {
  timestamp : datetime;
  symbol : string;
  order_type : OrderType.t;
  quantity : Z;
  direction : string
}.
End OrderEvent.

Module FillEvent.
Record t := mk {
  timestamp : datetime;
  symbol : string;
  quantity : Z;
  direction : string;
  fill_price : Q;
  commission : Q;
  slippage : Q
}.
End FillEvent.

Inductive Event :=
| EMarket (m : MarketEvent.t)
| ESignal (s : SignalEvent.t)
| EOrder (o : OrderEvent.t)
| EFill (f : FillEvent.t).

Definition event_type (e : Event) : EventType.t :=
  match e with
  | EMarket _ => EventType.MARKET
  | ESignal _ => EventType.SIGNAL
  | EOrder _ => EventType.ORDER
  | EFill _ => EventType.FILL
  end.

(** ** Effects

    A method of a component runs on the state of that component, may call
    [event_engine.put_event] any number of times, may [print], and either
    returns or raises.  State, queued events and console lines survive an
    exception, as in Python. *)

Inductive Exn :=
| ZeroDivisionError
| KeyError (key : string)
| IndexError
| AttributeError.

Inductive Outcome (A : Type) :=
| Returned (a : A)
| Raised (e : Exn).
Arguments Returned {A} a.
Arguments Raised {A} e.

Record Run (St A : Type) := mkRun {
  outcome : Outcome A;
  final : St;
  emitted : list Event;
  console : list string
}.
Arguments mkRun {St A}.
Arguments outcome {St A}.
Arguments final {St A}.
Arguments emitted {St A}.
Arguments console {St A}.

Definition Eff (St A : Type) : Type := St -> Run St A.

Definition ret {St A} (a : A) : Eff St A :=
  fun s => mkRun (Returned a) s [] [].

Definition bind {St A B} (m : Eff St A) (k : A -> Eff St B) : Eff St B :=
  fun s =>
    let r := m s in
    match outcome r with
    | Raised e => mkRun (Raised e) (final r) (emitted r) (console r)
    | Returned a =>
        let r' := k a (final r) in
        mkRun (outcome r') (final r')
              (emitted r ++ emitted r') (console r ++ console r')
    end.

Declare Scope eff_scope.
Delimit Scope eff_scope with eff.
Notation "x <- m ;; k" := (bind m (fun x => k))
  (at level 100, m at next level, right associativity) : eff_scope.
Notation "m ;; k" := (bind m (fun _ => k))
  (at level 100, right associativity) : eff_scope.
Local Open Scope eff_scope.

Definition get_state {St} : Eff St St :=
  fun s => mkRun (Returned s) s [] [].

Definition set_state {St} (s : St) : Eff St unit :=
  fun _ => mkRun (Returned tt) s [] [].

Definition raise {St A} (e : Exn) : Eff St A :=
  fun s => mkRun (Raised e) s [] [].

(** [event_engine.put_event(e)] as seen from a component: the event goes to
    the tail of the queue the component shares with the dispatcher. *)
Definition put_event {St} (e : Event) : Eff St unit :=
  fun s => mkRun (Returned tt) s [e] [].

Definition print {St} (line : string) : Eff St unit :=
  fun s => mkRun (Returned tt) s [] [line].

(** Running a method of a component that is a field of a larger state. *)
Definition zoom {St Sub A} (get : St -> Sub) (set : Sub -> St -> St)
    (m : Eff Sub A) : Eff St A :=
  fun s =>
    let r := m (get s) in
    mkRun (outcome r) (set (final r) s) (emitted r) (console r).

(** ** [core/event_engine.py] *)

Section EventEngine.

(** [St] is everything the registered handlers close over (portfolio,
    strategy, ...).  A handler reaches the dispatcher through [put_event]
    only, which is all the handlers of this repository do. *)
Context {St : Type}.

Definition Handler : Type := Event -> Eff St unit.

Record EventEngine := mkEngine {
  event_queue : list Event;
  handlers : EventType.t -> list Handler;
  running : bool
}.

(** [EventEngine.__init__] *)
Definition new_engine : EventEngine :=
  mkEngine [] (fun _ => []) false.

Definition event_type_eqb (a b : EventType.t) : bool :=
  match a, b with
  | EventType.MARKET, EventType.MARKET
  | EventType.SIGNAL, EventType.SIGNAL
  | EventType.ORDER, EventType.ORDER
  | EventType.FILL, EventType.FILL => true
  | _, _ => false
  end.

(** [self.handlers[event_type].append(handler)] *)
Definition register_handler (k : EventType.t) (h : Handler)
    (eng : EventEngine) : EventEngine :=
  mkEngine (event_queue eng)
           (fun k' => if event_type_eqb k k'
                      then handlers eng k' ++ [h]
                      else handlers eng k')
           (running eng).

(** [EventEngine.put_event]: [self.event_queue.append(event)] *)
Definition engine_put_event (e : Event) (eng : EventEngine) : EventEngine :=
  mkEngine (event_queue eng ++ [e]) (handlers eng) (running eng).

Definition enqueue_all (es : list Event) (eng : EventEngine) : EventEngine :=
  mkEngine (event_queue eng ++ es) (handlers eng) (running eng).

(** The [for handler in handlers:] loop of [process_events].  The
    [await] of a coroutine handler resumes it in place: one task drives
    the whole run, so nothing interleaves. *)
Fixpoint call_handlers (hs : list Handler) (e : Event) : Eff St unit :=
  match hs with
  | [] => ret tt
  | h :: hs' => h e ;; call_handlers hs' e
  end.

(** [EventEngine.process_events].  The [while self.event_queue:] loop need
    not end (a handler may enqueue its own trigger for ever), hence the
    fuel: [None] is "still looping after [fuel] events".  The state is the
    engine together with the handlers' state; events the handlers put are
    appended to the queue. *)
Fixpoint process_events (fuel : nat) (eng : EventEngine) (st : St)
    : option (Run (EventEngine * St) unit) :=
  match fuel with
  | O => None
  | S fuel' =>
      match event_queue eng with
      | [] => Some (mkRun (Returned tt) (eng, st) [] [])
      | e :: rest =>
          let r := call_handlers (handlers eng (event_type e)) e st in
          let eng' :=
            mkEngine (rest ++ emitted r) (handlers eng) (running eng) in
          match outcome r with
          | Raised x =>
              Some (mkRun (Raised x) (eng', final r) [] (console r))
          | Returned _ =>
              match process_events fuel' eng' (final r) with
              | None => None
              | Some r' =>
                  Some (mkRun (outcome r') (final r') []
                              (console r ++ console r'))
              end
          end
      end
  end.

(** Handling a list of events one after the other, each by the handlers
    of its kind: the reference behaviour a drain is compared with. *)
Fixpoint dispatch_all (eng : EventEngine) (es : list Event) : Eff St unit :=
  match es with
  | [] => ret tt
  | e :: es' =>
      call_handlers (handlers eng (event_type e)) e ;; dispatch_all eng es'
  end.

End EventEngine.

Arguments EventEngine St : clear implicits.
Arguments Handler St : clear implicits.

(** ** [core/data_handler.py] *)

Module DataHandler.

(** One row of a symbol's [DataFrame]: the index entry and the OHLCV
    columns. *)
Record Bar := mkBar {
  index : datetime;
  open : Q;
  high : Q;
  low : Q;
  close : Q;
  volume : Q
}.

(** [load_data] and [generate_synthetic_data] only fill [data] (one frame
    per symbol of [symbols]) and are not modelled: a state is taken with
    [data] already loaded. *)
Record t := mk {
  symbols : list string;
  data : gmap string (list Bar);
  current_index : nat
}.

(** [df.iloc[a:b]] for [0 <= a]. *)
Definition iloc_slice (a b : Z) (df : list Bar) : list Bar :=
  take (Z.to_nat (b - a)) (drop (Z.to_nat a) df).

Definition get_latest_bars (self : t) (symbol : string) (n : Z)
    : option (list Bar) :=
  match data self !! symbol with
  | None => None
  | Some df =>
      let ci := Z.of_nat (current_index self) in
      if (ci <? n)%Z then None
      else Some (iloc_slice (ci - n) ci df)
  end.

(** [min(len(df) for df in self.data.values())]; [None] on an empty
    dictionary, which [stream_next_bar] rules out before. *)
Definition max_length (self : t) : option nat :=
  match (fun kv : string * list Bar => length kv.2) <$> map_to_list (data self) with
  | [] => None
  | n :: ns => Some (foldr Nat.min n ns)
  end.

Definition market_event (symbol : string) (bar : Bar) : Event :=
  EMarket (MarketEvent.mk (index bar) symbol (open bar) (high bar)
                          (low bar) (close bar) (volume bar)).

(** The [for symbol in self.symbols:] loop of [stream_next_bar].
    [self.data[symbol]] raises [KeyError] for a symbol without a frame. *)
Fixpoint put_bars (syms : list string) : Eff t unit :=
  match syms with
  | [] => ret tt
  | symbol :: syms' =>
      self <- get_state ;;
      match data self !! symbol with
      | None => raise (KeyError symbol)
      | Some df =>
          match df !! current_index self with
          | None => raise IndexError
          | Some bar => put_event (market_event symbol bar) ;; put_bars syms'
          end
      end
  end.

Definition stream_next_bar : Eff t bool :=
  self <- get_state ;;
  match max_length self with
  | None => ret false
  | Some ml =>
      if (ml <=? current_index self)%nat then ret false
      else
        put_bars (symbols self) ;;
        self' <- get_state ;;
        set_state (mk (symbols self') (data self') (S (current_index self'))) ;;
        ret true
  end.

End DataHandler.

(** ** [core/strategy.py] *)

(** The abstract base class [Strategy]: one required operation, which reads
    the data handler and the event, keeps its own state and puts events. *)
Class Strategy (T : Type) := {
  calculate_signals : MarketEvent.t -> DataHandler.t -> Eff T unit
}.

Module MeanReversionStrategy.

Record t := mk {
  symbol : string;
  lookback : Z;
  num_std : Q;
  position : Z
}.

(** [MeanReversionStrategy.__init__] *)
Definition init (symbol : string) (lookback : Z) (num_std : Q) : t :=
  mk symbol lookback num_std 0.

Section Pandas.

(** The square root numpy applies to the variance.  It is a library
    function on floats, kept as a parameter. *)
Variable np_sqrt : Q -> Q.

Local Open Scope Q_scope.

(** [Series.mean()]: NaN ([None]) on an empty series. *)
Definition series_mean (xs : list Q) : option Q :=
  match xs with
  | [] => None
  | _ => Some (Num.py_sum xs / inject_Z (Z.of_nat (length xs)))
  end.

(** [Series.std()], the sample deviation ([ddof=1]): NaN ([None]) on
    fewer than two values. *)
Definition series_var (xs : list Q) : option Q :=
  match series_mean xs with
  | None => None
  | Some avg =>
      if (length xs <=? 1)%nat then None
      else Some (Num.py_sum (map (fun x => (avg - x) * (avg - x)) xs)
                 / inject_Z (Z.of_nat (length xs) - 1))
  end.

Definition series_std (xs : list Q) : option Q :=
  np_sqrt <$> series_var xs.

(** [min(1.0, num / std)] on numpy scalars.  A zero [std] does not raise:
    numpy issues a [RuntimeWarning] (recorded on the console) and the
    quotient is [inf], which [min] caps at [1.0]; at both call sites
    the numerator is positive. *)
Definition capped_ratio (num std : Q) : Eff t Q :=
  if Qeq_bool std 0
  then print "RuntimeWarning: divide by zero encountered in scalar divide" ;;
       ret 1
  else ret (Num.py_min 1 (num / std)).

Definition set_position (p : Z) : Eff t unit :=
  self <- get_state ;;
  set_state (mk (symbol self) (lookback self) (num_std self) p).

Definition emit_signal (event : MarketEvent.t) (ty : SignalType.t)
    (strength : Q) (new_position : Z) : Eff t unit :=
  self <- get_state ;;
  set_position new_position ;;
  put_event (ESignal (SignalEvent.mk (MarketEvent.timestamp event)
                                     (symbol self) ty strength)).

Definition calculate_signals (event : MarketEvent.t)
    (data_handler : DataHandler.t) : Eff t unit :=
  self <- get_state ;;
  if negb (String.eqb (MarketEvent.symbol event) (symbol self)) then ret tt
  else
    match DataHandler.get_latest_bars data_handler (symbol self) (lookback self) with
    | None => ret tt
    | Some bars =>
        if (Z.of_nat (length bars) <? lookback self)%Z then ret tt
        else
          let closes := map DataHandler.close bars in
          match series_mean closes, series_std closes with
          | Some sma, Some std =>
              let upper_band := sma + num_std self * std in
              let lower_band := sma - num_std self * std in
              let current_price := MarketEvent.close event in
              if Num.Qlt_bool current_price lower_band
                 && (position self =? 0)%Z
              then
                strength <- capped_ratio (lower_band - current_price) std ;;
                emit_signal event SignalType.LONG strength 1
              else if Num.Qlt_bool upper_band current_price
                      && (position self =? 1)%Z
              then
                strength <- capped_ratio (current_price - upper_band) std ;;
                emit_signal event SignalType.EXIT strength 0
              else if Num.Qlt_bool (Num.py_abs (current_price - sma))
                                   ((1 # 2) * std)
                      && (position self =? 1)%Z
              then emit_signal event SignalType.EXIT (1 # 2) 0
              else ret tt
          | _, _ =>
              (* a NaN mean or deviation makes every comparison false *)
              ret tt
          end
    end.

End Pandas.

End MeanReversionStrategy.

#[export] Instance mean_reversion_strategy (np_sqrt : Q -> Q)
    : Strategy MeanReversionStrategy.t :=
  {| calculate_signals := MeanReversionStrategy.calculate_signals np_sqrt |}.

(** ** [core/portfolio.py] *)

Module Portfolio.

(** One entry of [self.trades]. *)
Record Trade := mkTrade {
  trade_timestamp : datetime;
  trade_symbol : string;
  trade_direction : string;
  trade_quantity : Z;
  trade_price : Q;
  trade_commission : Q;
  trade_slippage : Q
}.

Record t := mk {
  initial_capital : Q;
  current_capital : Q;
  positions : gmap string Z;
  holdings : gmap string Q;
  equity_curve : list (datetime * Q);
  trades : list Trade;
  current_prices : gmap string Q
}.

Local Open Scope Q_scope.

(** [Portfolio.__init__] *)
Definition init (initial_capital : Q) : t :=
  mk initial_capital initial_capital ∅ ∅ [] [] ∅.

(** [sum(d.values())] *)
Definition sum_values (d : gmap string Q) : Q :=
  Num.py_sum ((map_to_list d).*2).

Definition get_total_equity (self : t) : Q :=
  current_capital self + sum_values (holdings self).

Definition update_market_price (symbol : string) (price : Q)
    (timestamp : datetime) : Eff t unit :=
  self <- get_state ;;
  let current_prices' := <[symbol := price]> (current_prices self) in
  let holdings' :=
    match positions self !! symbol with
    | Some q => <[symbol := inject_Z q * price]> (holdings self)
    | None => holdings self
    end in
  let total_equity := current_capital self + sum_values holdings' in
  set_state (mk (initial_capital self) (current_capital self)
                (positions self) holdings'
                (equity_curve self ++ [(timestamp, total_equity)])
                (trades self) current_prices').

Definition market_order (event : SignalEvent.t) (quantity : Z)
    (direction : string) : Event :=
  EOrder (OrderEvent.mk (SignalEvent.timestamp event)
                        (SignalEvent.symbol event)
                        OrderType.MARKET quantity direction).

(** [int(capital * 0.1 * strength / price)].  A zero price makes the
    quotient [inf] or [nan] (a [ZeroDivisionError] between Python floats);
    [int] then raises.  The model has one exception for all of these. *)
Definition position_size (self : t) (event : SignalEvent.t)
    : Outcome Z :=
  let price :=
    default 100 (current_prices self !! SignalEvent.symbol event) in
  if Qeq_bool price 0 then Raised ZeroDivisionError
  else Returned (Num.py_int
         (current_capital self * (1 # 10) * SignalEvent.strength event
          / price)).

Definition process_signal (event : SignalEvent.t) : Eff t unit :=
  self <- get_state ;;
  let symbol := SignalEvent.symbol event in
  match position_size self event with
  | Raised e => raise e
  | Returned position_size =>
      if (position_size =? 0)%Z then ret tt
      else
        match SignalEvent.signal_type event with
        | SignalType.LONG =>
            put_event (market_order event position_size "BUY")
        | SignalType.SHORT =>
            put_event (market_order event position_size "SELL")
        | SignalType.EXIT =>
            match positions self !! symbol with
            | Some held =>
                if (0 <? held)%Z
                then put_event (market_order event held "SELL")
                else ret tt
            | None => ret tt
            end
        end
  end.

Definition process_fill (event : FillEvent.t) : Eff t unit :=
  self <- get_state ;;
  let symbol := FillEvent.symbol event in
  let held := default 0%Z (positions self !! symbol) in
  let qty := FillEvent.quantity event in
  let '(held', capital') :=
    if String.eqb (FillEvent.direction event) "BUY"
    then
      let cost :=
        FillEvent.fill_price event * inject_Z qty
        + FillEvent.commission event in
      ((held + qty)%Z, current_capital self - cost)
    else
      let proceeds :=
        FillEvent.fill_price event * inject_Z qty
        - FillEvent.commission event in
      ((held - qty)%Z, current_capital self + proceeds) in
  let positions' := <[symbol := held']> (positions self) in
  let holdings' :=
    match current_prices self !! symbol with
    | Some price => <[symbol := inject_Z held' * price]> (holdings self)
    | None => holdings self
    end in
  set_state (mk (initial_capital self) capital' positions' holdings'
                (equity_curve self)
                (trades self ++
                   [mkTrade (FillEvent.timestamp event) symbol
                            (FillEvent.direction event) qty
                            (FillEvent.fill_price event)
                            (FillEvent.commission event)
                            (FillEvent.slippage event)])
                (current_prices self)).

End Portfolio.

(** ** [core/execution.py] *)

(** The global generator behind [np.random.uniform]: a sequence of draws
    from the unit interval and a cursor.  [uniform(low, high)] is
    [low + (high - low) * u] for the next draw [u]. *)
Module NpRandom.

Record t := mk {
  draws : nat -> Q;
  cursor : nat
}.

Local Open Scope Q_scope.

Definition uniform (low high : Q) : Eff t Q :=
  self <- get_state ;;
  set_state (mk (draws self) (S (cursor self))) ;;
  ret (low + (high - low) * draws self (cursor self)).

End NpRandom.

Module ExecutionHandler.

Record t := mk {
  slippage_pct : Q;
  commission_pct : Q;
  latency_ms : Q * Q;
  current_prices : gmap string Q
}.

Local Open Scope Q_scope.

(** [ExecutionHandler.__init__] with its default arguments. *)
Definition init : t := mk (1 # 1000) (1 # 1000) (10, 50) ∅.

Definition update_market_price (symbol : string) (price : Q) : Eff t unit :=
  self <- get_state ;;
  set_state (mk (slippage_pct self) (commission_pct self) (latency_ms self)
                (<[symbol := price]> (current_prices self))).

(** [event.timestamp + timedelta(milliseconds=latency * 1000)] for a
    latency in seconds: [timedelta] keeps whole microseconds. *)
Definition add_latency (timestamp : datetime) (latency : Q) : datetime :=
  (timestamp + Num.round_half_even (latency * 1000 * 1000))%Z.

(** The state is the handler and numpy's generator.  [asyncio.sleep] only
    suspends the one running task. *)
Definition execute_order (event : OrderEvent.t) : Eff (t * NpRandom.t) unit :=
  self <- zoom fst (fun _ s => s) get_state ;;
  u <- zoom snd (fun g s => (s.1, g))
         (NpRandom.uniform (latency_ms self).1 (latency_ms self).2) ;;
  let latency := u / 1000 in
  match current_prices self !! OrderEvent.symbol event with
  | None =>
      print ("[v0] Warning: No market price available for "
             ++ OrderEvent.symbol event)%string
  | Some base_price =>
      let slippage_factor :=
        match OrderEvent.order_type event with
        | OrderType.MARKET => slippage_pct self * (3 # 2)
        | OrderType.LIMIT => slippage_pct self
        end in
      r <- zoom snd (fun g s => (s.1, g)) (NpRandom.uniform (1 # 2) (3 # 2)) ;;
      let slippage := base_price * slippage_factor * r in
      let fill_price :=
        if String.eqb (OrderEvent.direction event) "BUY"
        then base_price + slippage
        else base_price - slippage in
      let commission :=
        fill_price * inject_Z (OrderEvent.quantity event)
        * commission_pct self in
      put_event (EFill (FillEvent.mk
        (add_latency (OrderEvent.timestamp event) latency)
        (OrderEvent.symbol event)
        (OrderEvent.quantity event)
        (OrderEvent.direction event)
        fill_price
        commission
        (Num.py_abs (fill_price - base_price))))
  end.

End ExecutionHandler.

(** ** [examples/mean_reversion_demo.py]: [run_backtest] *)

Section Backtest.

(** The demo builds a [MeanReversionStrategy]; the wiring below only uses
    the [calculate_signals] of the base class. *)
Context {T : Type} {strategy_class : Strategy T}.

(** The objects [run_backtest] creates and its handlers close over;
    [np_random] is numpy's global generator. *)
Record Components := mkComponents {
  data_handler : DataHandler.t;
  portfolio : Portfolio.t;
  execution_handler : ExecutionHandler.t;
  strategy : T;
  np_random : NpRandom.t
}.

Definition set_data_handler (d : DataHandler.t) (c : Components) :=
  mkComponents d (portfolio c) (execution_handler c) (strategy c) (np_random c).
Definition set_portfolio (p : Portfolio.t) (c : Components) :=
  mkComponents (data_handler c) p (execution_handler c) (strategy c) (np_random c).
Definition set_execution_handler (x : ExecutionHandler.t) (c : Components) :=
  mkComponents (data_handler c) (portfolio c) x (strategy c) (np_random c).
Definition set_strategy (s : T) (c : Components) :=
  mkComponents (data_handler c) (portfolio c) (execution_handler c) s (np_random c).
Definition set_execution (xg : ExecutionHandler.t * NpRandom.t) (c : Components) :=
  mkComponents (data_handler c) (portfolio c) xg.1 (strategy c) xg.2.

(** A handler is called only with events of the kind it is registered
    for; on any other event its attribute accesses would fail. *)
Definition handle_market_event (event : Event) : Eff Components unit :=
  match event with
  | EMarket m =>
      zoom portfolio set_portfolio
        (Portfolio.update_market_price (MarketEvent.symbol m)
           (MarketEvent.close m) (MarketEvent.timestamp m)) ;;
      zoom execution_handler set_execution_handler
        (ExecutionHandler.update_market_price (MarketEvent.symbol m)
           (MarketEvent.close m)) ;;
      c <- get_state ;;
      zoom strategy set_strategy (calculate_signals m (data_handler c))
  | _ => raise AttributeError
  end.

Definition handle_signal_event (event : Event) : Eff Components unit :=
  match event with
  | ESignal s => zoom portfolio set_portfolio (Portfolio.process_signal s)
  | _ => raise AttributeError
  end.

Definition handle_order_event (event : Event) : Eff Components unit :=
  match event with
  | EOrder o =>
      zoom (fun c => (execution_handler c, np_random c)) set_execution
        (ExecutionHandler.execute_order o)
  | _ => raise AttributeError
  end.

Definition handle_fill_event (event : Event) : Eff Components unit :=
  match event with
  | EFill f => zoom portfolio set_portfolio (Portfolio.process_fill f)
  | _ => raise AttributeError
  end.

(** The four [register_handler] calls, in the order of the demo. *)
Definition demo_engine : EventEngine Components :=
  register_handler EventType.FILL handle_fill_event
    (register_handler EventType.ORDER handle_order_event
      (register_handler EventType.SIGNAL handle_signal_event
        (register_handler EventType.MARKET handle_market_event
          new_engine))).

(** The loop
    [while await data_handler.stream_next_bar():
         await event_engine.process_events(); bar_count += 1].
    [fuel] bounds the number of bars, [drain_fuel] each drain; the result
    is [bar_count].  The progress prints are left out. *)
Fixpoint backtest_loop (drain_fuel fuel : nat)
    (eng : EventEngine Components) (c : Components) (bar_count : nat)
    : option (Run (EventEngine Components * Components) nat) :=
  match fuel with
  | O => None
  | S fuel' =>
      let r := zoom data_handler set_data_handler
                    DataHandler.stream_next_bar c in
      let eng1 := enqueue_all (emitted r) eng in
      match outcome r with
      | Raised x => Some (mkRun (Raised x) (eng1, final r) [] (console r))
      | Returned false =>
          Some (mkRun (Returned bar_count) (eng1, final r) [] (console r))
      | Returned true =>
          match process_events drain_fuel eng1 (final r) with
          | None => None
          | Some d =>
              match outcome d with
              | Raised x =>
                  Some (mkRun (Raised x) (final d) []
                              (console r ++ console d))
              | Returned _ =>
                  match backtest_loop drain_fuel fuel'
                          (final d).1 (final d).2 (S bar_count) with
                  | None => None
                  | Some r' =>
                      Some (mkRun (outcome r') (final r') []
                                  (console r ++ console d ++ console r'))
                  end
              end
          end
      end
  end.

(** The components as [run_backtest] creates them, for a given symbol
    list, loaded data, strategy object, initial capital and generator
    state.  The demo has [symbols = ['AAPL']] and 100000.0. *)
Definition initial_components (symbols : list string)
    (data : gmap string (list DataHandler.Bar)) (strat : T)
    (initial_capital : Q) (rng : NpRandom.t) : Components :=
  mkComponents (DataHandler.mk symbols data 0)
               (Portfolio.init initial_capital)
               ExecutionHandler.init strat rng.

Definition run_backtest (drain_fuel fuel : nat) (symbols : list string)
    (data : gmap string (list DataHandler.Bar)) (strat : T)
    (initial_capital : Q) (rng : NpRandom.t) :=
  backtest_loop drain_fuel fuel demo_engine
    (initial_components symbols data strat initial_capital rng) 0.

End Backtest.

Arguments Components T : clear implicits.

(** ** Sequences of ledger operations *)

Module Ledger.

(** The three entry points of [Portfolio] that the handlers call. *)
Inductive Op :=
| UpdateMarketPrice (symbol : string) (price : Q) (timestamp : datetime)
| ProcessSignal (event : SignalEvent.t)
| ProcessFill (event : FillEvent.t).

Definition call (op : Op) : Eff Portfolio.t unit :=
  match op with
  | UpdateMarketPrice s p ts => Portfolio.update_market_price s p ts
  | ProcessSignal ev => Portfolio.process_signal ev
  | ProcessFill ev => Portfolio.process_fill ev
  end.

(** The portfolio after a call, whether it returned or raised. *)
Definition step (p : Portfolio.t) (op : Op) : Portfolio.t :=
  final (call op p).

Definition run (ops : list Op) (p : Portfolio.t) : Portfolio.t :=
  fold_left step ops p.

(** [holdings[s] = positions[s] * current_prices[s]], entry by entry: a
    symbol has a holdings entry exactly when it has both a price and a
    position. *)
Definition holdings_consistent (p : Portfolio.t) : Prop :=
  forall s : string,
    Portfolio.holdings p !! s =
    match Portfolio.current_prices p !! s with
    | Some price =>
        (fun q => (inject_Z q * price)%Q) <$> Portfolio.positions p !! s
    | None => None
    end.

End Ledger.


(** ** Concrete scenarios *)





(** An execution handler with the default rates that has seen AAPL at 100,
    a generator whose draws are all 1/2, and a market BUY of 10 units. *)
Definition quoted_execution : ExecutionHandler.t :=
  final (ExecutionHandler.update_market_price "AAPL" 100%Q ExecutionHandler.init).

Definition midpoint_rng : NpRandom.t :=
  NpRandom.mk (fun _ => (1 # 2)%Q) 0.

Definition buy_order : OrderEvent.t :=
  OrderEvent.mk 0%Z "AAPL" OrderType.MARKET 10%Z "BUY".

(** ** Measures for the drain *)

(** The sum of a weight over a queue. *)
Definition queue_weight (weight : Event -> nat) (es : list Event) : nat :=
  foldr (fun e n => (weight e + n)%nat) 0%nat es.

(** A tracing engine: the handlers' state is the list of handler names
    called so far.  Two handlers for MARKET, the first of which puts a
    signal; one handler for SIGNAL. *)
Definition tracing_handler (name : string) (spawn : list Event)
    : Handler (list string) :=
  fun _ =>
    log <- get_state ;;
    set_state (log ++ [name]) ;;
    foldr (fun e k => put_event e ;; k) (ret tt) spawn.

Definition traced_signal : Event :=
  ESignal (SignalEvent.mk 0%Z "AAPL" SignalType.LONG 1%Q).

Definition traced_market (ts : Z) : Event :=
  EMarket (MarketEvent.mk ts "AAPL" 1%Q 1%Q 1%Q 1%Q 1%Q).

Definition tracing_engine : EventEngine (list string) :=
  engine_put_event (traced_market 2)
    (engine_put_event (traced_market 1)
      (register_handler EventType.SIGNAL (tracing_handler "on_signal" [])
        (register_handler EventType.MARKET (tracing_handler "on_market_2" [])
          (register_handler EventType.MARKET
             (tracing_handler "on_market_1" [traced_signal])
             new_engine)))).

(** ** A computable square root for the concrete scenarios

    [floor(sqrt(n * d)) / d] for [x = n / d]: a rational approximation of
    the square root from below, which is 0 only at 0. *)
Definition floor_sqrt (x : Q) : Q :=
  (inject_Z (Z.sqrt (Qnum x * Z.pos (Qden x))) / inject_Z (Z.pos (Qden x)))%Q.

Definition flat_bar (ts : Z) : DataHandler.Bar :=
  DataHandler.mkBar ts 100%Q 100%Q 100%Q 100%Q 1000%Q.

(** Three bars of AAPL, all closing at 100, all streamed. *)
Definition flat_data_handler : DataHandler.t :=
  DataHandler.mk ["AAPL"]
    {[ "AAPL" := [flat_bar 0; flat_bar 1; flat_bar 2] ]} 3.

Definition flat_market_event : MarketEvent.t :=
  MarketEvent.mk 2%Z "AAPL" 100%Q 100%Q 100%Q 100%Q 1000%Q.

(** ** Measures for the backtest loop *)

Definition is_market (e : Event) : bool :=
  match e with EMarket _ => true | _ => false end.

Definition count_market (es : list Event) : nat :=
  length (filter (fun e => is_market e = true) es).

(** The longest chain an event can start in the demo wiring: a market
    event at most a signal, a signal at most an order, an order at most a
    fill. *)
Definition demo_weight (e : Event) : nat :=
  match e with
  | EMarket _ => 4
  | ESignal _ => 3
  | EOrder _ => 2
  | EFill _ => 1
  end.

(** The bars [stream_next_bar] has still to stream. *)
Definition bars_left (d : DataHandler.t) : nat :=
  match DataHandler.max_length d with
  | None => 0
  | Some ml => ml - DataHandler.current_index d
  end.

(** Two tracked symbols with one bar each. *)
Definition two_symbol_data : gmap string (list DataHandler.Bar) :=
  {[ "AAPL" := [flat_bar 0]; "MSFT" := [flat_bar 0] ]}.

(** What is read off a finished run: the outcome and the equity curve. *)
Definition run_summary {T : Type}
    (run : option (Run (EventEngine (Components T) * Components T) nat))
    : option (Outcome nat * list (datetime * Q)) :=
  match run with
  | Some r => Some (outcome r, Portfolio.equity_curve (portfolio (final r).2))
  | None => None
  end.

Definition two_symbol_run :=
  run_backtest (strategy_class := mean_reversion_strategy floor_sqrt) 9 2
    ["AAPL"; "MSFT"] two_symbol_data
    (MeanReversionStrategy.init "AAPL" 20 2) 100000%Q midpoint_rng.

(** Nineteen bars closing at 100 and a twentieth closing at 80, all
    streamed: the band scenario of the specification. *)
Definition band_bar (ts : Z) (close : Q) : DataHandler.Bar :=
  DataHandler.mkBar ts close close close close 1000%Q.

Definition band_data_handler : DataHandler.t :=
  DataHandler.mk ["AAPL"]
    {[ "AAPL" := map (fun i => band_bar (Z.of_nat i) 100%Q) (seq 0 19)
                 ++ [band_bar 19 80%Q] ]} 20.

Definition band_market_event : MarketEvent.t :=
  MarketEvent.mk 19%Z "AAPL" 80%Q 80%Q 80%Q 80%Q 1000%Q.

(** What [process_signal] does, call by call: the state is returned as it
    was, and at most one order is put. *)
Definition process_signal_orders (self : Portfolio.t) (event : SignalEvent.t)
    (size : Z) : list Event :=
  if (size =? 0)%Z then []
  else
    match SignalEvent.signal_type event with
    | SignalType.LONG => [Portfolio.market_order event size "BUY"]
    | SignalType.SHORT => [Portfolio.market_order event size "SELL"]
    | SignalType.EXIT =>
        match Portfolio.positions self !! SignalEvent.symbol event with
        | Some held =>
            if (0 <? held)%Z
            then [Portfolio.market_order event held "SELL"] else []
        | None => []
        end
    end.

(** ** The fills of a sequence of ledger operations *)

Module Fills.

(** The record [process_fill] appends to [self.trades]. *)
Definition trade_of_fill (f : FillEvent.t) : Portfolio.Trade :=
  Portfolio.mkTrade (FillEvent.timestamp f) (FillEvent.symbol f)
    (FillEvent.direction f) (FillEvent.quantity f) (FillEvent.fill_price f)
    (FillEvent.commission f) (FillEvent.slippage f).

Definition fills_of (ops : list Ledger.Op) : list FillEvent.t :=
  flat_map (fun op => match op with
                      | Ledger.ProcessFill f => [f]
                      | _ => []
                      end) ops.

(** The timestamps of the [update_market_price] calls. *)
Definition updates_of (ops : list Ledger.Op) : list datetime :=
  flat_map (fun op => match op with
                      | Ledger.UpdateMarketPrice _ _ ts => [ts]
                      | _ => []
                      end) ops.

(** [event.direction == 'BUY'] *)
Definition is_buy (f : FillEvent.t) : bool :=
  String.eqb (FillEvent.direction f) "BUY".

(** What a fill adds to the position of its symbol. *)
Definition signed_quantity (f : FillEvent.t) : Z :=
  if is_buy f then FillEvent.quantity f else (- FillEvent.quantity f)%Z.

(** What a fill adds to cash. *)
Definition cash_flow (f : FillEvent.t) : Q :=
  if is_buy f
  then (- (FillEvent.fill_price f * inject_Z (FillEvent.quantity f)
           + FillEvent.commission f))%Q
  else (FillEvent.fill_price f * inject_Z (FillEvent.quantity f)
        - FillEvent.commission f)%Q.

Definition fills_for (symbol : string) (fs : list FillEvent.t)
    : list FillEvent.t :=
  List.filter (fun f => String.eqb (FillEvent.symbol f) symbol) fs.

Definition net_quantity (fs : list FillEvent.t) : Z :=
  fold_right (fun f acc => (signed_quantity f + acc)%Z) 0%Z fs.

Definition net_cash_flow (fs : list FillEvent.t) : Q :=
  fold_right (fun f acc => (cash_flow f + acc)%Q) 0%Q fs.

End Fills.



(** A tracing handler that raises after it has logged its name and put its
    events, and an engine with three MARKET handlers, the second of which
    raises. *)
Definition raising_handler (name : string) (spawn : list Event)
    : Handler (list string) :=
  fun e => tracing_handler name spawn e ;; raise (KeyError name).

Definition faulty_engine : EventEngine (list string) :=
  engine_put_event (traced_market 2)
    (engine_put_event (traced_market 1)
      (register_handler EventType.MARKET (tracing_handler "third" [])
        (register_handler EventType.MARKET
           (raising_handler "second" [traced_signal])
           (register_handler EventType.MARKET (tracing_handler "first" [])
              new_engine)))).

(** A fill event; [tracing_engine] has no handler for its kind. *)
Definition traced_fill : Event :=
  EFill (FillEvent.mk 0%Z "AAPL" 1%Z "BUY" 1%Q 0%Q 0%Q).

(** A weight under which the handlers of [tracing_engine] put less than
    they handle. *)
Definition tracing_weight (e : Event) : nat :=
  match e with EMarket _ => 2 | _ => 1 end.

(** A handler tracking AAPL and MSFT that has a frame for AAPL only. *)
Definition half_loaded_data_handler : DataHandler.t :=
  DataHandler.mk ["AAPL"; "MSFT"] {[ "AAPL" := [flat_bar 0; flat_bar 1] ]} 0.

(** AAPL with three bars, MSFT with one. *)
Definition uneven_data : gmap string (list DataHandler.Bar) :=
  {[ "AAPL" := [flat_bar 0; flat_bar 1; flat_bar 2]; "MSFT" := [flat_bar 0] ]}.

Definition uneven_run :=
  run_backtest (strategy_class := mean_reversion_strategy floor_sqrt) 9 5
    ["AAPL"; "MSFT"] uneven_data
    (MeanReversionStrategy.init "AAPL" 20 2) 100000%Q midpoint_rng.

(** The two price caches hold the same prices. *)
Definition prices_agree {T : Type} (c : Components T) : Prop :=
  Portfolio.current_prices (portfolio c)
  = ExecutionHandler.current_prices (execution_handler c).

(** ** Sequences of strategy calls *)

(** [calculate_signals] called for one market event after the other, each
    time with the data handler as it is then; the result is the strategy
    object at the end and everything it put. *)
Fixpoint run_strategy (np_sqrt : Q -> Q)
    (calls : list (MarketEvent.t * DataHandler.t))
    (self : MeanReversionStrategy.t)
    : MeanReversionStrategy.t * list Event :=
  match calls with
  | [] => (self, [])
  | (event, data_handler) :: calls' =>
      let r := MeanReversionStrategy.calculate_signals np_sqrt event
                 data_handler self in
      let rest := run_strategy np_sqrt calls' (final r) in
      (rest.1, emitted r ++ rest.2)
  end.

(** A list of LONG and EXIT signals that alternate, starting with a LONG
    when [expect_long] and with an EXIT otherwise. *)
Fixpoint alternates (expect_long : bool) (es : list Event) : Prop :=
  match es with
  | [] => True
  | ESignal sg :: es' =>
      match SignalEvent.signal_type sg, expect_long with
      | SignalType.LONG, true => alternates false es'
      | SignalType.EXIT, false => alternates true es'
      | _, _ => False
      end
  | _ :: _ => False
  end.

Definition with_position (self : MeanReversionStrategy.t) (p : Z)
    : MeanReversionStrategy.t :=
  MeanReversionStrategy.mk (MeanReversionStrategy.symbol self)
    (MeanReversionStrategy.lookback self) (MeanReversionStrategy.num_std self) p.

(** A queued signal or order is priced when the portfolio has recorded a
    price for its symbol. *)
Definition priced {T : Type} (c : Components T) (e : Event) : Prop :=
  match e with
  | ESignal s =>
      is_Some (Portfolio.current_prices (portfolio c) !! SignalEvent.symbol s)
  | EOrder o =>
      is_Some (Portfolio.current_prices (portfolio c) !! OrderEvent.symbol o)
  | _ => True
  end.

(** The caches agree and everything queued is priced. *)
Definition all_priced {T : Type} (queue : list Event) (c : Components T) : Prop :=
  prices_agree c /\ Forall (priced c) queue.

(** The only line a run of the demo can print besides the missing-price
    warning. *)
Definition is_divide_warning (line : string) : Prop :=
  line = "RuntimeWarning: divide by zero encountered in scalar divide".

(** ** Trade statistics of the demo

    [run_backtest] adds a [pnl] column to the trade log when the log is not
    empty: 0 for every row, then, for each row [i >= 1] whose direction is
    ['SELL'], [(price[i] - price[i-1]) * quantity[i]]. *)
Module TradeStats.

Fixpoint pnl_after (previous : Portfolio.Trade) (trades : list Portfolio.Trade)
    : list Q :=
  match trades with
  | [] => []
  | t :: trades' =>
      (if String.eqb (Portfolio.trade_direction t) "SELL"
       then ((Portfolio.trade_price t - Portfolio.trade_price previous)
             * inject_Z (Portfolio.trade_quantity t))%Q
       else 0%Q)
      :: pnl_after t trades'
  end.

(** The [pnl] column; [None] when the log is empty and no column is
    added. *)
Definition pnl_column (trades : list Portfolio.Trade) : option (list Q) :=
  match trades with
  | [] => None
  | t :: trades' => Some (0%Q :: pnl_after t trades')
  end.

Definition count_profitable (pnl : list Q) : nat :=
  List.length (List.filter (fun x => Num.Qlt_bool 0 x) pnl).

(** [PerformanceMetrics.hit_rate] of [core/metrics.py], on the [pnl] column
    of the frame: 0.0 for an empty frame or a frame without the column,
    else the share of rows with a positive [pnl]. *)
Definition hit_rate (pnl : option (list Q)) : Q :=
  match pnl with
  | None => 0
  | Some [] => 0
  | Some col =>
      (inject_Z (Z.of_nat (count_profitable col))
       / inject_Z (Z.of_nat (List.length col)))%Q
  end.

(** The rows after the first whose direction is ['SELL']. *)
Definition later_sells (trades : list Portfolio.Trade) : nat :=
  List.length (List.filter
                 (fun t => String.eqb (Portfolio.trade_direction t) "SELL")
                 (tl trades)).

End TradeStats.

(** * Properties *)

(** ** The effect monad *)

Lemma bind_ret_l {St A B} (a : A) (k : A -> Eff St B) (s : St) :
  bind (ret a) k s = k a s.
Proof. unfold bind, ret; simpl. destruct (k a s); reflexivity. Qed.

Lemma bind_ret_r {St} (m : Eff St unit) (s : St) :
  bind m (fun _ => ret tt) s = m s.
Proof.
  unfold bind, ret. destruct (m s) as [[[]|x] s' em co]; cbn;
    rewrite ?app_nil_r; reflexivity.
Qed.

Lemma bind_assoc {St A B C} (m : Eff St A) (k : A -> Eff St B)
    (k' : B -> Eff St C) (s : St) :
  bind (bind m k) k' s = bind m (fun a => bind (k a) k') s.
Proof.
  unfold bind. destruct (m s) as [[a|x] s1 em1 co1]; cbn; [|reflexivity].
  destruct (k a s1) as [[b|x] s2 em2 co2]; cbn; [|reflexivity].
  destruct (k' b s2) as [o3 s3 em3 co3]; cbn.
  rewrite !app_assoc. reflexivity.
Qed.

Lemma bind_run {St A B} (m : Eff St A) (k : A -> Eff St B) (s : St) :
  bind m k s =
  match outcome (m s) with
  | Raised e => mkRun (Raised e) (final (m s)) (emitted (m s)) (console (m s))
  | Returned a =>
      mkRun (outcome (k a (final (m s)))) (final (k a (final (m s))))
            (emitted (m s) ++ emitted (k a (final (m s))))
            (console (m s) ++ console (k a (final (m s))))
  end.
Proof. reflexivity. Qed.

Lemma bind_get {St A} (k : St -> Eff St A) (s : St) :
  bind get_state k s = k s s.
Proof. unfold bind, get_state. cbn. destruct (k s s); reflexivity. Qed.

(** A [put_event] followed by [k]: the event heads what [k] puts. *)
Lemma bind_put_event {St A} (e : Event) (k : Eff St A) (s : St) :
  bind (put_event e) (fun _ => k) s
  = mkRun (outcome (k s)) (final (k s)) (e :: emitted (k s)) (console (k s)).
Proof. reflexivity. Qed.

Lemma bind_ext {St A B} (m : Eff St A) (k k' : A -> Eff St B) (s : St) :
  (forall a s', k a s' = k' a s') -> bind m k s = bind m k' s.
Proof.
  intros Hk. unfold bind. destruct (outcome (m s)); [rewrite Hk|]; reflexivity.
Qed.

(** ** Portfolio: sizing and orders *)


Lemma position_size_zero_price (self : Portfolio.t) (event : SignalEvent.t) :
  (default 100%Q (Portfolio.current_prices self !! SignalEvent.symbol event)
   == 0)%Q ->
  Portfolio.position_size self event = Raised ZeroDivisionError.
Proof.
  intros Hp. unfold Portfolio.position_size.
  apply Qeq_bool_iff in Hp. rewrite Hp. reflexivity.
Qed.


Ltac eff_unfold :=
  unfold bind, ret, get_state, set_state, raise, put_event, print, zoom;
  simpl.

Lemma process_signal_run (self : Portfolio.t) (event : SignalEvent.t) :
  Portfolio.process_signal event self =
  match Portfolio.position_size self event with
  | Raised e => mkRun (Raised e) self [] []
  | Returned size =>
      mkRun (Returned tt) self (process_signal_orders self event size) []
  end.
Proof.
  unfold Portfolio.process_signal, process_signal_orders. eff_unfold.
  destruct (Portfolio.position_size self event) as [size|e]; [|reflexivity].
  destruct (size =? 0)%Z; [reflexivity|].
  destruct (SignalEvent.signal_type event); try reflexivity.
  destruct (Portfolio.positions self !! SignalEvent.symbol event) as [held|];
    [destruct (0 <? held)%Z|]; reflexivity.
Qed.




(** What an EXIT does once the size computed from cash and strength is not
    zero: it sells the whole positive position, and puts nothing when no
    positive position is held; whatever the size, it never puts a BUY. *)
Lemma process_signal_exit (self : Portfolio.t) (event : SignalEvent.t) (size : Z) :
  SignalEvent.signal_type event = SignalType.EXIT ->
  Portfolio.position_size self event = Returned size ->
  let r := Portfolio.process_signal event self in
  let held := default 0%Z (Portfolio.positions self !! SignalEvent.symbol event) in
  (size <> 0%Z -> (0 < held)%Z ->
     emitted r = [Portfolio.market_order event held "SELL"]) /\
  ((held <= 0)%Z -> emitted r = []) /\
  (forall o, In (EOrder o) (emitted r) ->
     OrderEvent.direction o = "SELL" /\ OrderEvent.quantity o = held /\ (0 < held)%Z).
Proof.
  intros Hty Hsz r held. subst r. rewrite process_signal_run, Hsz.
  cbn [emitted]. unfold process_signal_orders. rewrite Hty. subst held.
  assert (Hin1 : forall (o : OrderEvent.t) (e : Event) (P : Prop),
             (EOrder o = e -> P) -> In (EOrder o) [e] -> P).
  { intros o e P HP [Heq|[]]. apply HP. symmetry. exact Heq. }
  destruct (Portfolio.positions self !! SignalEvent.symbol event) as [h|];
    unfold default, from_option, id.
  - destruct (Z.eqb_spec size 0) as [Hz|Hnz];
      destruct (Z.ltb_spec 0 h) as [Hpos|Hnp].
    + split; [intros; contradiction|]. split; [intros; lia|]. intros o [].
    + split; [intros; contradiction|]. split; [reflexivity|]. intros o [].
    + split; [reflexivity|]. split; [intros; lia|].
      intros o Hin. revert Hin. apply Hin1. unfold Portfolio.market_order.
      intros Heq. inversion Heq. cbn. auto.
    + split; [intros; lia|]. split; [reflexivity|]. intros o [].
  - destruct (size =? 0)%Z.
    + split; [intros; lia|]. split; [reflexivity|]. intros o [].
    + split; [intros; lia|]. split; [reflexivity|]. intros o [].
Qed.

(** The portfolio after [process_signal] is the portfolio before it. *)
Lemma process_signal_final (self : Portfolio.t) (event : SignalEvent.t) :
  final (Portfolio.process_signal event self) = self /\
  console (Portfolio.process_signal event self) = [].
Proof.
  rewrite process_signal_run.
  destruct (Portfolio.position_size self event); split; reflexivity.
Qed.

Lemma process_signal_emits (event : SignalEvent.t) (p : Portfolio.t) :
  emitted (Portfolio.process_signal event p) = [] \/
  exists o, emitted (Portfolio.process_signal event p) = [EOrder o].
Proof.
  rewrite process_signal_run.
  destruct (Portfolio.position_size p event) as [size|e]; cbn [emitted];
    [|left; reflexivity].
  unfold process_signal_orders, Portfolio.market_order.
  destruct (size =? 0)%Z; [left; reflexivity|].
  destruct (SignalEvent.signal_type event); try (right; eexists; reflexivity).
  destruct (Portfolio.positions p !! SignalEvent.symbol event) as [h|];
    [destruct (0 <? h)%Z|]; (left; reflexivity) || (right; eexists; reflexivity).
Qed.


(** C10: [process_signal] returns the portfolio it was given, field for
    field, prints nothing, and puts either nothing or one order; this holds
    when it raises as well.  In a sequence of ledger operations a
    [process_signal] step is the identity. *)
Theorem C10_process_signal_frame (self : Portfolio.t) (event : SignalEvent.t) :
  let r := Portfolio.process_signal event self in
  final r = self /\
  console r = [] /\
  (emitted r = [] \/ exists o, emitted r = [EOrder o]) /\
  Ledger.step self (Ledger.ProcessSignal event) = self.
Proof.
  cbn zeta. destruct (process_signal_final self event) as [Hfin Hcon].
  split; [exact Hfin|]. split; [exact Hcon|].
  split; [apply process_signal_emits | exact Hfin].
Qed.

(** ** Portfolio: fills *)

Lemma process_fill_run (self : Portfolio.t) (event : FillEvent.t) :
  let r := Portfolio.process_fill event self in
  outcome r = Returned tt /\ emitted r = [] /\ console r = [].
Proof.
  unfold Portfolio.process_fill. eff_unfold.
  destruct (String.eqb (FillEvent.direction event) "BUY"); repeat split.
Qed.



(** ** Portfolio: the ledger invariant *)

Lemma holdings_consistent_init (capital : Q) :
  Ledger.holdings_consistent (Portfolio.init capital).
Proof. intros s. cbn. rewrite !lookup_empty. reflexivity. Qed.

Lemma holdings_consistent_step (p : Portfolio.t) (op : Ledger.Op) :
  Ledger.holdings_consistent p ->
  Ledger.holdings_consistent (Ledger.step p op).
Proof.
  intros Hinv. destruct op as [sym price ts|ev|ev].
  - (* update_market_price *)
    intros s. specialize (Hinv s).
    unfold Ledger.step, Ledger.call, Portfolio.update_market_price.
    eff_unfold.
    destruct (decide (sym = s)) as [->|Hne].
    + rewrite lookup_insert_eq.
      destruct (Portfolio.positions p !! s) as [q|] eqn:Hq; cbn [fmap option_fmap option_map].
      * rewrite lookup_insert_eq. reflexivity.
      * rewrite Hinv.
        destruct (Portfolio.current_prices p !! s); reflexivity.
    + rewrite lookup_insert_ne by exact Hne.
      destruct (Portfolio.positions p !! sym);
        [rewrite lookup_insert_ne by exact Hne|]; exact Hinv.
  - (* process_signal *)
    unfold Ledger.step, Ledger.call.
    destruct (process_signal_final p ev) as [-> _]. exact Hinv.
  - (* process_fill *)
    intros s. specialize (Hinv s).
    unfold Ledger.step, Ledger.call, Portfolio.process_fill.
    eff_unfold.
    destruct (String.eqb (FillEvent.direction ev) "BUY");
      cbn [final Portfolio.current_prices Portfolio.positions Portfolio.holdings];
      (destruct (decide (s = FillEvent.symbol ev)) as [->|Hne];
       [ rewrite lookup_insert_eq;
         destruct (Portfolio.current_prices p !! FillEvent.symbol ev)
           as [price|] eqn:Hp;
         [ rewrite lookup_insert_eq; reflexivity
         | exact Hinv ]
       | rewrite lookup_insert_ne by congruence;
         destruct (Portfolio.current_prices p !! FillEvent.symbol ev);
         [rewrite lookup_insert_ne by congruence|]; exact Hinv ]).
Qed.

Lemma run_snoc (ops : list Ledger.Op) (op : Ledger.Op) (p : Portfolio.t) :
  Ledger.run (ops ++ [op]) p = Ledger.step (Ledger.run ops p) op.
Proof. unfold Ledger.run. rewrite fold_left_app. reflexivity. Qed.

Lemma holdings_consistent_run (ops : list Ledger.Op) (p : Portfolio.t) :
  Ledger.holdings_consistent p ->
  Ledger.holdings_consistent (Ledger.run ops p).
Proof.
  revert p. induction ops as [|op ops IH]; intros p Hp; [exact Hp|].
  cbn. apply IH, holdings_consistent_step, Hp.
Qed.

(** An [update_market_price] appends the equity of the state it produces;
    the other two operations leave the curve alone. *)
Lemma equity_curve_step (p : Portfolio.t) (op : Ledger.Op) :
  Portfolio.equity_curve (Ledger.step p op) =
  match op with
  | Ledger.UpdateMarketPrice _ _ ts =>
      Portfolio.equity_curve p
        ++ [(ts, Portfolio.get_total_equity (Ledger.step p op))]
  | _ => Portfolio.equity_curve p
  end.
Proof.
  destruct op as [sym price ts|ev|ev].
  - reflexivity.
  - unfold Ledger.step, Ledger.call.
    destruct (process_signal_final p ev) as [-> _]. reflexivity.
  - unfold Ledger.step, Ledger.call, Portfolio.process_fill. eff_unfold.
    destruct (String.eqb (FillEvent.direction ev) "BUY"); reflexivity.
Qed.

Lemma equity_curve_recorded (ops : list Ledger.Op) (p0 : Portfolio.t) :
  Portfolio.equity_curve p0 = [] ->
  forall (i : nat) (ts : datetime) (equity : Q),
    Portfolio.equity_curve (Ledger.run ops p0) !! i = Some (ts, equity) ->
    exists before sym price after,
      ops = before ++ Ledger.UpdateMarketPrice sym price ts :: after /\
      length (Portfolio.equity_curve (Ledger.run before p0)) = i /\
      equity = Portfolio.get_total_equity
                 (Ledger.run (before ++ [Ledger.UpdateMarketPrice sym price ts]) p0).
Proof.
  intros Hempty.
  induction ops as [|op ops IH] using rev_ind; intros i ts equity Hi.
  - cbn in Hi. rewrite Hempty in Hi. discriminate Hi.
  - rewrite run_snoc, equity_curve_step in Hi.
    assert (Hold :
      Portfolio.equity_curve (Ledger.run ops p0) !! i = Some (ts, equity) ->
      exists before sym price after,
        ops ++ [op] = before ++ Ledger.UpdateMarketPrice sym price ts :: after /\
        length (Portfolio.equity_curve (Ledger.run before p0)) = i /\
        equity = Portfolio.get_total_equity
                   (Ledger.run (before ++ [Ledger.UpdateMarketPrice sym price ts]) p0)).
    { intros Hprev.
      destruct (IH i ts equity Hprev) as (before & sym & price & after & -> & Hlen & Heq).
      exists before, sym, price, (after ++ [op]).
      rewrite <- app_assoc. cbn. auto. }
    destruct op as [sym price ts'|ev|ev]; try (apply Hold, Hi).
    destruct (Nat.lt_ge_cases i
                (length (Portfolio.equity_curve (Ledger.run ops p0))))
      as [Hlt|Hge].
    + rewrite lookup_app_l in Hi by exact Hlt. apply Hold, Hi.
    + rewrite lookup_app_r in Hi by exact Hge.
      destruct (i - length (Portfolio.equity_curve (Ledger.run ops p0)))%nat
        as [|k] eqn:Hk; [|destruct k; discriminate Hi].
      cbn in Hi. injection Hi as <- <-.
      exists ops, sym, price, []. split; [reflexivity|]. split; [lia|].
      rewrite run_snoc. reflexivity.
Qed.

(** C1: along every sequence of [update_market_price], [process_signal] and
    [process_fill] calls on a fresh portfolio, each symbol with a recorded
    price has [holdings[s] = positions[s] * price] (no holdings entry when
    there is no position entry); and each entry of the equity curve was
    appended by an [update_market_price] with that timestamp and equals
    cash plus the sum of the holdings of the state that call produced. *)
Theorem C1_ledger_invariant (capital : Q) (ops : list Ledger.Op) :
  let p := Ledger.run ops (Portfolio.init capital) in
  (forall (s : string) (price : Q),
     Portfolio.current_prices p !! s = Some price ->
     Portfolio.holdings p !! s
       = (fun q => (inject_Z q * price)%Q) <$> Portfolio.positions p !! s) /\
  (forall (i : nat) (ts : datetime) (equity : Q),
     Portfolio.equity_curve p !! i = Some (ts, equity) ->
     exists before sym price after,
       ops = before ++ Ledger.UpdateMarketPrice sym price ts :: after /\
       length (Portfolio.equity_curve
                 (Ledger.run before (Portfolio.init capital))) = i /\
       let recorded :=
         Ledger.run (before ++ [Ledger.UpdateMarketPrice sym price ts])
                    (Portfolio.init capital) in
       equity = (Portfolio.current_capital recorded
                 + Portfolio.sum_values (Portfolio.holdings recorded))%Q).
Proof.
  split.
  - intros s price Hprice.
    pose proof (holdings_consistent_run ops _ (holdings_consistent_init capital) s)
      as Hinv.
    rewrite Hprice in Hinv. exact Hinv.
  - intros i ts equity Hi.
    apply (equity_curve_recorded ops (Portfolio.init capital) eq_refl i ts equity Hi).
Qed.

(** The premises of C1 at a concrete run: a tick, a fill, a second tick. *)
Lemma C1_ledger_invariant_witness :
  let ops :=
    [Ledger.UpdateMarketPrice "AAPL" 100%Q 0%Z;
     Ledger.ProcessFill (FillEvent.mk 1%Z "AAPL" 10%Z "BUY" 100%Q 0%Q 0%Q);
     Ledger.UpdateMarketPrice "AAPL" 110%Q 2%Z] in
  let p := Ledger.run ops (Portfolio.init 100000%Q) in
  Portfolio.holdings p !! "AAPL"
    = (fun q => (inject_Z q * 110)%Q) <$> Portfolio.positions p !! "AAPL" /\
  exists before sym price after,
    ops = before ++ Ledger.UpdateMarketPrice sym price 2%Z :: after /\
    length (Portfolio.equity_curve
              (Ledger.run before (Portfolio.init 100000%Q))) = 1%nat.
Proof.
  intros ops p.
  destruct (C1_ledger_invariant 100000%Q ops) as [Hhold Hcurve].
  split.
  - apply Hhold. reflexivity.
  - destruct (Hcurve 1%nat 2%Z (100100 # 1)%Q)
      as (before & sym & price & after & Hops & Hlen & _).
    + vm_compute. reflexivity.
    + exists before, sym, price, after. split; [exact Hops | exact Hlen].
Defined.

(** ** Execution simulator *)

(** The two draws of a call: latency first, then the slippage factor. *)
Lemma execute_order_known_price (self : ExecutionHandler.t) (rng : NpRandom.t)
    (event : OrderEvent.t) :
  let latency :=
    (((ExecutionHandler.latency_ms self).1
      + ((ExecutionHandler.latency_ms self).2
         - (ExecutionHandler.latency_ms self).1)
        * NpRandom.draws rng (NpRandom.cursor rng)) / 1000)%Q in
  let r :=
    ((1 # 2) + ((3 # 2) - (1 # 2))
               * NpRandom.draws rng (S (NpRandom.cursor rng)))%Q in
  forall b : Q,
  ExecutionHandler.current_prices self !! OrderEvent.symbol event = Some b ->
  let slippage :=
    (b * match OrderEvent.order_type event with
         | OrderType.MARKET => ExecutionHandler.slippage_pct self * (3 # 2)
         | OrderType.LIMIT => ExecutionHandler.slippage_pct self
         end * r)%Q in
  let fill_price :=
    if String.eqb (OrderEvent.direction event) "BUY"
    then (b + slippage)%Q else (b - slippage)%Q in
  ExecutionHandler.execute_order event (self, rng) =
  mkRun (Returned tt)
        (self, NpRandom.mk (NpRandom.draws rng) (S (S (NpRandom.cursor rng))))
        [EFill (FillEvent.mk
           (ExecutionHandler.add_latency (OrderEvent.timestamp event) latency)
           (OrderEvent.symbol event) (OrderEvent.quantity event)
           (OrderEvent.direction event) fill_price
           (fill_price * inject_Z (OrderEvent.quantity event)
            * ExecutionHandler.commission_pct self)%Q
           (Num.py_abs (fill_price - b)))]
        [].
Proof.
  intros latency r b Hb. unfold ExecutionHandler.execute_order. eff_unfold.
  rewrite Hb. reflexivity.
Qed.

Lemma execute_order_unknown_price (self : ExecutionHandler.t) (rng : NpRandom.t)
    (event : OrderEvent.t) :
  ExecutionHandler.current_prices self !! OrderEvent.symbol event = None ->
  ExecutionHandler.execute_order event (self, rng) =
  mkRun (Returned tt)
        (self, NpRandom.mk (NpRandom.draws rng) (S (NpRandom.cursor rng)))
        []
        [("[v0] Warning: No market price available for "
          ++ OrderEvent.symbol event)%string].
Proof.
  intros Hb. unfold ExecutionHandler.execute_order. eff_unfold.
  rewrite Hb. reflexivity.
Qed.

(** C5: for an order whose symbol has the base price [b], with [r] the
    value [uniform(0.5, 1.5)] returns (in [[0.5, 1.5]] for a unit draw):
    one fill is put; the slippage magnitude is [b * rate * m * r] with
    [m = 1.5] for MARKET and [1] for LIMIT; the fill price is [b] plus the
    magnitude for a BUY and [b] minus it otherwise (for a SELL); the fill's
    [slippage] is [|fill_price - b|]; and for [b] and the rate not negative
    the BUY price is at least [b], the SELL price at most [b]. *)
Theorem C5_execute_order_slippage
    (self : ExecutionHandler.t) (rng : NpRandom.t) (event : OrderEvent.t) (b : Q) :
  let u := NpRandom.draws rng (S (NpRandom.cursor rng)) in
  let r := ((1 # 2) + ((3 # 2) - (1 # 2)) * u)%Q in
  let m := match OrderEvent.order_type event with
           | OrderType.MARKET => (3 # 2)%Q
           | OrderType.LIMIT => 1%Q
           end in
  let magnitude := (b * ExecutionHandler.slippage_pct self * m * r)%Q in
  let run := ExecutionHandler.execute_order event (self, rng) in
  ExecutionHandler.current_prices self !! OrderEvent.symbol event = Some b ->
  (0 <= u <= 1)%Q ->
  ((1 # 2) <= r <= (3 # 2))%Q /\
  outcome run = Returned tt /\
  exists fill,
    emitted run = [EFill fill] /\
    (OrderEvent.direction event = "BUY" ->
       (FillEvent.fill_price fill == b + magnitude)%Q) /\
    (OrderEvent.direction event <> "BUY" ->
       (FillEvent.fill_price fill == b - magnitude)%Q) /\
    FillEvent.slippage fill = Qabs (FillEvent.fill_price fill - b) /\
    (Qabs (FillEvent.fill_price fill - b) == Qabs magnitude)%Q /\
    ((0 <= b)%Q -> (0 <= ExecutionHandler.slippage_pct self)%Q ->
       (OrderEvent.direction event = "BUY" -> (b <= FillEvent.fill_price fill)%Q) /\
       (OrderEvent.direction event <> "BUY" -> (FillEvent.fill_price fill <= b)%Q)).
Proof.
  intros u r m magnitude run Hb Hu.
  assert (Hr : ((1 # 2) <= r <= (3 # 2))%Q) by (subst r; split; lra).
  split; [exact Hr|].
  subst run. rewrite (execute_order_known_price self rng event b Hb).
  cbn [outcome emitted]. split; [reflexivity|].
  eexists. split; [reflexivity|]. cbn [FillEvent.fill_price FillEvent.slippage].
  fold u. fold r.
  assert (Hmag :
    (b * match OrderEvent.order_type event with
         | OrderType.MARKET => ExecutionHandler.slippage_pct self * (3 # 2)
         | OrderType.LIMIT => ExecutionHandler.slippage_pct self
         end * r == magnitude)%Q).
  { subst magnitude m. destruct (OrderEvent.order_type event); ring. }
  assert (Hnonneg : (0 <= b)%Q -> (0 <= ExecutionHandler.slippage_pct self)%Q ->
                    (0 <= magnitude)%Q).
  { intros H0 H1. subst magnitude.
    assert (0 <= m)%Q by (subst m; destruct (OrderEvent.order_type event); lra).
    assert (0 <= r)%Q by lra.
    repeat apply Qmult_le_0_compat; assumption. }
  destruct (String.eqb_spec (OrderEvent.direction event) "BUY") as [Hd|Hd].
  - split; [intros _; rewrite Hmag; reflexivity|].
    split; [intros Hne; contradiction|].
    split; [reflexivity|].
    split.
    + rewrite Hmag. apply Qabs_wd. ring.
    + intros H0 H1. specialize (Hnonneg H0 H1).
      split; [intros _; rewrite Hmag; lra | intros Hne; contradiction].
  - split; [intros He; contradiction|].
    split; [intros _; rewrite Hmag; reflexivity|].
    split; [reflexivity|].
    split.
    + rewrite Hmag. rewrite <- (Qabs_opp magnitude). apply Qabs_wd. ring.
    + intros H0 H1. specialize (Hnonneg H0 H1).
      split; [intros He; contradiction | intros _; rewrite Hmag; lra].
Qed.

(** C5 at a concrete order: base price 100, rate 0.001, MARKET, draw 1/2,
    hence r = 1 and a BUY fill at 100.15. *)
Lemma C5_execute_order_slippage_witness :
  exists fill,
    emitted (ExecutionHandler.execute_order buy_order
               (quoted_execution, midpoint_rng)) = [EFill fill] /\
    (FillEvent.fill_price fill == 100 + 100 * (1 # 1000) * (3 # 2) * 1)%Q.
Proof.
  destruct (C5_execute_order_slippage quoted_execution midpoint_rng buy_order 100%Q)
    as (_ & _ & fill & Hfill & Hbuy & _).
  - reflexivity.
  - cbn. split; discriminate.
  - exists fill. split; [exact Hfill|].
    rewrite (Hbuy eq_refl). reflexivity.
Defined.

(** C6: an order for a symbol without a recorded price puts no fill; the
    call returns (it does not raise) after printing the warning, and the
    handler is as before.  Consequently, when the dispatcher of the demo
    drains a queue holding that order, the queue ends empty and the
    portfolio (positions, cash and all other fields) is the one before. *)
Theorem C6_unknown_price_drops_order
    (self : ExecutionHandler.t) (rng : NpRandom.t) (event : OrderEvent.t) :
  ExecutionHandler.current_prices self !! OrderEvent.symbol event = None ->
  let run := ExecutionHandler.execute_order event (self, rng) in
  outcome run = Returned tt /\
  emitted run = [] /\
  console run = [("[v0] Warning: No market price available for "
                  ++ OrderEvent.symbol event)%string] /\
  (final run).1 = self /\
  forall (T : Type) (strat : Strategy T) (c : Components T),
    execution_handler c = self ->
    np_random c = rng ->
    exists d,
      process_events 2 (engine_put_event (EOrder event) demo_engine) c = Some d /\
      outcome d = Returned tt /\
      event_queue (final d).1 = [] /\
      portfolio (final d).2 = portfolio c /\
      execution_handler (final d).2 = self.
Proof.
  intros Hnone run. subst run.
  rewrite (execute_order_unknown_price self rng event Hnone).
  cbn [outcome emitted console final fst].
  repeat (split; [reflexivity|]).
  intros T strat c Hx Hg.
  assert (Hh : handle_order_event (EOrder event) c =
     mkRun (Returned tt)
       (set_execution
          (self, NpRandom.mk (NpRandom.draws rng) (S (NpRandom.cursor rng))) c)
       []
       [("[v0] Warning: No market price available for "
         ++ OrderEvent.symbol event)%string]).
  { unfold handle_order_event, zoom. rewrite Hx, Hg.
    rewrite (execute_order_unknown_price self rng event Hnone). reflexivity. }
  cbn [process_events engine_put_event demo_engine event_queue new_engine
       register_handler handlers app event_type event_type_eqb call_handlers].
  unfold bind. rewrite Hh. cbn.
  eexists. split; [reflexivity|]. cbn. auto.
Qed.

(** C6 at a handler that has recorded no price at all. *)
Lemma C6_unknown_price_drops_order_witness :
  emitted (ExecutionHandler.execute_order buy_order
             (ExecutionHandler.init, midpoint_rng)) = [] /\
  outcome (ExecutionHandler.execute_order buy_order
             (ExecutionHandler.init, midpoint_rng)) = Returned tt.
Proof.
  destruct (C6_unknown_price_drops_order ExecutionHandler.init midpoint_rng
              buy_order eq_refl) as (Hout & Hem & _).
  split; [exact Hem | exact Hout].
Defined.

(** ** Event dispatcher *)

Section Dispatcher.

Context {St : Type}.

Implicit Types (eng : EventEngine St) (st : St) (e : Event).

Lemma handlers_register_same k (h : Handler St) eng :
  handlers (register_handler k h eng) k = handlers eng k ++ [h].
Proof. destruct k; reflexivity. Qed.

Lemma handlers_register_other k k' (h : Handler St) eng :
  k <> k' -> handlers (register_handler k h eng) k' = handlers eng k'.
Proof. destruct k, k'; intros Hne; try reflexivity; contradiction. Qed.

(** The loop over the handlers calls them from the head of the list on:
    with one more handler at the tail, that one is called last. *)
Lemma call_handlers_snoc (hs : list (Handler St)) (h : Handler St) e st :
  call_handlers (hs ++ [h]) e st = (call_handlers hs e ;; h e) st.
Proof.
  revert st. induction hs as [|h0 hs IH]; intros st.
  - cbn [app call_handlers]. rewrite bind_ret_l, bind_ret_r. reflexivity.
  - cbn [app call_handlers]. rewrite bind_assoc.
    apply bind_ext. intros _ s'. apply IH.
Qed.

Lemma dispatch_all_handlers eng eng' (es : list Event) :
  handlers eng' = handlers eng ->
  dispatch_all eng' es = dispatch_all eng es.
Proof.
  intros Hh. induction es as [|e es IH]; [reflexivity|].
  cbn [dispatch_all]. rewrite Hh, IH. reflexivity.
Qed.

Lemma dispatch_all_cons eng e (es : list Event) st :
  let r := call_handlers (handlers eng (event_type e)) e st in
  dispatch_all eng (e :: es) st =
  match outcome r with
  | Raised x => mkRun (Raised x) (final r) (emitted r) (console r)
  | Returned _ =>
      let r' := dispatch_all eng es (final r) in
      mkRun (outcome r') (final r') (emitted r ++ emitted r')
            (console r ++ console r')
  end.
Proof. reflexivity. Qed.

(** A drain that returns has handled the queue it started with followed
    by the events put during the drain, one event after the other. *)
Lemma process_events_returns (fuel : nat) :
  forall eng st d,
    process_events fuel eng st = Some d ->
    outcome d = Returned tt ->
    exists spawned,
      dispatch_all eng (event_queue eng ++ spawned) st
        = mkRun (Returned tt) (final d).2 spawned (console d) /\
      event_queue (final d).1 = [] /\
      handlers (final d).1 = handlers eng /\
      running (final d).1 = running eng /\
      emitted d = [].
Proof.
  induction fuel as [|fuel IH]; intros eng st d Hrun Hret; [discriminate Hrun|].
  cbn [process_events] in Hrun.
  destruct (event_queue eng) as [|e rest] eqn:Hq.
  - injection Hrun as <-. exists []. cbn. rewrite Hq. auto.
  - set (r := call_handlers (handlers eng (event_type e)) e st) in *.
    destruct (outcome r) as [u|x] eqn:Hout.
    + destruct (process_events fuel _ (final r)) as [d'|] eqn:Hrec;
        [|discriminate Hrun].
      injection Hrun as <-. cbn [outcome] in Hret.
      destruct (IH _ _ _ Hrec Hret) as (spawned' & Href & Hempty & Hh & Hr & Hem).
      cbn [event_queue handlers running] in Href, Hh, Hr.
      exists (emitted r ++ spawned').
      cbn [final console emitted]. repeat split; try assumption.
      cbn [app]. rewrite dispatch_all_cons. fold r. rewrite Hout.
      rewrite (dispatch_all_handlers eng) in Href by reflexivity.
      cbn zeta. rewrite app_assoc, Href. reflexivity.
    + injection Hrun as <-. discriminate Hret.
Qed.

End Dispatcher.

Section Drain.

Context {St : Type}.

Implicit Types (eng : EventEngine St) (st : St) (e : Event).

Lemma queue_weight_app (weight : Event -> nat) (es es' : list Event) :
  queue_weight weight (es ++ es')
  = (queue_weight weight es + queue_weight weight es')%nat.
Proof.
  unfold queue_weight. induction es as [|e es IH]; [reflexivity|].
  cbn [app foldr]. rewrite IH. lia.
Qed.

(** More fuel does not change the result of a drain that ended. *)
Lemma process_events_fuel_mono (n : nat) :
  forall (m : nat) eng st d,
    process_events n eng st = Some d ->
    (n <= m)%nat ->
    process_events m eng st = Some d.
Proof.
  induction n as [|n IH]; intros m eng st d Hrun Hle; [discriminate Hrun|].
  destruct m as [|m]; [lia|].
  cbn [process_events] in *.
  destruct (event_queue eng) as [|e rest]; [exact Hrun|].
  destruct (outcome (call_handlers (handlers eng (event_type e)) e st));
    [|exact Hrun].
  destruct (process_events n _ _) as [d'|] eqn:Hrec; [|discriminate Hrun].
  rewrite (IH m _ _ _ Hrec) by lia. exact Hrun.
Qed.

(** The drain ends whenever the handlers of each event put events of a
    smaller total weight than the event they handle: the weight of the
    queue bounds the number of events handled. *)
Lemma process_events_terminates (weight : Event -> nat)
    (hs : EventType.t -> list (Handler St)) :
  (forall e st,
     (queue_weight weight (emitted (call_handlers (hs (event_type e)) e st))
      < weight e)%nat) ->
  forall (fuel : nat) (queue : list Event) (flag : bool) st,
    (queue_weight weight queue < fuel)%nat ->
    exists d, process_events fuel (mkEngine queue hs flag) st = Some d.
Proof.
  intros Hdec. induction fuel as [|fuel IH]; intros queue flag st Hlt; [lia|].
  cbn [process_events event_queue handlers running].
  destruct queue as [|e rest]; [eexists; reflexivity|].
  pose proof (Hdec e st) as He.
  destruct (outcome (call_handlers (hs (event_type e)) e st));
    [|eexists; reflexivity].
  destruct (IH (rest ++ emitted (call_handlers (hs (event_type e)) e st))
               flag (final (call_handlers (hs (event_type e)) e st)))
    as [d' Hd'].
  { rewrite queue_weight_app. unfold queue_weight in *.
    cbn [foldr] in Hlt. lia. }
  rewrite Hd'. eexists; reflexivity.
Qed.

End Drain.

(** C4: a drain that returns has handled, one after the other and each by
    the handlers of its kind, the events of the queue it started with in
    queue order, followed by the events put during the drain in the order
    they were put; it returns with the queue empty; and the handlers of a
    kind are called in the order of their registration. *)
Theorem C4_drain_is_fifo {St : Type} (eng : EventEngine St) (st : St)
    (fuel : nat) (d : Run (EventEngine St * St) unit) :
  process_events fuel eng st = Some d ->
  outcome d = Returned tt ->
  (exists spawned,
     dispatch_all eng (event_queue eng ++ spawned) st
       = mkRun (Returned tt) (final d).2 spawned (console d)) /\
  event_queue (final d).1 = [] /\
  (forall k (h : Handler St) e s,
     handlers (register_handler k h eng) k = handlers eng k ++ [h] /\
     call_handlers (handlers (register_handler k h eng) k) e s
       = (call_handlers (handlers eng k) e ;; h e) s).
Proof.
  intros Hrun Hret.
  destruct (process_events_returns fuel eng st d Hrun Hret)
    as (spawned & Href & Hempty & _).
  split; [exists spawned; exact Href|].
  split; [exact Hempty|].
  intros k h e s. rewrite handlers_register_same.
  split; [reflexivity | apply call_handlers_snoc].
Qed.

(** C4 on the tracing engine: two market events are queued; each is
    handled by the two market handlers in registration order, and the two
    signals put meanwhile are handled after both, in the same drain. *)
Lemma C4_drain_is_fifo_witness :
  exists d,
    process_events 5 tracing_engine [] = Some d /\
    (final d).2 = ["on_market_1"; "on_market_2"; "on_market_1"; "on_market_2";
                   "on_signal"; "on_signal"] /\
    event_queue (final d).1 = [] /\
    dispatch_all tracing_engine
      (event_queue tracing_engine ++ [traced_signal; traced_signal]) []
      = mkRun (Returned tt) (final d).2 [traced_signal; traced_signal] [].
Proof.
  eexists. split; [vm_compute; reflexivity|].
  split; [reflexivity|].
  match goal with
  | |- context [final ?d] =>
      destruct (C4_drain_is_fifo tracing_engine [] 5 d eq_refl eq_refl)
        as (_ & Hempty & _)
  end.
  split; [exact Hempty | vm_compute; reflexivity].
Defined.

(** ** Strategy *)

Section Sums.

Local Open Scope Q_scope.

Lemma fold_left_Qplus_acc (xs : list Q) (a : Q) :
  fold_left Qplus xs a == a + fold_left Qplus xs 0.
Proof.
  revert a. induction xs as [|x xs IH]; intros a; cbn [fold_left].
  - ring.
  - rewrite (IH (a + x)), (IH (0 + x)). ring.
Qed.

Lemma py_sum_cons (x : Q) (xs : list Q) :
  Num.py_sum (x :: xs) == x + Num.py_sum xs.
Proof.
  unfold Num.py_sum. cbn [fold_left].
  rewrite fold_left_Qplus_acc. ring.
Qed.

Lemma py_sum_nonneg (xs : list Q) :
  (forall x, In x xs -> 0 <= x) -> 0 <= Num.py_sum xs.
Proof.
  induction xs as [|x xs IH]; intros Hall.
  - unfold Num.py_sum. cbn. lra.
  - rewrite py_sum_cons.
    assert (0 <= x) by (apply Hall; left; reflexivity).
    assert (0 <= Num.py_sum xs) by (apply IH; intros y Hy; apply Hall; right; exact Hy).
    lra.
Qed.

Lemma py_sum_zero (xs : list Q) :
  (forall x, In x xs -> 0 <= x) ->
  Num.py_sum xs == 0 ->
  forall x, In x xs -> x == 0.
Proof.
  induction xs as [|y xs IH]; intros Hall Hsum x Hin; [destruct Hin|].
  rewrite py_sum_cons in Hsum.
  assert (Hy : 0 <= y) by (apply Hall; left; reflexivity).
  assert (Hxs : 0 <= Num.py_sum xs)
    by (apply py_sum_nonneg; intros z Hz; apply Hall; right; exact Hz).
  destruct Hin as [<-|Hin].
  - lra.
  - apply IH; [intros z Hz; apply Hall; right; exact Hz | lra | exact Hin].
Qed.

Lemma Qlt_bool_false (a b : Q) : b <= a -> Num.Qlt_bool a b = false.
Proof.
  intros Hle. unfold Num.Qlt_bool.
  apply Qle_bool_iff in Hle. rewrite Hle. reflexivity.
Qed.

Lemma Qlt_bool_true (a b : Q) : a < b -> Num.Qlt_bool a b = true.
Proof.
  intros Hlt. unfold Num.Qlt_bool.
  destruct (Qle_bool b a) eqn:E; [|reflexivity].
  apply Qle_bool_iff in E. lra.
Qed.

End Sums.

Section ZeroDeviation.

Local Open Scope Q_scope.

Variable np_sqrt : Q -> Q.
Hypothesis np_sqrt_zero : forall x, 0 <= x -> np_sqrt x == 0 -> x == 0.

(** A zero sample deviation means that every value is the mean. *)
Lemma series_std_zero (xs : list Q) (sma std : Q) :
  MeanReversionStrategy.series_mean xs = Some sma ->
  MeanReversionStrategy.series_std np_sqrt xs = Some std ->
  std == 0 ->
  forall x, In x xs -> x == sma.
Proof.
  intros Hmean Hstd Hzero x Hin.
  unfold MeanReversionStrategy.series_std, MeanReversionStrategy.series_var in Hstd.
  rewrite Hmean in Hstd.
  destruct (length xs <=? 1)%nat eqn:Hlen; [discriminate Hstd|].
  apply Nat.leb_gt in Hlen.
  cbn in Hstd. injection Hstd as Hstd.
  set (squares := map (fun x => (sma - x) * (sma - x)) xs) in *.
  set (n1 := inject_Z (Z.of_nat (length xs) - 1)) in *.
  assert (Hn1 : 0 < n1).
  { subst n1. change 0 with (inject_Z 0). rewrite <- Zlt_Qlt. lia. }
  assert (Hsq : forall y, In y squares -> 0 <= y).
  { intros y Hy. subst squares. apply in_map_iff in Hy.
    destruct Hy as (z & <- & _). cbn beta.
    destruct (Qlt_le_dec (sma - z) 0); nra. }
  assert (Hsum : 0 <= Num.py_sum squares) by (apply py_sum_nonneg, Hsq).
  assert (Hvar : Num.py_sum squares / n1 == 0).
  { apply np_sqrt_zero.
    - apply Qle_shift_div_l; [exact Hn1 | lra].
    - rewrite Hstd. exact Hzero. }
  assert (Hsum0 : Num.py_sum squares == 0).
  { assert (Hmul : Num.py_sum squares == (Num.py_sum squares / n1) * n1)
      by (field; lra).
    rewrite Hmul, Hvar. ring. }
  assert (Hx : (sma - x) * (sma - x) == 0).
  { apply (py_sum_zero squares Hsq Hsum0).
    subst squares. apply in_map_iff. exists x. split; [reflexivity | exact Hin]. }
  nra.
Qed.

End ZeroDeviation.

Lemma floor_sqrt_zero (x : Q) : (0 <= x)%Q -> (floor_sqrt x == 0)%Q -> (x == 0)%Q.
Proof.
  destruct x as [n d]. unfold floor_sqrt, Qle, Qeq, Qdiv, Qmult, Qinv, inject_Z.
  cbn. intros Hn Hs.
  assert (Hsq : Z.sqrt (n * Z.pos d) = 0%Z) by lia.
  assert (Hnd : (n * Z.pos d <= 0)%Z).
  { assert (H0 : (0 <= n * Z.pos d)%Z) by nia.
    pose proof (Z.sqrt_spec (n * Z.pos d) H0) as [_ Hr].
    rewrite Hsq in Hr. cbn in Hr. lia. }
  nia.
Qed.

(** The band scenario: mean 99, sample variance 20; the close of 80 is
    below the lower band and the strategy, flat so far, puts a LONG of
    strength 1 and sets its flag. *)
Example band_scenario_long :
  MeanReversionStrategy.series_mean
    (map (fun _ => 100%Q) (seq 0 19) ++ [80%Q]) = Some (1980 # 20)%Q /\
  MeanReversionStrategy.calculate_signals floor_sqrt band_market_event
    band_data_handler (MeanReversionStrategy.init "AAPL" 20 2)
  = mkRun (Returned tt) (MeanReversionStrategy.mk "AAPL" 20 2 1)
          [ESignal (SignalEvent.mk 19%Z "AAPL" SignalType.LONG 1%Q)] [].
Proof. split; vm_compute; reflexivity. Qed.

(** The window [calculate_signals] reads while the bar just streamed is
    being handled ends with that bar: [stream_next_bar] has already moved
    the cursor past it. *)
Lemma streamed_bar_in_window (d : DataHandler.t) (sym : string)
    (df bars : list DataHandler.Bar) (bar : DataHandler.Bar) (n : Z) :
  DataHandler.data d !! sym = Some df ->
  df !! DataHandler.current_index d = Some bar ->
  (1 <= n)%Z ->
  DataHandler.get_latest_bars
    (DataHandler.mk (DataHandler.symbols d) (DataHandler.data d)
                    (S (DataHandler.current_index d))) sym n = Some bars ->
  In (DataHandler.close bar) (map DataHandler.close bars).
Proof.
  intros Hdf Hbar Hn Hget.
  unfold DataHandler.get_latest_bars in Hget.
  cbn [DataHandler.data DataHandler.current_index] in Hget.
  rewrite Hdf in Hget.
  destruct (Z.ltb_spec (Z.of_nat (S (DataHandler.current_index d))) n)
    as [Hlt|Hge]; [discriminate Hget|].
  injection Hget as <-.
  apply in_map. apply list_elem_of_In.
  apply (list_elem_of_lookup_2 _ (Z.to_nat n - 1)).
  unfold DataHandler.iloc_slice.
  rewrite lookup_take_lt by lia.
  rewrite lookup_drop.
  replace (Z.to_nat (Z.of_nat (S (DataHandler.current_index d)) - n)
           + (Z.to_nat n - 1))%nat
    with (DataHandler.current_index d) by lia.
  exact Hbar.
Qed.

(** C9: for an event of the tracked symbol whose close is among the [W]
    trailing closes the data handler returns, a sample deviation of 0 makes
    [calculate_signals] return without putting a signal, without dividing
    by the deviation (no division warning is issued, no [capped_ratio] call
    is reached) and without changing the position flag. *)
Theorem C9_zero_deviation_no_signal (np_sqrt : Q -> Q)
    (self : MeanReversionStrategy.t) (data_handler : DataHandler.t)
    (event : MarketEvent.t) (bars : list DataHandler.Bar) (std : Q) :
  (forall x, (0 <= x)%Q -> (np_sqrt x == 0)%Q -> (x == 0)%Q) ->
  MarketEvent.symbol event = MeanReversionStrategy.symbol self ->
  DataHandler.get_latest_bars data_handler (MeanReversionStrategy.symbol self)
    (MeanReversionStrategy.lookback self) = Some bars ->
  (MeanReversionStrategy.lookback self <= Z.of_nat (length bars))%Z ->
  In (MarketEvent.close event) (map DataHandler.close bars) ->
  MeanReversionStrategy.series_std np_sqrt (map DataHandler.close bars) = Some std ->
  (std == 0)%Q ->
  MeanReversionStrategy.calculate_signals np_sqrt event data_handler self
    = mkRun (Returned tt) self [] [].
Proof.
  intros Hsqrt Hsym Hbars Hlen Hin Hstd Hzero.
  unfold MeanReversionStrategy.calculate_signals.
  unfold bind at 1. unfold get_state at 1. cbn [outcome final emitted console].
  rewrite Hsym, String.eqb_refl. cbn [negb]. rewrite Hbars.
  apply Z.ltb_ge in Hlen. rewrite Hlen.
  destruct (MeanReversionStrategy.series_mean (map DataHandler.close bars))
    as [sma|] eqn:Hmean.
  2:{ unfold MeanReversionStrategy.series_std, MeanReversionStrategy.series_var in Hstd.
      rewrite Hmean in Hstd. discriminate Hstd. }
  rewrite Hstd.
  pose proof (series_std_zero np_sqrt Hsqrt _ sma std Hmean Hstd Hzero _ Hin)
    as Hclose.
  rewrite (Qlt_bool_false (MarketEvent.close event)
             (sma - MeanReversionStrategy.num_std self * std)%Q)
    by (rewrite Hclose, Hzero; lra).
  rewrite (Qlt_bool_false (sma + MeanReversionStrategy.num_std self * std)%Q
             (MarketEvent.close event))
    by (rewrite Hclose, Hzero; lra).
  rewrite (Qlt_bool_false (Num.py_abs (MarketEvent.close event - sma))
             ((1 # 2) * std)%Q).
  2:{ rewrite Hzero. unfold Num.py_abs.
      pose proof (Qabs_nonneg (MarketEvent.close event - sma)). lra. }
  cbn [andb]. reflexivity.
Qed.

(** C9 at three AAPL bars closing at 100 with a window of 3: the mean is
    100, the deviation 0, and nothing is put or printed. *)
Lemma C9_zero_deviation_no_signal_witness :
  MeanReversionStrategy.series_std floor_sqrt
    (map DataHandler.close [flat_bar 0; flat_bar 1; flat_bar 2]) = Some (0 # 1458)%Q /\
  MeanReversionStrategy.calculate_signals floor_sqrt flat_market_event
    flat_data_handler (MeanReversionStrategy.init "AAPL" 3 2)
  = mkRun (Returned tt) (MeanReversionStrategy.init "AAPL" 3 2) [] [].
Proof.
  split; [vm_compute; reflexivity|].
  apply (C9_zero_deviation_no_signal floor_sqrt
           (MeanReversionStrategy.init "AAPL" 3 2) flat_data_handler
           flat_market_event [flat_bar 0; flat_bar 1; flat_bar 2] (0 # 1458)%Q).
  - exact floor_sqrt_zero.
  - reflexivity.
  - vm_compute. reflexivity.
  - cbn. lia.
  - cbn. auto.
  - vm_compute. reflexivity.
  - reflexivity.
Defined.

(** ** The backtest loop *)

(** C8, as stated, fails with two tracked symbols: the run processes one
    bar ([bar_count = 1]) and the equity curve has two entries, both with
    the timestamp of that bar. *)
Lemma C8_two_symbols_counterexample :
  exists r,
    two_symbol_run = Some r /\
    outcome r = Returned 1%nat /\
    Portfolio.equity_curve (portfolio (final r).2)
      = [(0%Z, 100000%Q); (0%Z, 100000%Q)] /\
    length (Portfolio.equity_curve (portfolio (final r).2)) <> 1%nat.
Proof.
  assert (Hsum : run_summary two_symbol_run
                 = Some (Returned 1%nat, [(0%Z, 100000%Q); (0%Z, 100000%Q)]))
    by (vm_compute; reflexivity).
  destruct two_symbol_run as [r|]; [|discriminate Hsum].
  exists r. cbn in Hsum. injection Hsum as Hout Hcurve.
  split; [reflexivity|]. split; [exact Hout|]. split; [exact Hcurve|].
  rewrite Hcurve. cbn. lia.
Qed.

Lemma update_market_price_run (symbol : string) (price : Q) (ts : datetime)
    (p : Portfolio.t) :
  let r := Portfolio.update_market_price symbol price ts p in
  outcome r = Returned tt /\ emitted r = [] /\
  length (Portfolio.equity_curve (final r))
    = S (length (Portfolio.equity_curve p)).
Proof.
  unfold Portfolio.update_market_price. eff_unfold.
  repeat split. rewrite length_app. cbn. lia.
Qed.

Lemma process_fill_curve (event : FillEvent.t) (p : Portfolio.t) :
  Portfolio.equity_curve (final (Portfolio.process_fill event p))
    = Portfolio.equity_curve p.
Proof.
  unfold Portfolio.process_fill. eff_unfold.
  destruct (String.eqb (FillEvent.direction event) "BUY"); reflexivity.
Qed.

Lemma execute_order_emits (event : OrderEvent.t)
    (xg : ExecutionHandler.t * NpRandom.t) :
  emitted (ExecutionHandler.execute_order event xg) = [] \/
  exists f, emitted (ExecutionHandler.execute_order event xg) = [EFill f].
Proof.
  destruct xg as [x g].
  destruct (ExecutionHandler.current_prices x !! OrderEvent.symbol event)
    as [b|] eqn:Hb.
  - right. rewrite (execute_order_known_price x g event b Hb).
    eexists. reflexivity.
  - left. rewrite (execute_order_unknown_price x g event Hb). reflexivity.
Qed.

(** [put_bars] puts one market event per symbol and leaves the handler as
    it is. *)
Lemma put_bars_run (syms : list string) (d : DataHandler.t) :
  let r := DataHandler.put_bars syms d in
  final r = d /\
  Forall (fun e => is_market e = true) (emitted r) /\
  (outcome r = Returned tt -> length (emitted r) = length syms).
Proof.
  induction syms as [|s syms IH]; cbn [DataHandler.put_bars].
  - cbn. auto.
  - rewrite bind_get.
    destruct (DataHandler.data d !! s) as [df|];
      [|cbn; split; [reflexivity|split; [constructor | discriminate]]].
    destruct (df !! DataHandler.current_index d) as [bar|];
      [|cbn; split; [reflexivity|split; [constructor | discriminate]]].
    rewrite bind_put_event. destruct IH as (Hfin & Hall & Hlen).
    cbn [final emitted outcome]. split; [exact Hfin|].
    split; [constructor; [reflexivity | exact Hall]|].
    intros Hret. cbn [length]. rewrite (Hlen Hret). reflexivity.
Qed.

Lemma stream_next_bar_run (d : DataHandler.t) :
  let r := DataHandler.stream_next_bar d in
  DataHandler.symbols (final r) = DataHandler.symbols d /\
  DataHandler.data (final r) = DataHandler.data d /\
  Forall (fun e => is_market e = true) (emitted r) /\
  (outcome r = Returned true ->
     length (emitted r) = length (DataHandler.symbols d) /\
     (bars_left (final r) < bars_left d)%nat) /\
  (outcome r = Returned false -> emitted r = []) /\
  (bars_left d = 0%nat -> outcome r = Returned false).
Proof.
  unfold DataHandler.stream_next_bar, bars_left. rewrite bind_get.
  destruct (DataHandler.max_length d) as [ml|] eqn:Hml.
  2:{ cbn. repeat split; auto; discriminate. }
  destruct (Nat.leb_spec ml (DataHandler.current_index d)) as [Hle|Hlt].
  { cbn. repeat split; auto; discriminate. }
  destruct (put_bars_run (DataHandler.symbols d) d) as (Hfin & Hall & Hlen).
  cbn zeta. rewrite bind_run.
  destruct (DataHandler.put_bars (DataHandler.symbols d) d)
    as [[[]|x] d' em co]; cbn [final emitted outcome console] in *; subst d'.
  - eff_unfold. rewrite !app_nil_r.
    split; [reflexivity|]. split; [reflexivity|]. split; [exact Hall|].
    split; [|split; [discriminate | lia]].
    intros _. split; [apply Hlen; reflexivity|].
    unfold DataHandler.max_length in *. cbn [DataHandler.data].
    rewrite Hml. lia.
  - split; [reflexivity|]. split; [reflexivity|]. split; [exact Hall|].
    split; [discriminate|]. split; [discriminate | lia].
Qed.

Section BacktestLoop.

Context {T : Type} {strat : Strategy T}.

(** A strategy that, like [MeanReversionStrategy], puts at most one
    event per call, and only signals. *)
Hypothesis strategy_puts_signals :
  forall m dh s,
    emitted (calculate_signals m dh s) = [] \/
    exists sig, emitted (calculate_signals m dh s) = [ESignal sig].

Implicit Types (c : Components T) (e : Event).

Lemma demo_handlers (k : EventType.t) :
  handlers (St := Components T) demo_engine k =
  [match k with
   | EventType.MARKET => handle_market_event
   | EventType.SIGNAL => handle_signal_event
   | EventType.ORDER => handle_order_event
   | EventType.FILL => handle_fill_event
   end].
Proof. destruct k; reflexivity. Qed.

Lemma execution_update_run (symbol : string) (price : Q)
    (x : ExecutionHandler.t) :
  outcome (ExecutionHandler.update_market_price symbol price x) = Returned tt /\
  emitted (ExecutionHandler.update_market_price symbol price x) = [].
Proof. split; reflexivity. Qed.

(** A market event: one more equity entry, and whatever the strategy
    puts. *)
Lemma handle_market_event_run (m : MarketEvent.t) c :
  let r := handle_market_event (EMarket m) c in
  data_handler (final r) = data_handler c /\
  emitted r = emitted (calculate_signals m (data_handler c) (strategy c)) /\
  length (Portfolio.equity_curve (portfolio (final r)))
    = S (length (Portfolio.equity_curve (portfolio c))).
Proof.
  unfold handle_market_event. cbn zeta.
  destruct (update_market_price_run (MarketEvent.symbol m)
              (MarketEvent.close m) (MarketEvent.timestamp m) (portfolio c))
    as (Ho1 & He1 & Hl1).
  destruct (execution_update_run (MarketEvent.symbol m) (MarketEvent.close m)
              (execution_handler c)) as (Ho2 & He2).
  unfold bind, zoom, get_state. cbn beta.
  destruct (Portfolio.update_market_price (MarketEvent.symbol m)
              (MarketEvent.close m) (MarketEvent.timestamp m) (portfolio c))
    as [o1 p1 em1 co1].
  cbn [outcome final emitted console] in *. subst o1 em1.
  cbn [execution_handler set_portfolio].
  destruct (ExecutionHandler.update_market_price (MarketEvent.symbol m)
              (MarketEvent.close m) (execution_handler c))
    as [o2 x2 em2 co2].
  cbn [outcome final emitted console] in *. subst o2 em2.
  cbn [outcome final emitted console data_handler portfolio strategy
       set_strategy set_execution_handler set_portfolio app].
  auto.
Qed.
Lemma count_market_cons e (es : list Event) :
  count_market (e :: es)
  = ((if is_market e then 1 else 0) + count_market es)%nat.
Proof.
  unfold count_market. rewrite filter_cons.
  destruct e; cbn [is_market]; destruct (decide _) as [Hd|Hd];
    try discriminate Hd; try (exfalso; apply Hd; reflexivity); reflexivity.
Qed.

Lemma count_market_app (es es' : list Event) :
  count_market (es ++ es') = (count_market es + count_market es')%nat.
Proof. unfold count_market. rewrite filter_app, length_app. reflexivity. Qed.

Lemma count_market_all (es : list Event) :
  Forall (fun e => is_market e = true) es -> count_market es = length es.
Proof.
  induction 1 as [|e es He _ IH]; [reflexivity|].
  rewrite count_market_cons, He, IH. reflexivity.
Qed.

Lemma count_market_none (es : list Event) :
  Forall (fun e => is_market e = false) es -> count_market es = 0%nat.
Proof.
  induction 1 as [|e es He _ IH]; [reflexivity|].
  rewrite count_market_cons, He, IH. reflexivity.
Qed.

Lemma call_demo_handlers e c :
  let r := call_handlers (handlers demo_engine (event_type e)) e c in
  data_handler (final r) = data_handler c /\
  Forall (fun e' => is_market e' = false) (emitted r) /\
  (queue_weight demo_weight (emitted r) < demo_weight e)%nat /\
  length (Portfolio.equity_curve (portfolio (final r)))
    = (length (Portfolio.equity_curve (portfolio c))
       + (if is_market e then 1 else 0))%nat.
Proof.
  rewrite demo_handlers. cbn [call_handlers]. cbn zeta. rewrite bind_ret_r.
  destruct e as [m|s|o|f]; cbn [event_type demo_weight is_market].
  - destruct (handle_market_event_run m c) as (Hdh & Hem & Hlen).
    rewrite Hdh, Hem, Hlen. split; [reflexivity|].
    destruct (strategy_puts_signals m (data_handler c) (strategy c))
      as [->|[sig ->]].
    + split; [constructor|]. split; [cbn; lia | lia].
    + split; [repeat constructor|]. split; [cbn; lia | lia].
  - unfold handle_signal_event, zoom.
    destruct (process_signal_final (portfolio c) s) as [Hfin _].
    rewrite Hfin. cbn [final emitted outcome data_handler portfolio set_portfolio].
    split; [reflexivity|].
    destruct (process_signal_emits s (portfolio c)) as [->|[ord ->]].
    + split; [constructor|]. split; [cbn; lia | lia].
    + split; [repeat constructor|]. split; [cbn; lia | lia].
  - unfold handle_order_event, zoom.
    cbn [final emitted outcome data_handler portfolio set_execution].
    split; [reflexivity|].
    destruct (execute_order_emits o (execution_handler c, np_random c))
      as [->|[fl ->]].
    + split; [constructor|]. split; [cbn; lia | lia].
    + split; [repeat constructor|]. split; [cbn; lia | lia].
  - unfold handle_fill_event, zoom.
    cbn [final emitted outcome data_handler portfolio set_portfolio].
    split; [reflexivity|].
    destruct (process_fill_run (portfolio c) f) as (_ & -> & _).
    split; [constructor|]. split; [cbn; lia|].
    rewrite process_fill_curve. lia.
Qed.

Lemma queue_weight_markets (es : list Event) :
  Forall (fun e => is_market e = true) es ->
  queue_weight demo_weight es = (4 * length es)%nat.
Proof.
  unfold queue_weight.
  induction 1 as [|e es He _ IH]; [reflexivity|].
  cbn [foldr length]. rewrite IH. destruct e; try discriminate He.
  cbn [demo_weight]. lia.
Qed.

(** Handling a list of events with the demo handlers: the data handler
    is not touched, no market event is put, and the equity curve grows
    by one entry per market event handled. *)
Lemma dispatch_all_demo (eng : EventEngine (Components T)) (es : list Event) :
  handlers eng = handlers demo_engine ->
  forall c,
    let r := dispatch_all eng es c in
    data_handler (final r) = data_handler c /\
    Forall (fun e => is_market e = false) (emitted r) /\
    (outcome r = Returned tt ->
       length (Portfolio.equity_curve (portfolio (final r)))
       = (length (Portfolio.equity_curve (portfolio c)) + count_market es)%nat).
Proof.
  intros Hh. induction es as [|e es IH]; intros c.
  - cbn. repeat split; [constructor | intros _; cbn; lia].
  - cbn zeta. rewrite dispatch_all_cons. cbn zeta. rewrite Hh.
    destruct (call_demo_handlers e c) as (Hdh & Hnm & _ & Hlen).
    cbn zeta in Hdh, Hnm, Hlen.
    destruct (outcome (call_handlers (handlers demo_engine (event_type e)) e c))
      as [u|x].
    + destruct (IH (final (call_handlers (handlers demo_engine (event_type e)) e c)))
        as (Hdh' & Hnm' & Hlen').
      cbn zeta in Hdh', Hnm', Hlen'.
      cbn [final emitted outcome].
      split; [rewrite Hdh', Hdh; reflexivity|].
      split; [apply Forall_app; split; assumption|].
      intros Hret. rewrite (Hlen' Hret), Hlen, count_market_cons. lia.
    + cbn [final emitted outcome].
      split; [exact Hdh|]. split; [exact Hnm | discriminate].
Qed.

(** A drain of the demo engine that returns: the queue is empty and the
    curve has grown by the number of market events that were queued. *)
Lemma drain_demo (fuel : nat) (eng : EventEngine (Components T)) c d :
  handlers eng = handlers demo_engine ->
  Forall (fun e => is_market e = true) (event_queue eng) ->
  process_events fuel eng c = Some d ->
  outcome d = Returned tt ->
  data_handler (final d).2 = data_handler c /\
  handlers (final d).1 = handlers demo_engine /\
  event_queue (final d).1 = [] /\
  length (Portfolio.equity_curve (portfolio (final d).2))
  = (length (Portfolio.equity_curve (portfolio c))
     + length (event_queue eng))%nat.
Proof.
  intros Hh Hq Hrun Hret.
  destruct (process_events_returns fuel eng c d Hrun Hret)
    as (spawned & Href & Hempty & Hh' & _).
  destruct (dispatch_all_demo eng (event_queue eng ++ spawned) Hh c)
    as (Hdh & Hnm & Hlen).
  cbn zeta in Hdh, Hnm, Hlen. rewrite Href in Hdh, Hnm, Hlen.
  cbn [final emitted outcome] in Hdh, Hnm, Hlen.
  split; [exact Hdh|]. split; [rewrite Hh'; exact Hh|].
  split; [exact Hempty|].
  rewrite (Hlen eq_refl), count_market_app, (count_market_all _ Hq),
    (count_market_none _ Hnm). lia.
Qed.

(** One turn of the loop: what [stream_next_bar] leaves behind. *)
Lemma stream_step c :
  let r := zoom data_handler set_data_handler DataHandler.stream_next_bar c in
  portfolio (final r) = portfolio c /\
  DataHandler.symbols (data_handler (final r))
    = DataHandler.symbols (data_handler c) /\
  Forall (fun e => is_market e = true) (emitted r) /\
  (outcome r = Returned true ->
     length (emitted r) = length (DataHandler.symbols (data_handler c)) /\
     (bars_left (data_handler (final r)) < bars_left (data_handler c))%nat) /\
  (bars_left (data_handler c) = 0%nat -> outcome r = Returned false).
Proof.
  destruct (stream_next_bar_run (data_handler c))
    as (Hsym & _ & Hall & Htrue & _ & Hzero).
  unfold zoom. cbn [final emitted outcome portfolio data_handler set_data_handler].
  auto.
Qed.

Lemma backtest_loop_count (drain_fuel fuel : nat) :
  forall (eng : EventEngine (Components T)) c (n : nat) r (k : nat),
    handlers eng = handlers demo_engine ->
    event_queue eng = [] ->
    length (Portfolio.equity_curve (portfolio c))
      = (length (DataHandler.symbols (data_handler c)) * n)%nat ->
    backtest_loop drain_fuel fuel eng c n = Some r ->
    outcome r = Returned k ->
    length (Portfolio.equity_curve (portfolio (final r).2))
      = (length (DataHandler.symbols (data_handler c)) * k)%nat.
Proof.
  induction fuel as [|fuel IH]; intros eng c n r k Hh Hq Hlen Hrun Hret;
    [discriminate Hrun|].
  cbn [backtest_loop] in Hrun.
  destruct (stream_step c) as (Hp & Hsym & Hall & Htrue & _).
  cbn zeta in Hp, Hsym, Hall, Htrue.
  remember (zoom data_handler set_data_handler DataHandler.stream_next_bar c)
    as r0 eqn:Hr0. clear Hr0.
  destruct (outcome r0) as [[|]|x] eqn:Hout.
  - (* a bar was streamed *)
    destruct (Htrue eq_refl) as [Hn _].
    destruct (process_events drain_fuel (enqueue_all (emitted r0) eng) (final r0))
      as [d|] eqn:Hd; [|discriminate Hrun].
    destruct (outcome d) as [[]|x] eqn:Hdo.
    + assert (Hmk : Forall (fun e => is_market e = true)
                      (event_queue (enqueue_all (emitted r0) eng)))
        by (cbn [enqueue_all event_queue]; rewrite Hq; exact Hall).
      destruct (drain_demo drain_fuel (enqueue_all (emitted r0) eng)
                  (final r0) d Hh Hmk Hd Hdo) as (Hdh & Hh' & Hq' & Hlen').
      cbn [enqueue_all event_queue] in Hlen'. rewrite Hq in Hlen'.
      cbn [app] in Hlen'.
      destruct (backtest_loop drain_fuel fuel (final d).1 (final d).2 (S n))
        as [r'|] eqn:Hrec; [|discriminate Hrun].
      injection Hrun as <-. cbn [outcome final] in *.
      assert (Hlen2 :
        length (Portfolio.equity_curve (portfolio (final d).2))
        = (length (DataHandler.symbols (data_handler (final d).2)) * S n)%nat)
        by (rewrite Hdh, Hsym, Hlen', Hp, Hlen, Hn; lia).
      rewrite (IH _ _ _ _ _ Hh' Hq' Hlen2 Hrec Hret).
      rewrite Hdh, Hsym. reflexivity.
    + injection Hrun as <-. discriminate Hret.
  - (* end of data *)
    injection Hrun as <-. cbn [outcome final snd] in *.
    injection Hret as <-. rewrite Hp. exact Hlen.
  - injection Hrun as <-. discriminate Hret.
Qed.

Lemma backtest_loop_terminates (drain_fuel fuel : nat) :
  forall (eng : EventEngine (Components T)) c (n : nat),
    handlers eng = handlers demo_engine ->
    event_queue eng = [] ->
    (4 * length (DataHandler.symbols (data_handler c)) < drain_fuel)%nat ->
    (bars_left (data_handler c) < fuel)%nat ->
    exists r, backtest_loop drain_fuel fuel eng c n = Some r.
Proof.
  induction fuel as [|fuel IH]; intros eng c n Hh Hq Hdrain Hfuel; [lia|].
  cbn [backtest_loop].
  destruct (stream_step c) as (Hp & Hsym & Hall & Htrue & _).
  cbn zeta in Hp, Hsym, Hall, Htrue.
  remember (zoom data_handler set_data_handler DataHandler.stream_next_bar c)
    as r0 eqn:Hr0. clear Hr0.
  destruct (outcome r0) as [[|]|x] eqn:Hout; try (eexists; reflexivity).
  destruct (Htrue eq_refl) as [Hn Hleft].
  destruct (process_events_terminates demo_weight (handlers demo_engine)
              (fun e st => proj1 (proj2 (proj2 (call_demo_handlers e st))))
              drain_fuel (event_queue eng ++ emitted r0) (running eng) (final r0))
    as [d Hd].
  { rewrite Hq. cbn [app]. rewrite (queue_weight_markets _ Hall), Hn. lia. }
  unfold enqueue_all. rewrite Hh, Hd.
  destruct (outcome d) as [[]|x] eqn:Hdo; [|eexists; reflexivity].
  assert (Hmk : Forall (fun e => is_market e = true)
                  (event_queue eng ++ emitted r0))
    by (rewrite Hq; exact Hall).
  destruct (drain_demo drain_fuel
              (mkEngine (event_queue eng ++ emitted r0)
                        (handlers demo_engine) (running eng))
              (final r0) d eq_refl Hmk Hd Hdo)
    as (Hdh & Hh' & Hq' & _).
  destruct (IH (final d).1 (final d).2 (S n) Hh' Hq') as [r' Hr'].
  - rewrite Hdh, Hsym. exact Hdrain.
  - rewrite Hdh. lia.
  - rewrite Hr'. eexists. reflexivity.
Qed.

End BacktestLoop.

(** [MeanReversionStrategy.calculate_signals] puts nothing or one signal,
    whatever the square root. *)
Lemma mean_reversion_puts_signals (np_sqrt : Q -> Q) (m : MarketEvent.t)
    (dh : DataHandler.t) (s : MeanReversionStrategy.t) :
  emitted (MeanReversionStrategy.calculate_signals np_sqrt m dh s) = [] \/
  exists sig,
    emitted (MeanReversionStrategy.calculate_signals np_sqrt m dh s)
    = [ESignal sig].
Proof.
  assert (Hemit : forall num std ty pos s0,
    exists sig,
      emitted ((strength <- MeanReversionStrategy.capped_ratio num std ;;
                MeanReversionStrategy.emit_signal m ty strength pos) s0)
      = [ESignal sig]).
  { intros num std ty pos s0. unfold MeanReversionStrategy.capped_ratio.
    destruct (Qeq_bool std 0); eexists; reflexivity. }
  unfold MeanReversionStrategy.calculate_signals. rewrite bind_get.
  destruct (negb _); [left; reflexivity|].
  destruct (DataHandler.get_latest_bars _ _ _) as [bars|]; [|left; reflexivity].
  destruct (_ <? _)%Z; [left; reflexivity|].
  destruct (MeanReversionStrategy.series_mean _) as [sma|]; [|left; reflexivity].
  destruct (MeanReversionStrategy.series_std _ _) as [std|]; [|left; reflexivity].
  destruct (_ && _); [right; apply Hemit|].
  destruct (_ && _); [right; apply Hemit|].
  destruct (_ && _); [right; eexists; reflexivity | left; reflexivity].
Qed.

(** C8 (amended): a run of the backtest loop ends for enough fuel, and when
    it returns [bar_count], the equity curve has one entry per market event
    handled, that is [len(symbols)] entries per processed bar, whatever
    signals, orders and fills occurred; with exactly one tracked symbol
    this is one entry per bar. *)
Theorem C8_equity_entries_per_market_event (np_sqrt : Q -> Q)
    (symbols : list string) (data : gmap string (list DataHandler.Bar))
    (strat : MeanReversionStrategy.t) (capital : Q) (rng : NpRandom.t) :
  let run := fun drain_fuel fuel =>
    run_backtest (strategy_class := mean_reversion_strategy np_sqrt) drain_fuel fuel
      symbols data strat capital rng in
  (exists r,
     run (S (4 * length symbols)) (S (bars_left (DataHandler.mk symbols data 0)))
     = Some r) /\
  (forall drain_fuel fuel r bar_count,
     run drain_fuel fuel = Some r ->
     outcome r = Returned bar_count ->
     length (Portfolio.equity_curve (portfolio (final r).2))
       = (length symbols * bar_count)%nat /\
     (length symbols = 1%nat ->
      length (Portfolio.equity_curve (portfolio (final r).2)) = bar_count)).
Proof.
  cbn zeta. unfold run_backtest, initial_components. split.
  - apply (backtest_loop_terminates (strat := mean_reversion_strategy np_sqrt)
             (mean_reversion_puts_signals np_sqrt)).
    + reflexivity.
    + reflexivity.
    + cbn [data_handler DataHandler.symbols]. lia.
    + cbn [data_handler]. lia.
  - intros drain_fuel fuel r bar_count Hrun Hret.
    assert (Hlen : length (Portfolio.equity_curve (portfolio (final r).2))
                   = (length symbols * bar_count)%nat).
    { pose proof (backtest_loop_count (strat := mean_reversion_strategy np_sqrt)
                    (mean_reversion_puts_signals np_sqrt)
                    drain_fuel fuel demo_engine
                    (initial_components symbols data strat capital rng)
                    0%nat r bar_count eq_refl eq_refl) as Hcount.
      cbn [initial_components data_handler DataHandler.symbols portfolio
           Portfolio.init Portfolio.equity_curve length] in Hcount.
      apply Hcount; [lia | exact Hrun | exact Hret]. }
    split; [exact Hlen|]. intros H1. rewrite Hlen, H1. lia.
Qed.

(** C8 at the run with two symbols and one bar each: two entries for the
    one processed bar. *)
Lemma C8_equity_entries_per_market_event_witness :
  exists r,
    two_symbol_run = Some r /\
    length (Portfolio.equity_curve (portfolio (final r).2)) = (2 * 1)%nat.
Proof.
  assert (Hsum : run_summary two_symbol_run
                 = Some (Returned 1%nat, [(0%Z, 100000%Q); (0%Z, 100000%Q)]))
    by (vm_compute; reflexivity).
  destruct two_symbol_run as [r|] eqn:Hrun; [|discriminate Hsum].
  exists r. split; [reflexivity|].
  cbn in Hsum. injection Hsum as Hout _.
  destruct (C8_equity_entries_per_market_event floor_sqrt ["AAPL"; "MSFT"]
              two_symbol_data (MeanReversionStrategy.init "AAPL" 20 2)
              100000%Q midpoint_rng) as [_ Hcount].
  apply (Hcount 9%nat 2%nat r 1%nat Hrun Hout).
Defined.

(** * Further properties of the ledger *)

(** What one [process_fill] call does to each field. *)
Lemma process_fill_fields (f : FillEvent.t) (p : Portfolio.t) :
  let p' := final (Portfolio.process_fill f p) in
  Portfolio.trades p' = Portfolio.trades p ++ [Fills.trade_of_fill f] /\
  Portfolio.positions p'
    = <[FillEvent.symbol f :=
          (default 0%Z (Portfolio.positions p !! FillEvent.symbol f)
           + Fills.signed_quantity f)%Z]> (Portfolio.positions p) /\
  (Portfolio.current_capital p'
   == Portfolio.current_capital p + Fills.cash_flow f)%Q /\
  Portfolio.current_prices p' = Portfolio.current_prices p /\
  Portfolio.initial_capital p' = Portfolio.initial_capital p /\
  Portfolio.holdings p'
    = match Portfolio.current_prices p !! FillEvent.symbol f with
      | Some price =>
          <[FillEvent.symbol f :=
              (inject_Z (default 0%Z (Portfolio.positions p !! FillEvent.symbol f)
                         + Fills.signed_quantity f) * price)%Q]>
            (Portfolio.holdings p)
      | None => Portfolio.holdings p
      end.
Proof.
  unfold Portfolio.process_fill, Fills.signed_quantity, Fills.cash_flow,
    Fills.is_buy, Fills.trade_of_fill.
  unfold bind, get_state, set_state. cbn beta.
  destruct (String.eqb (FillEvent.direction f) "BUY");
    cbn [outcome final emitted console Portfolio.trades Portfolio.positions
         Portfolio.current_capital Portfolio.current_prices
         Portfolio.initial_capital Portfolio.holdings];
    repeat split; try reflexivity; ring.
Qed.

Lemma update_market_price_fields (s : string) (price : Q) (ts : datetime)
    (p : Portfolio.t) :
  let p' := final (Portfolio.update_market_price s price ts p) in
  Portfolio.trades p' = Portfolio.trades p /\
  Portfolio.positions p' = Portfolio.positions p /\
  Portfolio.current_capital p' = Portfolio.current_capital p /\
  Portfolio.current_prices p' = <[s := price]> (Portfolio.current_prices p) /\
  Portfolio.equity_curve p'
    = Portfolio.equity_curve p ++ [(ts, Portfolio.get_total_equity p')].
Proof. repeat split. Qed.

Lemma run_cons (op : Ledger.Op) (ops : list Ledger.Op) (p : Portfolio.t) :
  Ledger.run (op :: ops) p = Ledger.run ops (Ledger.step p op).
Proof. reflexivity. Qed.

Lemma trades_run (ops : list Ledger.Op) (p : Portfolio.t) :
  Portfolio.trades (Ledger.run ops p)
  = Portfolio.trades p ++ map Fills.trade_of_fill (Fills.fills_of ops).
Proof.
  revert p. induction ops as [|op ops IH]; intros p.
  - cbn. rewrite app_nil_r. reflexivity.
  - rewrite run_cons, IH. destruct op as [s price ts|ev|f].
    + reflexivity.
    + unfold Ledger.step, Ledger.call.
      destruct (process_signal_final p ev) as [-> _]. reflexivity.
    + unfold Ledger.step, Ledger.call.
      destruct (process_fill_fields f p) as (-> & _).
      cbn [Fills.fills_of flat_map app map]. rewrite <- app_assoc. reflexivity.
Qed.

(** X1: the trade log of a portfolio is exactly the list of the fills it
    processed, in the order processed, one record per fill with the fill's
    timestamp, symbol, direction, quantity, price, commission and slippage;
    price updates and signals add nothing to it. *)
Theorem X1_trades_are_the_fills (capital : Q) (ops : list Ledger.Op) :
  Portfolio.trades (Ledger.run ops (Portfolio.init capital))
  = map Fills.trade_of_fill (Fills.fills_of ops).
Proof. rewrite trades_run. reflexivity. Qed.

Lemma fills_of_cons (op : Ledger.Op) (ops : list Ledger.Op) :
  Fills.fills_of (op :: ops)
  = match op with
    | Ledger.ProcessFill f => f :: Fills.fills_of ops
    | _ => Fills.fills_of ops
    end.
Proof. destruct op; reflexivity. Qed.

Lemma positions_run (ops : list Ledger.Op) (p : Portfolio.t) (s : string) :
  Portfolio.positions (Ledger.run ops p) !! s
  = match Fills.fills_for s (Fills.fills_of ops) with
    | [] => Portfolio.positions p !! s
    | fs => Some (default 0%Z (Portfolio.positions p !! s)
                  + Fills.net_quantity fs)%Z
    end.
Proof.
  revert p. induction ops as [|op ops IH]; intros p; [reflexivity|].
  rewrite run_cons, IH, fills_of_cons. destruct op as [sym price ts|ev|f].
  - reflexivity.
  - unfold Ledger.step, Ledger.call.
    destruct (process_signal_final p ev) as [-> _]. reflexivity.
  - unfold Ledger.step, Ledger.call.
    destruct (process_fill_fields f p) as (_ & -> & _).
    cbn [Fills.fills_for List.filter].
    destruct (String.eqb_spec (FillEvent.symbol f) s) as [->|Hne].
    + rewrite lookup_insert_eq. cbn [default from_option id].
      fold (Fills.fills_for s (Fills.fills_of ops)).
      destruct (Fills.fills_for s (Fills.fills_of ops)) as [|g gs].
      * cbn. f_equal. lia.
      * f_equal. cbn [Fills.net_quantity fold_right].
        fold (Fills.net_quantity gs). lia.
    + rewrite lookup_insert_ne by exact Hne. reflexivity.
Qed.

Lemma capital_run (ops : list Ledger.Op) (p : Portfolio.t) :
  (Portfolio.current_capital (Ledger.run ops p)
   == Portfolio.current_capital p + Fills.net_cash_flow (Fills.fills_of ops))%Q.
Proof.
  revert p. induction ops as [|op ops IH]; intros p.
  - cbn. ring.
  - rewrite run_cons, IH, fills_of_cons. destruct op as [sym price ts|ev|f].
    + reflexivity.
    + unfold Ledger.step, Ledger.call.
      destruct (process_signal_final p ev) as [-> _]. reflexivity.
    + unfold Ledger.step, Ledger.call.
      destruct (process_fill_fields f p) as (_ & _ & -> & _).
      cbn [Fills.net_cash_flow fold_right].
      fold (Fills.net_cash_flow (Fills.fills_of ops)). ring.
Qed.

(** X2: after any sequence of operations on a fresh portfolio, a symbol has
    a position entry exactly when a fill for it was processed, and the
    entry is the net filled quantity: the quantities of its ['BUY'] fills
    minus the quantities of all its other fills (any direction other than
    ['BUY'] is booked as a sale).  Nothing bounds it below: it is negative
    once more was sold than bought. *)
Theorem X2_positions_are_net_fills (capital : Q) (ops : list Ledger.Op)
    (s : string) :
  Portfolio.positions (Ledger.run ops (Portfolio.init capital)) !! s
  = match Fills.fills_for s (Fills.fills_of ops) with
    | [] => None
    | fs => Some (Fills.net_quantity fs)
    end.
Proof.
  rewrite positions_run. cbn [Portfolio.init Portfolio.positions].
  rewrite lookup_empty.
  destruct (Fills.fills_for s (Fills.fills_of ops)); reflexivity.
Qed.

(** X3: after any sequence of operations on a fresh portfolio, cash is the
    initial capital minus [price * quantity + commission] for every ['BUY']
    fill plus [price * quantity - commission] for every other fill; price
    updates and signals do not move it, and nothing keeps it from going
    negative. *)
Theorem X3_cash_is_capital_plus_flows (capital : Q) (ops : list Ledger.Op) :
  (Portfolio.current_capital (Ledger.run ops (Portfolio.init capital))
   == capital + Fills.net_cash_flow (Fills.fills_of ops))%Q.
Proof. rewrite capital_run. reflexivity. Qed.

(** ** Total equity across a fill *)








(** ** The equity curve as a log *)

Lemma equity_curve_run (ops : list Ledger.Op) (p : Portfolio.t) :
  exists entries,
    Portfolio.equity_curve (Ledger.run ops p)
      = Portfolio.equity_curve p ++ entries /\
    map fst entries = Fills.updates_of ops.
Proof.
  revert p. induction ops as [|op ops IH]; intros p.
  - exists []. cbn. rewrite app_nil_r. auto.
  - rewrite run_cons. destruct (IH (Ledger.step p op)) as (entries & Hc & Hts).
    rewrite Hc, equity_curve_step.
    destruct op as [s price ts|ev|f].
    + eexists (_ :: entries). rewrite <- app_assoc. split; [reflexivity|].
      cbn [map fst Fills.updates_of flat_map app]. f_equal. exact Hts.
    + exists entries. auto.
    + exists entries. auto.
Qed.

(** X6: the equity curve is an append-only log of the price updates:
    whatever operations follow, the entries recorded so far stay as they
    are, and the entries added are one per [update_market_price] call, in
    call order, each stamped with the timestamp passed to the call (two
    updates with the same timestamp give two entries). *)
Theorem X6_equity_curve_is_append_only (ops1 ops2 : list Ledger.Op)
    (p : Portfolio.t) :
  exists entries,
    Portfolio.equity_curve (Ledger.run (ops1 ++ ops2) p)
      = Portfolio.equity_curve (Ledger.run ops1 p) ++ entries /\
    map fst entries = Fills.updates_of ops2.
Proof.
  unfold Ledger.run at 1. rewrite fold_left_app.
  apply (equity_curve_run ops2 (Ledger.run ops1 p)).
Qed.

(** * Further properties of the dispatcher *)

Lemma call_handlers_app {St : Type} (hs1 hs2 : list (Handler St)) (e : Event)
    (st : St) :
  call_handlers (hs1 ++ hs2) e st
  = (call_handlers hs1 e ;; call_handlers hs2 e) st.
Proof.
  revert st. induction hs1 as [|h hs1 IH]; intros st.
  - cbn [app call_handlers]. rewrite bind_ret_l. reflexivity.
  - cbn [app call_handlers]. rewrite bind_assoc.
    apply bind_ext. intros _ s'. apply IH.
Qed.

(** X7: an event of a kind no handler is registered for is taken off the
    queue and dropped without any effect or error: draining a queue of such
    events returns with the queue empty and the handlers' state as it
    was. *)
Theorem X7_unhandled_events_are_dropped {St : Type} (eng : EventEngine St)
    (st : St) (fuel : nat) :
  (forall e, In e (event_queue eng) -> handlers eng (event_type e) = []) ->
  (length (event_queue eng) < fuel)%nat ->
  process_events fuel eng st
  = Some (mkRun (Returned tt)
                (mkEngine [] (handlers eng) (running eng), st) [] []).
Proof.
  destruct eng as [queue hs flag]. cbn [event_queue handlers running].
  revert fuel. induction queue as [|e rest IH]; intros fuel Hnone Hfuel.
  - destruct fuel; [cbn in Hfuel; lia | reflexivity].
  - destruct fuel as [|fuel]; [cbn in Hfuel; lia|].
    cbn [process_events event_queue handlers running].
    rewrite (Hnone e (or_introl eq_refl)).
    cbn [call_handlers]. unfold ret at 1 2 3.
    cbn [outcome final emitted console]. rewrite app_nil_r.
    rewrite IH; [reflexivity | | cbn in Hfuel; lia].
    intros e' He'. apply Hnone. right. exact He'.
Qed.

(** X7 at the tracing engine, which has no FILL handler: two queued fills
    are dropped and the trace stays empty. *)
Lemma X7_unhandled_events_are_dropped_witness :
  process_events 3
    (mkEngine [traced_fill; traced_fill] (handlers tracing_engine) false) []
  = Some (mkRun (Returned tt)
                (mkEngine [] (handlers tracing_engine) false, []) [] []).
Proof.
  apply (X7_unhandled_events_are_dropped
           (mkEngine [traced_fill; traced_fill] (handlers tracing_engine) false)
           [] 3).
  - intros e [<-|[<-|[]]]; reflexivity.
  - cbn. lia.
Defined.

(** X8: when a handler raises, the drain stops and the exception leaves
    [process_events]: the handlers registered after it are not called for
    that event, the event is already off the queue (it is not retried), the
    events behind it stay queued, and the events put before the exception
    are at the tail of the queue. *)
Theorem X8_raising_handler_aborts_drain {St : Type} (eng : EventEngine St)
    (st : St) (e : Event) (rest : list Event)
    (before after : list (Handler St)) (h : Handler St) (x : Exn)
    (fuel : nat) :
  event_queue eng = e :: rest ->
  handlers eng (event_type e) = before ++ h :: after ->
  let r1 := call_handlers before e st in
  outcome r1 = Returned tt ->
  outcome (h e (final r1)) = Raised x ->
  process_events (S fuel) eng st
  = Some (mkRun (Raised x)
                (mkEngine (rest ++ emitted r1 ++ emitted (h e (final r1)))
                          (handlers eng) (running eng),
                 final (h e (final r1)))
                [] (console r1 ++ console (h e (final r1)))).
Proof.
  intros Hq Hh r1 Hr1 Hx.
  cbn [process_events]. rewrite Hq, Hh, call_handlers_app, bind_run.
  fold r1. rewrite Hr1. cbn [call_handlers]. rewrite bind_run, Hx.
  cbn [outcome final emitted console]. reflexivity.
Qed.

(** X8 at an engine whose second MARKET handler raises after putting a
    signal: the third handler is not called, the second market event stays
    queued, followed by the signal. *)
Lemma X8_raising_handler_aborts_drain_witness :
  process_events 5 faulty_engine []
  = Some (mkRun (Raised (KeyError "second"))
                (mkEngine [traced_market 2; traced_signal]
                          (handlers faulty_engine) false,
                 ["first"; "second"])
                [] []).
Proof.
  apply (X8_raising_handler_aborts_drain faulty_engine [] (traced_market 1)
           [traced_market 2] [tracing_handler "first" []]
           [tracing_handler "third" []]
           (raising_handler "second" [traced_signal]) (KeyError "second") 4);
    reflexivity.
Defined.

(** X9: the drain ends whenever, under some weight on events, the handlers
    of every event put events of a smaller total weight than the event
    itself: it then handles at most as many events as the weight of the
    initial queue, and any larger bound on the number of events gives the
    same result. *)
Theorem X9_drain_terminates_under_weight {St : Type} (weight : Event -> nat)
    (eng : EventEngine St) (st : St) :
  (forall e s,
     (queue_weight weight
        (emitted (call_handlers (handlers eng (event_type e)) e s))
      < weight e)%nat) ->
  exists d,
    forall fuel,
      (queue_weight weight (event_queue eng) < fuel)%nat ->
      process_events fuel eng st = Some d.
Proof.
  intros Hdec. destruct eng as [queue hs flag].
  cbn [event_queue handlers] in *.
  destruct (process_events_terminates weight hs Hdec
              (S (queue_weight weight queue)) queue flag st) as [d Hd]; [lia|].
  exists d. intros fuel Hfuel.
  apply (process_events_fuel_mono _ _ _ _ _ Hd). lia.
Qed.

(** X9 at the tracing engine: a market event weighs 2, any other event
    1. *)
Lemma X9_drain_terminates_under_weight_witness :
  exists d,
    forall fuel, (4 < fuel)%nat ->
                 process_events fuel tracing_engine [] = Some d.
Proof.
  destruct (X9_drain_terminates_under_weight tracing_weight tracing_engine [])
    as [d Hd].
  - intros [m|s|o|f] st; vm_compute; lia.
  - exists d. intros fuel Hfuel. apply Hd. vm_compute. lia.
Defined.

(** * Further properties of the data handler *)

(** X10: [get_latest_bars] never looks ahead.  When it returns bars, the
    symbol has a frame, at least [n] bars have been streamed, and the bars
    are rows of that frame strictly before the cursor, in frame order:
    row [i] of the result is row [current_index - n + i] of the frame.
    With [0 <= n] and the cursor inside the frame the result has exactly
    [n] rows. *)
Theorem X10_latest_bars_no_look_ahead (d : DataHandler.t) (symbol : string)
    (n : Z) (bars : list DataHandler.Bar) :
  DataHandler.get_latest_bars d symbol n = Some bars ->
  exists df,
    DataHandler.data d !! symbol = Some df /\
    (n <= Z.of_nat (DataHandler.current_index d))%Z /\
    (forall i b,
       bars !! i = Some b ->
       (i < Z.to_nat n)%nat /\
       (DataHandler.current_index d - Z.to_nat n + i
        < DataHandler.current_index d)%nat /\
       df !! (DataHandler.current_index d - Z.to_nat n + i)%nat = Some b) /\
    ((0 <= n)%Z -> (DataHandler.current_index d <= length df)%nat ->
     length bars = Z.to_nat n).
Proof.
  unfold DataHandler.get_latest_bars, DataHandler.iloc_slice.
  destruct (DataHandler.data d !! symbol) as [df|]; [|discriminate].
  destruct (Z.ltb_spec (Z.of_nat (DataHandler.current_index d)) n) as [Hlt|Hge];
    [discriminate|].
  intros Hbars. injection Hbars as <-.
  exists df. split; [reflexivity|]. split; [exact Hge|].
  replace (Z.to_nat (Z.of_nat (DataHandler.current_index d)
                     - (Z.of_nat (DataHandler.current_index d) - n)))
    with (Z.to_nat n) by lia.
  split.
  - intros i b Hi. apply lookup_take_Some in Hi. destruct Hi as [Hi Hlt].
    rewrite lookup_drop in Hi.
    replace (Z.to_nat (Z.of_nat (DataHandler.current_index d) - n))
      with (DataHandler.current_index d - Z.to_nat n)%nat in Hi by lia.
    split; [exact Hlt|]. split; [lia | exact Hi].
  - intros Hn Hci. rewrite length_take, length_drop. lia.
Qed.

(** X10 at three streamed bars: the last two are rows 1 and 2. *)
Lemma X10_latest_bars_no_look_ahead_witness :
  exists df,
    DataHandler.data flat_data_handler !! "AAPL" = Some df /\
    df !! 2%nat = Some (flat_bar 2).
Proof.
  destruct (X10_latest_bars_no_look_ahead flat_data_handler "AAPL" 2
              [flat_bar 1; flat_bar 2] eq_refl)
    as (df & Hdf & _ & Hrows & _).
  exists df. split; [exact Hdf|].
  apply (Hrows 1%nat (flat_bar 2) eq_refl).
Defined.

Lemma foldr_min_le (n : nat) (ns : list nat) (k : nat) :
  In k (n :: ns) -> (foldr Nat.min n ns <= k)%nat.
Proof.
  induction ns as [|m ns IH]; cbn [foldr].
  - intros [<-|[]]. lia.
  - intros [<-|[<-|Hin]].
    + assert (foldr Nat.min n ns <= n)%nat by (apply IH; left; reflexivity). lia.
    + lia.
    + assert (foldr Nat.min n ns <= k)%nat by (apply IH; right; exact Hin). lia.
Qed.

(** No frame is shorter than [max_length]. *)
Lemma max_length_le (d : DataHandler.t) (ml : nat) (s : string)
    (df : list DataHandler.Bar) :
  DataHandler.max_length d = Some ml ->
  DataHandler.data d !! s = Some df ->
  (ml <= length df)%nat.
Proof.
  unfold DataHandler.max_length. intros Hml Hdf.
  apply elem_of_map_to_list in Hdf.
  apply (list_elem_of_fmap_2 (fun kv : string * list DataHandler.Bar => length kv.2))
    in Hdf.
  cbn in Hdf. apply list_elem_of_In in Hdf.
  destruct ((fun kv : string * list DataHandler.Bar => length kv.2)
              <$> map_to_list (DataHandler.data d)) as [|n ns];
    [discriminate Hml|].
  injection Hml as <-. apply foldr_min_le. exact Hdf.
Qed.

(** The events [put_bars] puts when every symbol has a frame that reaches
    the cursor. *)
Lemma put_bars_all (syms : list string) (d : DataHandler.t) :
  (forall s, In s syms ->
     exists df bar, DataHandler.data d !! s = Some df /\
                    df !! DataHandler.current_index d = Some bar) ->
  let r := DataHandler.put_bars syms d in
  outcome r = Returned tt /\ console r = [] /\
  Forall2 (fun s e =>
             exists df bar,
               DataHandler.data d !! s = Some df /\
               df !! DataHandler.current_index d = Some bar /\
               e = DataHandler.market_event s bar)
          syms (emitted r).
Proof.
  induction syms as [|s syms IH]; intros Hall; cbn [DataHandler.put_bars].
  - cbn. repeat split. constructor.
  - rewrite bind_get.
    destruct (Hall s (or_introl eq_refl)) as (df & bar & Hdf & Hbar).
    rewrite Hdf, Hbar, bind_put_event.
    destruct IH as (Ho & Hc & Hem); [intros s' Hs'; apply Hall; right; exact Hs'|].
    cbn [outcome console emitted]. split; [exact Ho|]. split; [exact Hc|].
    constructor; [|exact Hem]. exists df, bar. auto.
Qed.

(** X11: while the cursor is before the end of the shortest frame and
    every tracked symbol has a frame, [stream_next_bar] returns [True],
    puts exactly one market event per entry of [symbols], in list order,
    each carrying the row at the cursor of that symbol's frame (so all
    events of a call are rows of the same position, never of the
    timestamp of another symbol's row), and moves the cursor by one; the
    frames are not changed. *)
Theorem X11_stream_next_bar_streams_one_row_per_symbol (d : DataHandler.t)
    (ml : nat) :
  DataHandler.max_length d = Some ml ->
  (DataHandler.current_index d < ml)%nat ->
  (forall s, In s (DataHandler.symbols d) ->
             DataHandler.data d !! s <> None) ->
  let r := DataHandler.stream_next_bar d in
  outcome r = Returned true /\
  final r = DataHandler.mk (DataHandler.symbols d) (DataHandler.data d)
                           (S (DataHandler.current_index d)) /\
  Forall2 (fun s e =>
             exists df bar,
               DataHandler.data d !! s = Some df /\
               df !! DataHandler.current_index d = Some bar /\
               e = DataHandler.market_event s bar)
          (DataHandler.symbols d) (emitted r).
Proof.
  intros Hml Hlt Hframes.
  assert (Hall : forall s, In s (DataHandler.symbols d) ->
            exists df bar, DataHandler.data d !! s = Some df /\
                           df !! DataHandler.current_index d = Some bar).
  { intros s Hs. specialize (Hframes s Hs).
    destruct (DataHandler.data d !! s) as [df|] eqn:Hdf; [|contradiction].
    pose proof (max_length_le d ml s df Hml Hdf) as Hle.
    destruct (lookup_lt_is_Some_2 df (DataHandler.current_index d)) as [bar Hbar];
      [lia|].
    exists df, bar. auto. }
  destruct (put_bars_all (DataHandler.symbols d) d Hall) as (Ho & _ & Hem).
  destruct (put_bars_run (DataHandler.symbols d) d) as (Hfin & _).
  cbn zeta in *. unfold DataHandler.stream_next_bar.
  rewrite bind_get, Hml.
  destruct (Nat.leb_spec ml (DataHandler.current_index d)) as [Hle|_]; [lia|].
  rewrite bind_run.
  destruct (DataHandler.put_bars (DataHandler.symbols d) d)
    as [o d' em co]. cbn [outcome final emitted console] in *. subst o d'.
  unfold bind, get_state, set_state, ret.
  cbn [outcome final emitted console]. rewrite !app_nil_r. auto.
Qed.

(** X11 at a handler with two bars of AAPL and the cursor at 0. *)
Lemma X11_stream_next_bar_streams_one_row_per_symbol_witness :
  outcome (DataHandler.stream_next_bar
             (DataHandler.mk ["AAPL"] {[ "AAPL" := [flat_bar 0; flat_bar 1] ]} 0))
  = Returned true.
Proof.
  apply (X11_stream_next_bar_streams_one_row_per_symbol
           (DataHandler.mk ["AAPL"] {[ "AAPL" := [flat_bar 0; flat_bar 1] ]} 0)
           2).
  - vm_compute. reflexivity.
  - cbn. lia.
  - intros s [<-|[]]. vm_compute. discriminate.
Defined.

Lemma put_bars_app (syms1 syms2 : list string) (d : DataHandler.t) :
  DataHandler.put_bars (syms1 ++ syms2) d
  = (DataHandler.put_bars syms1 ;; DataHandler.put_bars syms2) d.
Proof.
  induction syms1 as [|s syms1 IH]; cbn [app DataHandler.put_bars].
  - rewrite bind_ret_l. reflexivity.
  - rewrite !bind_get. rewrite bind_assoc, bind_get.
    destruct (DataHandler.data d !! s) as [df|]; [|reflexivity].
    destruct (df !! DataHandler.current_index d) as [bar|]; [|reflexivity].
    rewrite bind_assoc, !bind_put_event. rewrite <- IH. reflexivity.
Qed.

(** X12: a tracked symbol without a frame makes [stream_next_bar] raise
    [KeyError] for the first such symbol, half way through: the market
    events of the symbols listed before it are already on the queue, none
    is put for the symbols after it, and the cursor is not advanced. *)
Theorem X12_stream_next_bar_missing_frame (d : DataHandler.t) (ml : nat)
    (before after : list string) (s : string) :
  DataHandler.max_length d = Some ml ->
  (DataHandler.current_index d < ml)%nat ->
  DataHandler.symbols d = before ++ s :: after ->
  (forall s', In s' before -> DataHandler.data d !! s' <> None) ->
  DataHandler.data d !! s = None ->
  let r := DataHandler.stream_next_bar d in
  outcome r = Raised (KeyError s) /\
  final r = d /\
  Forall2 (fun s' e =>
             exists df bar,
               DataHandler.data d !! s' = Some df /\
               df !! DataHandler.current_index d = Some bar /\
               e = DataHandler.market_event s' bar)
          before (emitted r).
Proof.
  intros Hml Hlt Hsyms Hframes Hmissing.
  assert (Hall : forall s', In s' before ->
            exists df bar, DataHandler.data d !! s' = Some df /\
                           df !! DataHandler.current_index d = Some bar).
  { intros s' Hs'. specialize (Hframes s' Hs').
    destruct (DataHandler.data d !! s') as [df|] eqn:Hdf; [|contradiction].
    pose proof (max_length_le d ml s' df Hml Hdf) as Hle.
    destruct (lookup_lt_is_Some_2 df (DataHandler.current_index d)) as [bar Hbar];
      [lia|].
    exists df, bar. auto. }
  destruct (put_bars_all before d Hall) as (Ho & _ & Hem).
  destruct (put_bars_run before d) as (Hfin & _).
  cbn zeta in *. unfold DataHandler.stream_next_bar.
  rewrite bind_get, Hml.
  destruct (Nat.leb_spec ml (DataHandler.current_index d)) as [Hle|_]; [lia|].
  rewrite bind_run, Hsyms, put_bars_app, bind_run.
  destruct (DataHandler.put_bars before d) as [o d' em co].
  cbn [outcome final emitted console] in *. subst o d'.
  cbn [DataHandler.put_bars]. rewrite bind_get, Hmissing.
  unfold raise. cbn [outcome final emitted console].
  rewrite app_nil_r. auto.
Qed.

(** X12 at a handler tracking AAPL and MSFT with a frame for AAPL only:
    the AAPL event is put, then [KeyError('MSFT')]. *)
Lemma X12_stream_next_bar_missing_frame_witness :
  outcome (DataHandler.stream_next_bar half_loaded_data_handler)
    = Raised (KeyError "MSFT") /\
  final (DataHandler.stream_next_bar half_loaded_data_handler)
    = half_loaded_data_handler.
Proof.
  destruct (X12_stream_next_bar_missing_frame half_loaded_data_handler 2
              ["AAPL"] [] "MSFT") as (Ho & Hf & _).
  - vm_compute. reflexivity.
  - cbn. lia.
  - reflexivity.
  - intros s' [<-|[]]. vm_compute. discriminate.
  - vm_compute. reflexivity.
  - split; [exact Ho | exact Hf].
Defined.

(** * Further properties of the backtest loop *)

Lemma stream_next_bar_exact (d : DataHandler.t) :
  let r := DataHandler.stream_next_bar d in
  (outcome r = Returned true ->
     S (bars_left (final r)) = bars_left d /\
     DataHandler.current_index (final r) = S (DataHandler.current_index d)) /\
  (outcome r = Returned false -> bars_left d = 0%nat /\ final r = d).
Proof.
  unfold DataHandler.stream_next_bar, bars_left. rewrite bind_get.
  destruct (DataHandler.max_length d) as [ml|] eqn:Hml.
  2:{ cbn. split; [discriminate | auto]. }
  destruct (Nat.leb_spec ml (DataHandler.current_index d)) as [Hle|Hlt].
  { cbn. split; [discriminate | split; [lia | reflexivity]]. }
  destruct (put_bars_run (DataHandler.symbols d) d) as (Hfin & _).
  cbn zeta. rewrite bind_run.
  destruct (DataHandler.put_bars (DataHandler.symbols d) d)
    as [[[]|x] d' em co]; cbn [final emitted outcome console] in *; subst d'.
  - unfold bind, get_state, set_state, ret.
    cbn [outcome final emitted console DataHandler.current_index].
    split; [|discriminate]. intros _.
    unfold DataHandler.max_length in *. cbn [DataHandler.data].
    rewrite Hml. split; [lia | reflexivity].
  - split; discriminate.
Qed.

Section BacktestBars.

Context {T : Type} {strat : Strategy T}.

Hypothesis strategy_puts_signals :
  forall m dh s,
    emitted (calculate_signals m dh s) = [] \/
    exists sig, emitted (calculate_signals m dh s) = [ESignal sig].

Implicit Types (c : Components T).

Lemma backtest_loop_bars (drain_fuel fuel : nat) :
  forall (eng : EventEngine (Components T)) c (n : nat) r (k : nat),
    handlers eng = handlers demo_engine ->
    event_queue eng = [] ->
    backtest_loop drain_fuel fuel eng c n = Some r ->
    outcome r = Returned k ->
    k = (n + bars_left (data_handler c))%nat /\
    DataHandler.current_index (data_handler (final r).2)
      = (DataHandler.current_index (data_handler c)
         + bars_left (data_handler c))%nat.
Proof.
  induction fuel as [|fuel IH]; intros eng c n r k Hh Hq Hrun Hret;
    [discriminate Hrun|].
  cbn [backtest_loop] in Hrun.
  destruct (stream_step c) as (_ & _ & Hall & _).
  destruct (stream_next_bar_exact (data_handler c)) as (Htrue & Hfalse).
  cbn zeta in Hall, Htrue, Hfalse.
  assert (Hzo : outcome (zoom data_handler set_data_handler
                           DataHandler.stream_next_bar c)
                = outcome (DataHandler.stream_next_bar (data_handler c)))
    by reflexivity.
  assert (Hzf : data_handler (final (zoom data_handler set_data_handler
                                       DataHandler.stream_next_bar c))
                = final (DataHandler.stream_next_bar (data_handler c)))
    by reflexivity.
  remember (zoom data_handler set_data_handler DataHandler.stream_next_bar c)
    as r0 eqn:Hr0. clear Hr0.
  destruct (outcome r0) as [[|]|x] eqn:Hout.
  - destruct (Htrue (eq_sym Hzo)) as [Hleft Hci].
    destruct (process_events drain_fuel (enqueue_all (emitted r0) eng) (final r0))
      as [d|] eqn:Hd; [|discriminate Hrun].
    destruct (outcome d) as [[]|x] eqn:Hdo.
    + assert (Hmk : Forall (fun e => is_market e = true)
                      (event_queue (enqueue_all (emitted r0) eng)))
        by (cbn [enqueue_all event_queue]; rewrite Hq; exact Hall).
      destruct (drain_demo strategy_puts_signals drain_fuel
                  (enqueue_all (emitted r0) eng) (final r0) d Hh Hmk Hd Hdo)
        as (Hdh & Hh' & Hq' & _).
      destruct (backtest_loop drain_fuel fuel (final d).1 (final d).2 (S n))
        as [r'|] eqn:Hrec; [|discriminate Hrun].
      injection Hrun as <-. cbn [outcome final] in *.
      destruct (IH _ _ _ _ _ Hh' Hq' Hrec Hret) as [Hk Hidx].
      rewrite Hdh, Hzf in Hk, Hidx. rewrite Hci in Hidx. lia.
    + injection Hrun as <-. discriminate Hret.
  - destruct (Hfalse (eq_sym Hzo)) as [Hleft Hsame].
    injection Hrun as <-. cbn [outcome final snd] in *.
    injection Hret as <-. rewrite Hzf, Hsame. lia.
  - injection Hrun as <-. discriminate Hret.
Qed.

End BacktestBars.

(** X13: a backtest run that completes has processed exactly as many bars
    as the shortest loaded frame has rows (none when no frame is loaded),
    and leaves the cursor there: the rows a longer frame has beyond that
    are never streamed. *)
Theorem X13_run_processes_shortest_frame (np_sqrt : Q -> Q)
    (symbols : list string) (data : gmap string (list DataHandler.Bar))
    (strat : MeanReversionStrategy.t) (capital : Q) (rng : NpRandom.t)
    (drain_fuel fuel : nat) r (bar_count : nat) :
  run_backtest (strategy_class := mean_reversion_strategy np_sqrt)
    drain_fuel fuel symbols data strat capital rng = Some r ->
  outcome r = Returned bar_count ->
  bar_count = default 0%nat
                (DataHandler.max_length (DataHandler.mk symbols data 0)) /\
  DataHandler.current_index (data_handler (final r).2) = bar_count.
Proof.
  unfold run_backtest. intros Hrun Hret.
  destruct (backtest_loop_bars (strat := mean_reversion_strategy np_sqrt)
              (mean_reversion_puts_signals np_sqrt) drain_fuel fuel
              demo_engine (initial_components symbols data strat capital rng)
              0%nat r bar_count eq_refl eq_refl Hrun Hret) as [Hk Hidx].
  unfold initial_components, bars_left in Hk, Hidx.
  cbn [data_handler DataHandler.current_index] in Hk, Hidx.
  destruct (DataHandler.max_length (DataHandler.mk symbols data 0)) as [ml|];
    cbn [default from_option id]; lia.
Qed.

(** X13 at AAPL with three bars and MSFT with one: one bar is processed. *)
Lemma X13_run_processes_shortest_frame_witness :
  exists r,
    uneven_run = Some r /\
    DataHandler.current_index (data_handler (final r).2) = 1%nat.
Proof.
  assert (Hsum : exists curve, run_summary uneven_run = Some (Returned 1%nat, curve))
    by (eexists; vm_compute; reflexivity).
  destruct Hsum as [curve Hsum].
  destruct uneven_run as [r|] eqn:Hrun; [|discriminate Hsum].
  exists r. split; [reflexivity|].
  cbn in Hsum. injection Hsum as Hout _.
  destruct (X13_run_processes_shortest_frame floor_sqrt ["AAPL"; "MSFT"]
              uneven_data (MeanReversionStrategy.init "AAPL" 20 2)
              100000%Q midpoint_rng 9 5 r 1%nat Hrun Hout) as [_ Hidx].
  exact Hidx.
Defined.

(** Whatever every handler call keeps, a drain keeps, however it ends; the
    registered handlers are the same after it. *)
Lemma process_events_invariant {St : Type} (P : St -> Prop)
    (hs : EventType.t -> list (Handler St)) :
  (forall e st, P st -> P (final (call_handlers (hs (event_type e)) e st))) ->
  forall (fuel : nat) (eng : EventEngine St) (st : St) d,
    handlers eng = hs ->
    P st ->
    process_events fuel eng st = Some d ->
    P (final d).2 /\ handlers (final d).1 = hs.
Proof.
  intros Hstep. induction fuel as [|fuel IH]; intros eng st d Hh HP Hrun;
    [discriminate Hrun|].
  cbn [process_events] in Hrun. rewrite Hh in Hrun.
  destruct (event_queue eng) as [|e rest].
  - injection Hrun as <-. split; [exact HP | exact Hh].
  - pose proof (Hstep e st HP) as HP'.
    destruct (outcome (call_handlers (hs (event_type e)) e st)).
    + destruct (process_events fuel _ _) as [d'|] eqn:Hrec; [|discriminate Hrun].
      injection Hrun as <-. cbn [final].
      apply (IH (mkEngine _ hs _) _ _ eq_refl HP' Hrec).
    + injection Hrun as <-. split; [exact HP' | reflexivity].
Qed.

Lemma execute_order_handler (o : OrderEvent.t)
    (xg : ExecutionHandler.t * NpRandom.t) :
  (final (ExecutionHandler.execute_order o xg)).1 = xg.1.
Proof.
  destruct xg as [x g].
  destruct (ExecutionHandler.current_prices x !! OrderEvent.symbol o)
    as [b|] eqn:Hb.
  - rewrite (execute_order_known_price x g o b Hb). reflexivity.
  - rewrite (execute_order_unknown_price x g o Hb). reflexivity.
Qed.

Section PriceCaches.

Context {T : Type} {strat : Strategy T}.

Implicit Types (c : Components T).

Lemma handle_market_event_state (m : MarketEvent.t) c :
  let r := handle_market_event (EMarket m) c in
  portfolio (final r)
    = final (Portfolio.update_market_price (MarketEvent.symbol m)
               (MarketEvent.close m) (MarketEvent.timestamp m) (portfolio c)) /\
  execution_handler (final r)
    = final (ExecutionHandler.update_market_price (MarketEvent.symbol m)
               (MarketEvent.close m) (execution_handler c)).
Proof.
  unfold handle_market_event. cbn zeta.
  destruct (update_market_price_run (MarketEvent.symbol m)
              (MarketEvent.close m) (MarketEvent.timestamp m) (portfolio c))
    as (Ho1 & He1 & _).
  destruct (execution_update_run (MarketEvent.symbol m) (MarketEvent.close m)
              (execution_handler c)) as (Ho2 & He2).
  unfold bind, zoom, get_state. cbn beta.
  destruct (Portfolio.update_market_price (MarketEvent.symbol m)
              (MarketEvent.close m) (MarketEvent.timestamp m) (portfolio c))
    as [o1 p1 em1 co1].
  cbn [outcome final emitted console] in *. subst o1 em1.
  cbn [execution_handler set_portfolio].
  destruct (ExecutionHandler.update_market_price (MarketEvent.symbol m)
              (MarketEvent.close m) (execution_handler c))
    as [o2 x2 em2 co2].
  cbn [outcome final emitted console] in *. subst o2 em2.
  cbn [outcome final emitted console portfolio execution_handler
       set_strategy set_execution_handler set_portfolio].
  auto.
Qed.

Lemma demo_handlers_keep_prices e c :
  prices_agree c ->
  prices_agree (final (call_handlers (handlers demo_engine (event_type e)) e c)).
Proof.
  unfold prices_agree. intros Hagree.
  rewrite demo_handlers. cbn [call_handlers]. rewrite bind_ret_r.
  destruct e as [m|s|o|f]; cbn [event_type].
  - destruct (handle_market_event_state m c) as [-> ->].
    destruct (update_market_price_fields (MarketEvent.symbol m)
                (MarketEvent.close m) (MarketEvent.timestamp m) (portfolio c))
      as (_ & _ & _ & -> & _).
    cbn [ExecutionHandler.update_market_price bind get_state set_state final
         ExecutionHandler.current_prices outcome].
    rewrite Hagree. reflexivity.
  - unfold handle_signal_event, zoom.
    cbn [final portfolio execution_handler set_portfolio].
    destruct (process_signal_final (portfolio c) s) as [-> _]. exact Hagree.
  - unfold handle_order_event, zoom.
    cbn [final portfolio execution_handler set_execution].
    rewrite execute_order_handler. exact Hagree.
  - unfold handle_fill_event, zoom.
    cbn [final portfolio execution_handler set_portfolio].
    destruct (process_fill_fields f (portfolio c)) as (_ & _ & _ & -> & _).
    exact Hagree.
Qed.

Lemma backtest_loop_keeps_prices (drain_fuel fuel : nat) :
  forall (eng : EventEngine (Components T)) c (n : nat) r,
    handlers eng = handlers demo_engine ->
    prices_agree c ->
    backtest_loop drain_fuel fuel eng c n = Some r ->
    prices_agree (final r).2.
Proof.
  induction fuel as [|fuel IH]; intros eng c n r Hh Hagree Hrun;
    [discriminate Hrun|].
  cbn [backtest_loop] in Hrun.
  assert (H0 : prices_agree
                 (final (zoom data_handler set_data_handler
                           DataHandler.stream_next_bar c))) by exact Hagree.
  remember (zoom data_handler set_data_handler DataHandler.stream_next_bar c)
    as r0 eqn:Hr0. clear Hr0.
  destruct (outcome r0) as [[|]|x].
  - destruct (process_events drain_fuel (enqueue_all (emitted r0) eng) (final r0))
      as [d|] eqn:Hd; [|discriminate Hrun].
    destruct (process_events_invariant prices_agree (handlers demo_engine)
                demo_handlers_keep_prices drain_fuel
                (enqueue_all (emitted r0) eng) (final r0) d Hh H0 Hd)
      as [Hd2 Hh'].
    destruct (outcome d) as [[]|x].
    + destruct (backtest_loop drain_fuel fuel (final d).1 (final d).2 (S n))
        as [r'|] eqn:Hrec; [|discriminate Hrun].
      injection Hrun as <-. cbn [final].
      apply (IH _ _ _ _ Hh' Hd2 Hrec).
    + injection Hrun as <-. exact Hd2.
  - injection Hrun as <-. exact H0.
  - injection Hrun as <-. exact H0.
Qed.

End PriceCaches.

(** X14: in the wiring of the demo the portfolio and the execution handler
    always hold the same prices: each market event writes its close into
    both caches before the strategy is asked, and nothing else writes to
    either.  This holds at the end of every run, whether it returned or
    was ended by an exception, and for every strategy. *)
Theorem X14_price_caches_agree {T : Type} (strat_class : Strategy T)
    (symbols : list string) (data : gmap string (list DataHandler.Bar))
    (strat : T) (capital : Q) (rng : NpRandom.t) (drain_fuel fuel : nat) r :
  run_backtest (strategy_class := strat_class) drain_fuel fuel symbols data
    strat capital rng = Some r ->
  Portfolio.current_prices (portfolio (final r).2)
  = ExecutionHandler.current_prices (execution_handler (final r).2).
Proof.
  unfold run_backtest. intros Hrun.
  apply (backtest_loop_keeps_prices (strat := strat_class) drain_fuel fuel
           demo_engine (initial_components symbols data strat capital rng)
           0%nat r eq_refl eq_refl Hrun).
Qed.

(** X14 at the run with AAPL (three bars) and MSFT (one bar). *)
Lemma X14_price_caches_agree_witness :
  exists r,
    uneven_run = Some r /\
    Portfolio.current_prices (portfolio (final r).2)
    = ExecutionHandler.current_prices (execution_handler (final r).2).
Proof.
  assert (Hsum : exists s, run_summary uneven_run = Some s)
    by (eexists; vm_compute; reflexivity).
  destruct Hsum as [s Hsum].
  destruct uneven_run as [r|] eqn:Hrun; [|discriminate Hsum].
  exists r. split; [reflexivity|].
  apply (X14_price_caches_agree (mean_reversion_strategy floor_sqrt)
           ["AAPL"; "MSFT"] uneven_data (MeanReversionStrategy.init "AAPL" 20 2)
           100000%Q midpoint_rng 9 5 r Hrun).
Defined.

(** * Further properties of the strategy *)

Lemma capped_ratio_emit (np_sqrt : Q -> Q) (m : MarketEvent.t) (num std : Q)
    (ty : SignalType.t) (pos : Z) (s : MeanReversionStrategy.t) :
  let r := (strength <- MeanReversionStrategy.capped_ratio num std ;;
            MeanReversionStrategy.emit_signal m ty strength pos) s in
  outcome r = Returned tt /\
  final r = with_position s pos /\
  emitted r = [ESignal (SignalEvent.mk (MarketEvent.timestamp m)
                          (MeanReversionStrategy.symbol s) ty
                          (if Qeq_bool std 0 then 1%Q
                           else Num.py_min 1 (num / std)))].
Proof.
  unfold MeanReversionStrategy.capped_ratio.
  destruct (Qeq_bool std 0); repeat split.
Qed.

(** One call: nothing, or a LONG from flat, or an EXIT from long; the signal
    carries the timestamp of the event and the symbol of the strategy,
    which is the symbol of the event. *)
Lemma calculate_signals_cases (np_sqrt : Q -> Q) (m : MarketEvent.t)
    (dh : DataHandler.t) (s : MeanReversionStrategy.t) :
  let r := MeanReversionStrategy.calculate_signals np_sqrt m dh s in
  outcome r = Returned tt /\
  ((emitted r = [] /\ final r = s) \/
   (exists strength,
      MeanReversionStrategy.position s = 0%Z /\
      MarketEvent.symbol m = MeanReversionStrategy.symbol s /\
      emitted r = [ESignal (SignalEvent.mk (MarketEvent.timestamp m)
                              (MeanReversionStrategy.symbol s)
                              SignalType.LONG strength)] /\
      final r = with_position s 1) \/
   (exists strength,
      MeanReversionStrategy.position s = 1%Z /\
      MarketEvent.symbol m = MeanReversionStrategy.symbol s /\
      emitted r = [ESignal (SignalEvent.mk (MarketEvent.timestamp m)
                              (MeanReversionStrategy.symbol s)
                              SignalType.EXIT strength)] /\
      final r = with_position s 0)).
Proof.
  unfold MeanReversionStrategy.calculate_signals. cbn zeta. rewrite bind_get.
  destruct (String.eqb_spec (MarketEvent.symbol m) (MeanReversionStrategy.symbol s))
    as [Hsym|Hsym]; cbn [negb]; [|split; [reflexivity | left; split; reflexivity]].
  destruct (DataHandler.get_latest_bars _ _ _) as [bars|];
    [|split; [reflexivity | left; split; reflexivity]].
  destruct (_ <? _)%Z; [split; [reflexivity | left; split; reflexivity]|].
  destruct (MeanReversionStrategy.series_mean _) as [sma|];
    [|split; [reflexivity | left; split; reflexivity]].
  destruct (MeanReversionStrategy.series_std _ _) as [std|];
    [|split; [reflexivity | left; split; reflexivity]].
  match goal with
  | |- context [if ?c then _ else _] => destruct c eqn:Hlong
  end.
  { apply andb_true_iff in Hlong. destruct Hlong as [_ Hpos].
    apply Z.eqb_eq in Hpos.
    destruct (capped_ratio_emit np_sqrt m
                (sma - MeanReversionStrategy.num_std s * std - MarketEvent.close m)%Q
                std SignalType.LONG 1 s) as (Ho & Hf & He).
    cbn zeta in Ho, Hf, He. split; [exact Ho|].
    right. left. eexists. repeat split; eassumption. }
  match goal with
  | |- context [if ?c then _ else _] => destruct c eqn:Hexit
  end.
  { apply andb_true_iff in Hexit. destruct Hexit as [_ Hpos].
    apply Z.eqb_eq in Hpos.
    destruct (capped_ratio_emit np_sqrt m
                (MarketEvent.close m - (sma + MeanReversionStrategy.num_std s * std))%Q
                std SignalType.EXIT 0 s) as (Ho & Hf & He).
    cbn zeta in Ho, Hf, He. split; [exact Ho|].
    right. right. eexists. repeat split; eassumption. }
  match goal with
  | |- context [if ?c then _ else _] => destruct c eqn:Hrevert
  end.
  { apply andb_true_iff in Hrevert. destruct Hrevert as [_ Hpos].
    apply Z.eqb_eq in Hpos.
    split; [reflexivity|]. right. right. eexists. repeat split; eassumption. }
  split; [reflexivity | left; split; reflexivity].
Qed.

Lemma run_strategy_alternates (np_sqrt : Q -> Q)
    (calls : list (MarketEvent.t * DataHandler.t)) :
  forall s,
    (MeanReversionStrategy.position s = 0%Z ->
     alternates true (run_strategy np_sqrt calls s).2) /\
    (MeanReversionStrategy.position s = 1%Z ->
     alternates false (run_strategy np_sqrt calls s).2).
Proof.
  induction calls as [|[m dh] calls IH]; intros s; [cbn; auto|].
  cbn [run_strategy snd].
  destruct (calculate_signals_cases np_sqrt m dh s)
    as (_ & [[-> ->] | [(st & Hp & _ & -> & ->) | (st & Hp & _ & -> & ->)]]);
    cbn [app alternates SignalEvent.signal_type].
  - apply IH.
  - split; intros Hp'; [|congruence]. apply IH. reflexivity.
  - split; intros Hp'; [congruence|]. apply IH. reflexivity.
Qed.

(** X15: over any sequence of market events a fresh mean-reversion
    strategy puts only LONG and EXIT signals (never a SHORT, never
    anything but signals), at most one per event, and they alternate,
    starting with a LONG: it never signals a second LONG before an EXIT,
    nor an EXIT while flat.  Its flag ends at 0 or 1. *)
Theorem X15_signals_alternate (np_sqrt : Q -> Q)
    (calls : list (MarketEvent.t * DataHandler.t))
    (symbol : string) (lookback : Z) (num_std : Q) :
  let r := run_strategy np_sqrt calls
             (MeanReversionStrategy.init symbol lookback num_std) in
  alternates true r.2 /\
  (length r.2 <= length calls)%nat /\
  (MeanReversionStrategy.position r.1 = 0%Z
   \/ MeanReversionStrategy.position r.1 = 1%Z).
Proof.
  cbn zeta. split; [|split].
  - apply run_strategy_alternates. reflexivity.
  - generalize (MeanReversionStrategy.init symbol lookback num_std).
    induction calls as [|[m dh] calls IH]; intros s; [cbn; lia|].
    cbn [run_strategy snd]. rewrite length_app. specialize (IH
      (final (MeanReversionStrategy.calculate_signals np_sqrt m dh s))).
    destruct (calculate_signals_cases np_sqrt m dh s)
      as (_ & [[He _] | [(st & _ & _ & He & _) | (st & _ & _ & He & _)]]);
      rewrite He; cbn [length]; lia.
  - assert (Hgen : forall s,
      (MeanReversionStrategy.position s = 0%Z
       \/ MeanReversionStrategy.position s = 1%Z) ->
      (MeanReversionStrategy.position (run_strategy np_sqrt calls s).1 = 0%Z
       \/ MeanReversionStrategy.position (run_strategy np_sqrt calls s).1 = 1%Z)).
    { induction calls as [|[m dh] calls IH]; intros s Hs; [exact Hs|].
      cbn [run_strategy fst]. apply IH.
      destruct (calculate_signals_cases np_sqrt m dh s)
        as (_ & [[_ ->] | [(st & _ & _ & _ & ->) | (st & _ & _ & _ & ->)]]);
        cbn; auto. }
    apply Hgen. left. reflexivity.
Qed.

Lemma Qlt_bool_lt (a b : Q) : Num.Qlt_bool a b = true -> (a < b)%Q.
Proof.
  unfold Num.Qlt_bool. intros H. apply negb_true_iff in H.
  destruct (Qlt_le_dec a b) as [Hlt|Hle]; [exact Hlt|].
  apply Qle_bool_iff in Hle. congruence.
Qed.

Lemma py_min_one_range (x : Q) :
  (0 < x)%Q -> (0 < Num.py_min 1 x /\ Num.py_min 1 x <= 1)%Q.
Proof.
  intros Hx. unfold Num.py_min.
  destruct (Num.Qlt_bool x 1) eqn:E.
  - apply Qlt_bool_lt in E. split; lra.
  - split; lra.
Qed.

Lemma capped_strength_range (num std : Q) :
  (0 < num)%Q -> (0 <= std)%Q ->
  (0 < (if Qeq_bool std 0 then 1 else Num.py_min 1 (num / std)) <= 1)%Q.
Proof.
  intros Hnum Hstd. destruct (Qeq_bool std 0) eqn:E; [split; lra|].
  apply Qeq_bool_neq in E. apply py_min_one_range.
  apply Qlt_shift_div_l; lra.
Qed.

(** X16: with a square root that is never negative, every signal the
    mean-reversion strategy puts has a strength in (0, 1]: the ratio to
    the deviation is positive in both band branches and capped at 1 (also
    when the deviation is 0), and the reversion EXIT has strength 0.5. *)
Theorem X16_signal_strength_range (np_sqrt : Q -> Q) (m : MarketEvent.t)
    (dh : DataHandler.t) (s : MeanReversionStrategy.t) (sg : SignalEvent.t) :
  (forall x, (0 <= np_sqrt x)%Q) ->
  In (ESignal sg)
     (emitted (MeanReversionStrategy.calculate_signals np_sqrt m dh s)) ->
  (0 < SignalEvent.strength sg <= 1)%Q.
Proof.
  intros Hsqrt.
  unfold MeanReversionStrategy.calculate_signals. rewrite bind_get.
  destruct (negb _); [intros []|].
  destruct (DataHandler.get_latest_bars _ _ _) as [bars|]; [|intros []].
  destruct (_ <? _)%Z; [intros []|].
  destruct (MeanReversionStrategy.series_mean _) as [sma|]; [|intros []].
  destruct (MeanReversionStrategy.series_std _ _) as [std|] eqn:Hstd; [|intros []].
  assert (Hstd0 : (0 <= std)%Q).
  { unfold MeanReversionStrategy.series_std in Hstd.
    destruct (MeanReversionStrategy.series_var _) as [v|]; [|discriminate Hstd].
    injection Hstd as <-. apply Hsqrt. }
  match goal with
  | |- context [if ?c then _ else _] => destruct c eqn:Hlong
  end.
  { apply andb_true_iff in Hlong. destruct Hlong as [Hlt _].
    apply Qlt_bool_lt in Hlt.
    destruct (capped_ratio_emit np_sqrt m
                (sma - MeanReversionStrategy.num_std s * std - MarketEvent.close m)%Q
                std SignalType.LONG 1 s) as (_ & _ & He).
    cbn zeta in He. rewrite He. intros [Hsg|[]]. injection Hsg as <-.
    cbn [SignalEvent.strength]. apply capped_strength_range; lra. }
  match goal with
  | |- context [if ?c then _ else _] => destruct c eqn:Hexit
  end.
  { apply andb_true_iff in Hexit. destruct Hexit as [Hlt _].
    apply Qlt_bool_lt in Hlt.
    destruct (capped_ratio_emit np_sqrt m
                (MarketEvent.close m - (sma + MeanReversionStrategy.num_std s * std))%Q
                std SignalType.EXIT 0 s) as (_ & _ & He).
    cbn zeta in He. rewrite He. intros [Hsg|[]]. injection Hsg as <-.
    cbn [SignalEvent.strength]. apply capped_strength_range; lra. }
  match goal with
  | |- context [if ?c then _ else _] => destruct c eqn:Hrevert
  end.
  { intros [Hsg|[]]. injection Hsg as <-. cbn [SignalEvent.strength].
    split; lra. }
  intros [].
Qed.

Lemma floor_sqrt_nonneg (x : Q) : (0 <= floor_sqrt x)%Q.
Proof.
  unfold floor_sqrt. apply Qle_shift_div_l.
  - reflexivity.
  - rewrite Qmult_0_l. change 0%Q with (inject_Z 0). rewrite <- Zle_Qle.
    apply Z.sqrt_nonneg.
Qed.

(** X16 at the band scenario: the LONG put there has strength 1. *)
Lemma X16_signal_strength_range_witness :
  (0 < SignalEvent.strength
         (SignalEvent.mk 19%Z "AAPL" SignalType.LONG 1%Q) <= 1)%Q.
Proof.
  apply (X16_signal_strength_range floor_sqrt band_market_event
           band_data_handler (MeanReversionStrategy.init "AAPL" 20 2)).
  - exact floor_sqrt_nonneg.
  - vm_compute. left. reflexivity.
Defined.

Lemma series_std_short (np_sqrt : Q -> Q) (xs : list Q) :
  (length xs <= 1)%nat -> MeanReversionStrategy.series_std np_sqrt xs = None.
Proof.
  intros Hlen. unfold MeanReversionStrategy.series_std,
    MeanReversionStrategy.series_var.
  destruct (MeanReversionStrategy.series_mean xs); [|reflexivity].
  apply Nat.leb_le in Hlen. rewrite Hlen. reflexivity.
Qed.

(** X17: a mean-reversion strategy with a window of one bar or less never
    signals, whatever the prices: the sample deviation of fewer than two
    closes is not a number, every band comparison is then false, and the
    call returns without putting, printing or changing anything.  The
    window length is not checked when the strategy is built. *)
Theorem X17_window_of_one_never_signals (np_sqrt : Q -> Q)
    (m : MarketEvent.t) (dh : DataHandler.t) (s : MeanReversionStrategy.t) :
  (MeanReversionStrategy.lookback s <= 1)%Z ->
  MeanReversionStrategy.calculate_signals np_sqrt m dh s
  = mkRun (Returned tt) s [] [].
Proof.
  intros Hlb. unfold MeanReversionStrategy.calculate_signals. rewrite bind_get.
  destruct (negb _); [reflexivity|].
  destruct (DataHandler.get_latest_bars dh (MeanReversionStrategy.symbol s)
              (MeanReversionStrategy.lookback s)) as [bars|] eqn:Hbars;
    [|reflexivity].
  destruct (_ <? _)%Z; [reflexivity|].
  assert (Hlen : (length (map DataHandler.close bars) <= 1)%nat).
  { rewrite length_map.
    unfold DataHandler.get_latest_bars in Hbars.
    destruct (DataHandler.data dh !! MeanReversionStrategy.symbol s) as [df|];
      [|discriminate Hbars].
    destruct (_ <? _)%Z; [discriminate Hbars|].
    injection Hbars as <-. unfold DataHandler.iloc_slice.
    rewrite length_take. lia. }
  rewrite (series_std_short np_sqrt _ Hlen).
  destruct (MeanReversionStrategy.series_mean _); reflexivity.
Qed.

(** X17 at the band scenario with a window of 1 instead of 20: the close
    of 80 after nineteen closes of 100 puts nothing. *)
Lemma X17_window_of_one_never_signals_witness :
  emitted (MeanReversionStrategy.calculate_signals floor_sqrt band_market_event
             band_data_handler (MeanReversionStrategy.init "AAPL" 1 2)) = [].
Proof.
  rewrite (X17_window_of_one_never_signals floor_sqrt band_market_event
             band_data_handler (MeanReversionStrategy.init "AAPL" 1 2)).
  - reflexivity.
  - cbn. lia.
Defined.

(** * Further properties of the execution simulator *)

Lemma round_half_even_bounds (x : Q) :
  (Qfloor x <= Num.round_half_even x <= Qceiling x)%Z.
Proof.
  unfold Num.round_half_even.
  pose proof (Qfloor_le x) as Hfl. pose proof (Qle_ceiling x) as Hce.
  assert (Hfc : (Qfloor x <= Qceiling x)%Z).
  { rewrite Zle_Qle. lra. }
  destruct (Num.Qlt_bool (x - inject_Z (Qfloor x)) (1 # 2)) eqn:Hlow; [lia|].
  assert (Hhalf : (inject_Z (Qfloor x) + (1 # 2) <= x)%Q).
  { destruct (Qlt_le_dec (x - inject_Z (Qfloor x)) (1 # 2)) as [Hlt|Hle];
      [|lra].
    apply Qlt_bool_true in Hlt. congruence. }
  assert (Hup : (Qfloor x + 1 <= Qceiling x)%Z).
  { assert (Hlt : (inject_Z (Qfloor x) < inject_Z (Qceiling x))%Q) by lra.
    rewrite <- Zlt_Qlt in Hlt. lia. }
  destruct (Num.Qlt_bool (1 # 2) (x - inject_Z (Qfloor x))); [lia|].
  destruct (Z.even (Qfloor x)); lia.
Qed.

(** X18: the fill of an order with a known price is for the whole order:
    the same symbol, quantity and direction (no partial fill, no fill of
    another size); its commission is [fill_price * quantity *
    commission_pct]; and, for latency bounds [low <= high], its timestamp
    lies between the order's timestamp plus [low] and plus [high]
    milliseconds, rounded to microseconds: it never precedes the order when
    [low] is not negative. *)
Theorem X18_fill_mirrors_order (self : ExecutionHandler.t) (rng : NpRandom.t)
    (event : OrderEvent.t) (b : Q) :
  ExecutionHandler.current_prices self !! OrderEvent.symbol event = Some b ->
  ((ExecutionHandler.latency_ms self).1 <= (ExecutionHandler.latency_ms self).2)%Q ->
  (0 <= NpRandom.draws rng (NpRandom.cursor rng) <= 1)%Q ->
  exists fill,
    emitted (ExecutionHandler.execute_order event (self, rng)) = [EFill fill] /\
    FillEvent.symbol fill = OrderEvent.symbol event /\
    FillEvent.quantity fill = OrderEvent.quantity event /\
    FillEvent.direction fill = OrderEvent.direction event /\
    FillEvent.commission fill
      = (FillEvent.fill_price fill * inject_Z (OrderEvent.quantity event)
         * ExecutionHandler.commission_pct self)%Q /\
    (OrderEvent.timestamp event
     + Qfloor ((ExecutionHandler.latency_ms self).1 * 1000)
     <= FillEvent.timestamp fill
     <= OrderEvent.timestamp event
        + Qceiling ((ExecutionHandler.latency_ms self).2 * 1000))%Z.
Proof.
  intros Hb Hlat Hu.
  rewrite (execute_order_known_price self rng event b Hb).
  eexists. split; [reflexivity|].
  cbn [FillEvent.symbol FillEvent.quantity FillEvent.direction
       FillEvent.commission FillEvent.fill_price FillEvent.timestamp].
  repeat (split; [reflexivity|]).
  unfold ExecutionHandler.add_latency.
  set (lo := (ExecutionHandler.latency_ms self).1) in *.
  set (hi := (ExecutionHandler.latency_ms self).2) in *.
  set (u := NpRandom.draws rng (NpRandom.cursor rng)) in *.
  set (x := ((lo + (hi - lo) * u) / 1000 * 1000 * 1000)%Q).
  assert (Hx : (lo * 1000 <= x <= hi * 1000)%Q).
  { assert (Hxe : (x == (lo + (hi - lo) * u) * 1000)%Q) by (subst x; field).
    rewrite Hxe. split; nra. }
  pose proof (round_half_even_bounds x) as [Hr1 Hr2].
  pose proof (Qfloor_resp_le _ _ (proj1 Hx)).
  pose proof (Qceiling_resp_le _ _ (proj2 Hx)).
  lia.
Qed.

(** X18 at the default latency bounds of 10 and 50 ms and a draw of 1/2:
    the fill is stamped between 10000 and 50000 microseconds after the
    order. *)
Lemma X18_fill_mirrors_order_witness :
  exists fill,
    emitted (ExecutionHandler.execute_order buy_order
               (quoted_execution, midpoint_rng)) = [EFill fill] /\
    (0 + 10000 <= FillEvent.timestamp fill <= 0 + 50000)%Z.
Proof.
  destruct (X18_fill_mirrors_order quoted_execution midpoint_rng buy_order 100%Q)
    as (fill & Hfill & _ & _ & _ & _ & Hts).
  - reflexivity.
  - cbn. discriminate.
  - cbn. split; discriminate.
  - exists fill. split; [exact Hfill | exact Hts].
Defined.



(** X20: the price an order is filled against is the close of the latest
    market update of its symbol: after [update_market_price(symbol, p)],
    whatever was recorded before, an order for that symbol is never
    dropped and its fill is priced from [p] (above [p] by the slippage for
    a BUY, below it otherwise); updates of other symbols do not change
    this. *)
Theorem X20_fill_uses_latest_update (self : ExecutionHandler.t)
    (rng : NpRandom.t) (event : OrderEvent.t) (p : Q)
    (others : list (string * Q)) :
  Forall (fun sp => sp.1 <> OrderEvent.symbol event) others ->
  let updated :=
    fold_left (fun x sp => final (ExecutionHandler.update_market_price sp.1 sp.2 x))
      others
      (final (ExecutionHandler.update_market_price
                (OrderEvent.symbol event) p self)) in
  exists fill,
    emitted (ExecutionHandler.execute_order event (updated, rng)) = [EFill fill] /\
    console (ExecutionHandler.execute_order event (updated, rng)) = [] /\
    FillEvent.slippage fill = Qabs (FillEvent.fill_price fill - p).
Proof.
  intros Hothers updated.
  assert (Hprice : ExecutionHandler.current_prices updated
                   !! OrderEvent.symbol event = Some p).
  { subst updated.
    assert (Hstart : ExecutionHandler.current_prices
              (final (ExecutionHandler.update_market_price
                        (OrderEvent.symbol event) p self))
              !! OrderEvent.symbol event = Some p)
      by apply lookup_insert_eq.
    revert Hstart.
    generalize (final (ExecutionHandler.update_market_price
                         (OrderEvent.symbol event) p self)).
    induction Hothers as [|[s q] others Hne _ IH]; intros x Hx; [exact Hx|].
    cbn [fold_left]. apply IH.
    cbn [ExecutionHandler.update_market_price bind get_state set_state final
         outcome ExecutionHandler.current_prices fst snd].
    rewrite lookup_insert_ne by exact Hne. exact Hx. }
  rewrite (execute_order_known_price updated rng event p Hprice).
  eexists. repeat split.
Qed.

(** X20 at a handler that recorded AAPL at 90, then at 100, then MSFT at
    7: an AAPL order is filled from 100. *)
Lemma X20_fill_uses_latest_update_witness :
  exists fill,
    emitted (ExecutionHandler.execute_order buy_order
               (fold_left
                  (fun x sp => final (ExecutionHandler.update_market_price sp.1 sp.2 x))
                  [("MSFT", 7%Q)]
                  (final (ExecutionHandler.update_market_price "AAPL" 100%Q
                            (final (ExecutionHandler.update_market_price
                                      "AAPL" 90%Q ExecutionHandler.init)))),
                midpoint_rng)) = [EFill fill] /\
    FillEvent.slippage fill = Qabs (FillEvent.fill_price fill - 100).
Proof.
  destruct (X20_fill_uses_latest_update
              (final (ExecutionHandler.update_market_price "AAPL" 90%Q
                        ExecutionHandler.init))
              midpoint_rng buy_order 100%Q [("MSFT", 7%Q)])
    as (fill & Hfill & _ & Hslip).
  - repeat constructor. cbn. discriminate.
  - exists fill. split; [exact Hfill | exact Hslip].
Defined.

(** * Orders in the demo loop *)

(** An invariant of the queue and the handlers' state that every handling
    of the head event keeps is kept by a drain, and what the handlers may
    print bounds what the drain prints. *)
Lemma process_events_queue_invariant {St : Type}
    (I : list Event -> St -> Prop) (L : string -> Prop)
    (hs : EventType.t -> list (Handler St)) :
  (forall e rest st,
     I (e :: rest) st ->
     let r := call_handlers (hs (event_type e)) e st in
     I (rest ++ emitted r) (final r) /\ Forall L (console r)) ->
  forall (fuel : nat) (eng : EventEngine St) (st : St) d,
    handlers eng = hs ->
    I (event_queue eng) st ->
    process_events fuel eng st = Some d ->
    I (event_queue (final d).1) (final d).2 /\ Forall L (console d).
Proof.
  intros Hstep. induction fuel as [|fuel IH]; intros eng st d Hh HI Hrun;
    [discriminate Hrun|].
  cbn [process_events] in Hrun. rewrite Hh in Hrun.
  destruct (event_queue eng) as [|e rest] eqn:Hq.
  - injection Hrun as <-. cbn [final fst snd console]. rewrite Hq.
    split; [exact HI | constructor].
  - destruct (Hstep e rest st HI) as [HI' HL]. cbn zeta in HI', HL.
    destruct (outcome (call_handlers (hs (event_type e)) e st)).
    + destruct (process_events fuel _ _) as [d'|] eqn:Hrec; [|discriminate Hrun].
      injection Hrun as <-. cbn [final console].
      destruct (IH (mkEngine _ hs _) _ _ eq_refl HI' Hrec) as [HId HLd].
      split; [exact HId | apply Forall_app; split; assumption].
    + injection Hrun as <-. split; [exact HI' | exact HL].
Qed.

Lemma calculate_signals_console (np_sqrt : Q -> Q) (m : MarketEvent.t)
    (dh : DataHandler.t) (s : MeanReversionStrategy.t) :
  Forall is_divide_warning
    (console (MeanReversionStrategy.calculate_signals np_sqrt m dh s)).
Proof.
  assert (Hemit : forall num std ty pos s0,
    Forall is_divide_warning
      (console ((strength <- MeanReversionStrategy.capped_ratio num std ;;
                 MeanReversionStrategy.emit_signal m ty strength pos) s0))).
  { intros num std ty pos s0. unfold MeanReversionStrategy.capped_ratio.
    destruct (Qeq_bool std 0); cbn; repeat constructor. }
  unfold MeanReversionStrategy.calculate_signals. rewrite bind_get.
  destruct (negb _); [constructor|].
  destruct (DataHandler.get_latest_bars _ _ _) as [bars|]; [|constructor].
  destruct (_ <? _)%Z; [constructor|].
  destruct (MeanReversionStrategy.series_mean _) as [sma|]; [|constructor].
  destruct (MeanReversionStrategy.series_std _ _) as [std|]; [|constructor].
  destruct (_ && _); [apply Hemit|].
  destruct (_ && _); [apply Hemit|].
  destruct (_ && _); constructor.
Qed.

Lemma handle_market_event_console {T : Type} {strat : Strategy T}
    (m : MarketEvent.t) (c : Components T) :
  console (handle_market_event (EMarket m) c)
  = console (calculate_signals m (data_handler c) (strategy c)).
Proof.
  unfold handle_market_event.
  destruct (update_market_price_run (MarketEvent.symbol m)
              (MarketEvent.close m) (MarketEvent.timestamp m) (portfolio c))
    as (Ho1 & He1 & _).
  assert (Hc1 : console (Portfolio.update_market_price (MarketEvent.symbol m)
              (MarketEvent.close m) (MarketEvent.timestamp m) (portfolio c)) = [])
    by reflexivity.
  destruct (execution_update_run (MarketEvent.symbol m) (MarketEvent.close m)
              (execution_handler c)) as (Ho2 & He2).
  assert (Hc2 : console (ExecutionHandler.update_market_price
              (MarketEvent.symbol m) (MarketEvent.close m)
              (execution_handler c)) = []) by reflexivity.
  unfold bind, zoom, get_state. cbn beta.
  destruct (Portfolio.update_market_price (MarketEvent.symbol m)
              (MarketEvent.close m) (MarketEvent.timestamp m) (portfolio c))
    as [o1 p1 em1 co1].
  cbn [outcome final emitted console] in *. subst o1 em1 co1.
  cbn [execution_handler set_portfolio].
  destruct (ExecutionHandler.update_market_price (MarketEvent.symbol m)
              (MarketEvent.close m) (execution_handler c))
    as [o2 x2 em2 co2].
  cbn [outcome final emitted console] in *. subst o2 em2 co2.
  cbn [outcome final emitted console data_handler strategy
       set_execution_handler set_portfolio app].
  reflexivity.
Qed.

Lemma put_bars_console (syms : list string) (d : DataHandler.t) :
  console (DataHandler.put_bars syms d) = [].
Proof.
  induction syms as [|s syms IH]; cbn [DataHandler.put_bars]; [reflexivity|].
  rewrite bind_get.
  destruct (DataHandler.data d !! s) as [df|]; [|reflexivity].
  destruct (df !! DataHandler.current_index d) as [bar|]; [|reflexivity].
  rewrite bind_put_event. exact IH.
Qed.

Lemma stream_next_bar_console (d : DataHandler.t) :
  console (DataHandler.stream_next_bar d) = [].
Proof.
  unfold DataHandler.stream_next_bar. rewrite bind_get.
  destruct (DataHandler.max_length d) as [ml|]; [|reflexivity].
  destruct (ml <=? DataHandler.current_index d)%nat; [reflexivity|].
  rewrite bind_run.
  pose proof (put_bars_console (DataHandler.symbols d) d) as Hc.
  destruct (DataHandler.put_bars (DataHandler.symbols d) d) as [[[]|x] d' em co];
    cbn [outcome final emitted console] in *; subst co; reflexivity.
Qed.

Lemma process_signal_order_symbol (event : SignalEvent.t) (p : Portfolio.t)
    (e : Event) :
  In e (emitted (Portfolio.process_signal event p)) ->
  exists o, e = EOrder o /\ OrderEvent.symbol o = SignalEvent.symbol event.
Proof.
  rewrite process_signal_run.
  destruct (Portfolio.position_size p event) as [size|x]; cbn [emitted];
    [|intros []].
  unfold process_signal_orders, Portfolio.market_order.
  destruct (size =? 0)%Z; [intros []|].
  destruct (SignalEvent.signal_type event).
  - intros [<-|[]]. eexists. split; reflexivity.
  - intros [<-|[]]. eexists. split; reflexivity.
  - destruct (Portfolio.positions p !! SignalEvent.symbol event) as [h|];
      [destruct (0 <? h)%Z|].
    + intros [<-|[]]. eexists. split; reflexivity.
    + intros [].
    + intros [].
Qed.

Lemma priced_mono {T : Type} (c c' : Components T) (e : Event) :
  (forall s, is_Some (Portfolio.current_prices (portfolio c) !! s) ->
             is_Some (Portfolio.current_prices (portfolio c') !! s)) ->
  priced c e -> priced c' e.
Proof. intros Hmono. destruct e; cbn; auto. Qed.

(** With the mean-reversion strategy, handling the head of a priced queue
    leaves a priced queue, and prints division warnings at most. *)
Lemma demo_step_priced (np_sqrt : Q -> Q) (e : Event) (rest : list Event)
    (c : Components MeanReversionStrategy.t) :
  all_priced (e :: rest) c ->
  let r := call_handlers
             (handlers (demo_engine (strategy_class := mean_reversion_strategy np_sqrt))
                       (event_type e)) e c in
  all_priced (rest ++ emitted r) (final r) /\
  Forall is_divide_warning (console r).
Proof.
  intros [Hagree Hq]. apply Forall_cons in Hq. destruct Hq as [He Hrest].
  pose proof (demo_handlers_keep_prices
                (strat := mean_reversion_strategy np_sqrt) e c Hagree) as Hagree'.
  revert Hagree'. rewrite demo_handlers. cbn [call_handlers]. cbn zeta.
  rewrite bind_ret_r. intros Hagree'.
  destruct e as [m|s|o|f]; cbn [event_type] in *.
  - (* market *)
    destruct (handle_market_event_state
                (strat := mean_reversion_strategy np_sqrt) m c) as [Hp _].
    destruct (handle_market_event_run
                (strat := mean_reversion_strategy np_sqrt) m c) as (_ & Hem & _).
    cbn zeta in Hp, Hem.
    assert (Hprices : Portfolio.current_prices
              (portfolio (final (handle_market_event
                                   (strategy_class := mean_reversion_strategy np_sqrt)
                                   (EMarket m) c)))
              = <[MarketEvent.symbol m := MarketEvent.close m]>
                  (Portfolio.current_prices (portfolio c))).
    { rewrite Hp. reflexivity. }
    split; [split; [exact Hagree'|]|].
    + apply Forall_app. split.
      * eapply Forall_impl; [exact Hrest|]. intros e' He'.
        apply (priced_mono c); [|exact He'].
        intros s' Hs'. rewrite Hprices. apply lookup_insert_is_Some'.
        right. exact Hs'.
      * rewrite Hem.
        destruct (calculate_signals_cases np_sqrt m (data_handler c) (strategy c))
          as (_ & [[He0 _] | [(st & _ & Hsym & He0 & _) | (st & _ & Hsym & He0 & _)]]);
          change (emitted (calculate_signals
                             (Strategy := mean_reversion_strategy np_sqrt)
                             m (data_handler c) (strategy c)))
            with (emitted (MeanReversionStrategy.calculate_signals np_sqrt m
                             (data_handler c) (strategy c)));
          rewrite He0; repeat constructor;
          cbn [priced SignalEvent.symbol]; rewrite Hprices, <- Hsym;
          rewrite lookup_insert_eq; eexists; reflexivity.
    + rewrite handle_market_event_console.
      apply (calculate_signals_console np_sqrt).
  - (* signal *)
    unfold handle_signal_event, zoom in *.
    cbn [final emitted console portfolio set_portfolio] in *.
    destruct (process_signal_final (portfolio c) s) as [Hfin Hcon].
    rewrite Hfin, Hcon in *. split; [split; [exact Hagree'|]|constructor].
    apply Forall_app. split.
    + eapply Forall_impl; [exact Hrest|]. intros e' He'.
      apply (priced_mono c); [|exact He']. cbn [portfolio]. auto.
    + apply Forall_forall. intros e' He'. apply list_elem_of_In in He'.
      destruct (process_signal_order_symbol s (portfolio c) e' He')
        as (ord & -> & Hsym).
      cbn [priced portfolio]. rewrite Hsym. exact He.
  - (* order *)
    unfold handle_order_event, zoom in *.
    cbn [final emitted console portfolio set_execution] in *.
    destruct He as [b Hb]. cbn [priced] in Hb.
    assert (Hxb : ExecutionHandler.current_prices (execution_handler c)
                  !! OrderEvent.symbol o = Some b).
    { rewrite <- Hagree. exact Hb. }
    revert Hagree'.
    rewrite (execute_order_known_price (execution_handler c) (np_random c) o b Hxb).
    cbn [emitted console]. intros Hagree'.
    split; [split; [exact Hagree'|]|constructor].
    apply Forall_app. split.
    + eapply Forall_impl; [exact Hrest|]. intros e' He'.
      apply (priced_mono c); [|exact He']. cbn [portfolio]. auto.
    + repeat constructor.
  - (* fill *)
    unfold handle_fill_event, zoom in *.
    cbn [final emitted console portfolio set_portfolio] in *.
    revert Hagree'.
    destruct (process_fill_run (portfolio c) f) as (_ & -> & ->).
    intros Hagree'.
    destruct (process_fill_fields f (portfolio c)) as (_ & _ & _ & Hpr & _).
    cbn zeta in Hpr.
    split; [split; [exact Hagree'|]|constructor].
    rewrite app_nil_r.
    eapply Forall_impl; [exact Hrest|]. intros e' He'.
    apply (priced_mono c); [|exact He']. cbn [portfolio set_portfolio].
    rewrite Hpr. auto.
Qed.

Lemma backtest_loop_priced (np_sqrt : Q -> Q) (drain_fuel fuel : nat) :
  forall (eng : EventEngine (Components MeanReversionStrategy.t)) c (n : nat) r,
    handlers eng
      = handlers (demo_engine (strategy_class := mean_reversion_strategy np_sqrt)) ->
    event_queue eng = [] ->
    prices_agree c ->
    backtest_loop drain_fuel fuel eng c n = Some r ->
    Forall is_divide_warning (console r).
Proof.
  induction fuel as [|fuel IH]; intros eng c n r Hh Hq Hagree Hrun;
    [discriminate Hrun|].
  cbn [backtest_loop] in Hrun.
  destruct (stream_step c) as (_ & _ & Hall & _). cbn zeta in Hall.
  assert (H0 : prices_agree
                 (final (zoom data_handler set_data_handler
                           DataHandler.stream_next_bar c))) by exact Hagree.
  assert (Hc0 : console (zoom data_handler set_data_handler
                           DataHandler.stream_next_bar c) = [])
    by apply stream_next_bar_console.
  remember (zoom data_handler set_data_handler DataHandler.stream_next_bar c)
    as r0 eqn:Hr0. clear Hr0.
  destruct (outcome r0) as [[|]|x].
  - destruct (process_events drain_fuel (enqueue_all (emitted r0) eng) (final r0))
      as [d|] eqn:Hd; [|discriminate Hrun].
    assert (Hstart : all_priced (event_queue (enqueue_all (emitted r0) eng))
                                (final r0)).
    { split; [exact H0|]. cbn [enqueue_all event_queue]. rewrite Hq.
      cbn [app]. eapply Forall_impl; [exact Hall|].
      intros [m|s|o|f] He; try discriminate He. exact I. }
    destruct (process_events_queue_invariant all_priced is_divide_warning
                (handlers (demo_engine
                             (strategy_class := mean_reversion_strategy np_sqrt)))
                (demo_step_priced np_sqrt) drain_fuel
                (enqueue_all (emitted r0) eng) (final r0) d Hh Hstart Hd)
      as [[Hagree_d _] Hcon_d].
    destruct (outcome d) as [[]|x] eqn:Hdo.
    + destruct (process_events_returns drain_fuel _ _ d Hd Hdo)
        as (_ & _ & Hq' & Hh' & _).
      cbn [enqueue_all handlers] in Hh'.
      destruct (backtest_loop drain_fuel fuel (final d).1 (final d).2 (S n))
        as [r'|] eqn:Hrec; [|discriminate Hrun].
      injection Hrun as <-. cbn [console]. rewrite Hc0. cbn [app].
      apply Forall_app. split; [exact Hcon_d|].
      apply (IH _ _ _ _ (eq_trans Hh' Hh) Hq' Hagree_d Hrec).
    + injection Hrun as <-. cbn [console]. rewrite Hc0. exact Hcon_d.
  - injection Hrun as <-. cbn [console]. rewrite Hc0. constructor.
  - injection Hrun as <-. cbn [console]. rewrite Hc0. constructor.
Qed.

(** X21: in a backtest run with the mean-reversion strategy no order is
    dropped for a missing price and no signal is sized with the
    placeholder price: a market event records its close in both price
    caches before the strategy can signal for that symbol, so every
    signal and order on the queue is for a priced symbol.  The
    missing-price warning is therefore never printed: the only lines the
    components print during a run are numpy's division warnings.  This
    holds however the run ends. *)
Theorem X21_no_order_is_dropped_in_a_run (np_sqrt : Q -> Q)
    (symbols : list string) (data : gmap string (list DataHandler.Bar))
    (strat : MeanReversionStrategy.t) (capital : Q) (rng : NpRandom.t)
    (drain_fuel fuel : nat) r :
  run_backtest (strategy_class := mean_reversion_strategy np_sqrt)
    drain_fuel fuel symbols data strat capital rng = Some r ->
  Forall is_divide_warning (console r).
Proof.
  unfold run_backtest. intros Hrun.
  apply (backtest_loop_priced np_sqrt drain_fuel fuel demo_engine
           (initial_components symbols data strat capital rng) 0%nat r
           eq_refl eq_refl eq_refl Hrun).
Qed.

(** X21 at the run with AAPL (three bars) and MSFT (one bar). *)
Lemma X21_no_order_is_dropped_in_a_run_witness :
  exists r, uneven_run = Some r /\ Forall is_divide_warning (console r).
Proof.
  assert (Hsum : exists s, run_summary uneven_run = Some s)
    by (eexists; vm_compute; reflexivity).
  destruct Hsum as [s Hsum].
  destruct uneven_run as [r|] eqn:Hrun; [|discriminate Hsum].
  exists r. split; [reflexivity|].
  apply (X21_no_order_is_dropped_in_a_run floor_sqrt ["AAPL"; "MSFT"]
           uneven_data (MeanReversionStrategy.init "AAPL" 20 2)
           100000%Q midpoint_rng 9 5 r Hrun).
Defined.

(** * Trade statistics *)

Lemma count_profitable_after (previous : Portfolio.Trade)
    (trades : list Portfolio.Trade) :
  (TradeStats.count_profitable (TradeStats.pnl_after previous trades)
   <= List.length (List.filter
                     (fun t => String.eqb (Portfolio.trade_direction t) "SELL")
                     trades))%nat /\
  List.length (TradeStats.pnl_after previous trades) = List.length trades.
Proof.
  revert previous. induction trades as [|t trades IH]; intros previous.
  - cbn. split; [lia | reflexivity].
  - destruct (IH t) as [Hc Hl].
    unfold TradeStats.count_profitable in *.
    cbn [TradeStats.pnl_after List.filter List.length].
    destruct (String.eqb (Portfolio.trade_direction t) "SELL").
    + destruct (Num.Qlt_bool 0 _); cbn [List.length]; split; lia.
    + change (Num.Qlt_bool 0 0) with false. cbn [List.length]. split; lia.
Qed.

(** X22: the hit rate the demo reports lies in [[0, 1]] and is at most the
    share of trades that are ['SELL'] rows after the first row: a BUY row
    and the first row always have a [pnl] of 0 and so count as not
    profitable.  A log without a later SELL (one trade, or buys only) has
    hit rate 0. *)
Theorem X22_hit_rate_counts_sell_rows (trades : list Portfolio.Trade) :
  let rate := TradeStats.hit_rate (TradeStats.pnl_column trades) in
  (0 <= rate <= 1)%Q /\
  (rate * inject_Z (Z.of_nat (List.length trades))
   <= inject_Z (Z.of_nat (TradeStats.later_sells trades)))%Q /\
  (TradeStats.later_sells trades = 0%nat -> rate == 0)%Q.
Proof.
  destruct trades as [|t trades]; cbn zeta.
  - cbn. repeat split; try discriminate; reflexivity.
  - cbn [TradeStats.pnl_column TradeStats.hit_rate TradeStats.later_sells tl].
    destruct (count_profitable_after t trades) as [Hc Hl].
    assert (Hcount : TradeStats.count_profitable (0%Q :: TradeStats.pnl_after t trades)
                     = TradeStats.count_profitable (TradeStats.pnl_after t trades))
      by reflexivity.
    rewrite Hcount. cbn [List.length]. rewrite Hl.
    set (k := TradeStats.count_profitable (TradeStats.pnl_after t trades)) in *.
    set (sells := List.length (List.filter _ trades)) in *.
    set (n := S (List.length trades)).
    assert (Hn : (0 < inject_Z (Z.of_nat n))%Q).
    { change 0%Q with (inject_Z 0). rewrite <- Zlt_Qlt. lia. }
    assert (Hk : (0 <= inject_Z (Z.of_nat k))%Q).
    { change 0%Q with (inject_Z 0). rewrite <- Zle_Qle. lia. }
    assert (Hks : (inject_Z (Z.of_nat k) <= inject_Z (Z.of_nat sells))%Q).
    { rewrite <- Zle_Qle. lia. }
    assert (Hsn : (inject_Z (Z.of_nat sells) < inject_Z (Z.of_nat n))%Q).
    { rewrite <- Zlt_Qlt. subst sells n.
      pose proof (List.filter_length_le
                    (fun t => String.eqb (Portfolio.trade_direction t) "SELL")
                    trades). lia. }
    assert (Hmul : (inject_Z (Z.of_nat k) / inject_Z (Z.of_nat n)
                    * inject_Z (Z.of_nat n) == inject_Z (Z.of_nat k))%Q)
      by (field; lra).
    split; [split|split].
    + apply Qle_shift_div_l; lra.
    + apply Qle_shift_div_r; lra.
    + rewrite Hmul. exact Hks.
    + intros Hz. change (sells = 0%nat) in Hz.
      assert (Hk0 : k = 0%nat) by lia.
      rewrite Hk0. reflexivity.
Qed.
